(** * saixaid: chunking, indexing and retrieval pipeline

    A shallow embedding of
      - [app/services/azure/blob.py]   (the chunker, [preprocess_and_chunk_data],
                                        and [parse_blob_url])
      - [app/services/rag/rag_service.py] ([RagService])
      - [app/api/v1/rag/router.py]     (the [/query], [/build-index-from-blob]
                                        and [/delete-index] routes)
      - [app/core/exceptions.py]       ([AppException], [handle_app_exception])
      - [app/utils/env_manager.py]     ([temporary_env])
      - [app/services/chat/chat_service.py] ([ChatService.send_message])
    together with the properties of the pipeline that were checked on it.

    External collaborators (pandas, tiktoken, Azure OpenAI, Azure AI Search,
    Azure Blob Storage, the tenant database) are not part of the repository.
    The pandas operations the chunker uses are written out as list
    functions.  The tokenizer, the two models, the ranking of the search
    service and the download are fields of an environment record, so a
    statement quantified over the environment holds whatever they answer;
    so are the requests the search service or a tenant database refuses,
    and what [float], [str.format] and [list.sort] do where the embedding
    leaves it open.  The indexes of the search service and the tenant
    databases are explicit state, threaded through every call together with
    a log of the requests sent to the models and of the searches and
    uploads. *)

From Stdlib Require Import ZArith List String Ascii Bool Lia Permutation Sorted QArith DecimalString DecimalNat.
From stdpp Require Import gmap strings.
Import ListNotations.
Open Scope string_scope.
Open Scope list_scope.
Open Scope Z_scope.

(* ================================================================== *)
(** * Python exceptions and results *)
(* ================================================================== *)

(** [app/core/exceptions.py], [ErrorCode]: the members used by the RAG
    service. *)
Inductive ErrorCode : Type :=
| NOT_FOUND
| INTERNAL_SERVER_ERROR.

Definition ErrorCode_name (c : ErrorCode) : string :=
  match c with
  | NOT_FOUND => "NOT_FOUND"
  | INTERNAL_SERVER_ERROR => "INTERNAL_SERVER_ERROR"
  end.

(** An exception value.  [LibraryError what] stands for any exception raised
    by an external library ([what] is its [str(e)]); [AppException] is the
    class of [app/core/exceptions.py] with its three stored attributes. *)
Inductive PyExc : Type :=
| ZeroDivisionError
| IndexError
| LibraryError (what : string)
| HTTPException (status_code : Z) (detail : string)
| AppException (error_code : ErrorCode) (message : string)
               (context : list (string * string)).

(** [str(e)]; for [AppException] this is its [__str__]. *)
Definition str_exc (e : PyExc) : string :=
  match e with
  | ZeroDivisionError => "integer division or modulo by zero"
  | IndexError => "single positional indexer is out-of-bounds"
  | LibraryError what => what
  | HTTPException _ detail => detail
  | AppException c m _ => "[ErrorCode." +:+ ErrorCode_name c +:+ "] " +:+ m
  end.

(** The outcome of running a Python expression: a value or a raised
    exception. *)
Inductive result (A : Type) : Type :=
| Ok (a : A)
| Raise (e : PyExc).
Arguments Ok {A} a.
Arguments Raise {A} e.

#[global] Instance result_ret : MRet result := fun A a => Ok a.

#[global] Instance result_bind : MBind result :=
  fun A B k r =>
    match r with
    | Ok a => k a
    | Raise e => Raise e
    end.

(** A [for] loop with an accumulator whose body may raise. *)
Fixpoint for_each {A S : Type} (body : S -> A -> result S) (items : list A)
         (s : S) : result S :=
  match items with
  | [] => Ok s
  | x :: rest => s' ← body s x; for_each body rest s'
  end.

(** A list comprehension whose element expression may raise. *)
Fixpoint comprehension {A B : Type} (f : A -> result B) (l : list A)
  : result (list B) :=
  match l with
  | [] => Ok []
  | x :: rest => y ← f x; ys ← comprehension f rest; Ok (y :: ys)
  end.

(** [sep.join(parts)]. *)
Definition join (sep : string) (parts : list string) : string :=
  String.concat sep parts.

(** The line feed, ["\n"]. *)
Definition LF : string := String (ascii_of_nat 10) EmptyString.

(** Truthiness of a Python list: [if xs:]. *)
Definition truthy {A : Type} (l : list A) : bool :=
  match l with [] => false | _ :: _ => true end.

(** [a // b] on Python integers. *)
Definition floordiv (a b : Z) : result Z :=
  if b =? 0 then Raise ZeroDivisionError else Ok (a / b).

(* ================================================================== *)
(** * app/services/azure/blob.py *)
(* ================================================================== *)

Module Blob.

(** One record of the exported CSV.  The two time columns are held as
    [pd.to_datetime(..., errors='coerce')] leaves them: nanoseconds since
    the epoch, [None] for [NaT].  The text columns are held as
    [astype(str)] renders them. *)
Record Row : Type := mkRow {
  Timestamp : option Z;
  User_ID : string;
  User_Name : string;
  Channel : string;
  Message : string;
  Attachments : string;
  Parent_Message_Timestamp : option Z
}.

Definition DataFrame := list Row.

(** [df[thread_field] = pd.to_datetime(df[thread_field], errors='coerce')
      .fillna(df[timestamp_field])] *)
Definition fillna (r : Row) : Row :=
  {| Timestamp := Timestamp r;
     User_ID := User_ID r;
     User_Name := User_Name r;
     Channel := Channel r;
     Message := Message r;
     Attachments := Attachments r;
     Parent_Message_Timestamp :=
       match Parent_Message_Timestamp r with
       | Some p => Some p
       | None => Timestamp r
       end |}.

(** Order of [sort_values]: ascending, [NaT] last ([na_position='last']). *)
Definition ts_leb (a b : option Z) : bool :=
  match a, b with
  | Some x, Some y => x <=? y
  | Some _, None => true
  | None, Some _ => false
  | None, None => true
  end.

Fixpoint insert_row (r : Row) (sorted : list Row) : list Row :=
  match sorted with
  | [] => [r]
  | x :: rest =>
      if ts_leb (Timestamp r) (Timestamp x) then r :: sorted
      else x :: insert_row r rest
  end.

(** [df.sort_values(timestamp_field)].  Rows with equal timestamps are kept
    in their original order here; none of the results below depends on how
    ties are broken. *)
Definition sort_values (df : DataFrame) : DataFrame :=
  fold_right insert_row [] df.

Fixpoint insert_key (k : Z) (keys : list Z) : list Z :=
  match keys with
  | [] => [k]
  | x :: rest =>
      if k <? x then k :: keys
      else if k =? x then keys
      else x :: insert_key k rest
  end.

(** The group keys of [df.groupby(thread_field)]: with the defaults
    [sort=True, dropna=True] these are the distinct non-[NaT] values of the
    column, in ascending order. *)
Definition group_keys (df : DataFrame) : list Z :=
  fold_right
    (fun r keys =>
       match Parent_Message_Timestamp r with
       | Some k => insert_key k keys
       | None => keys
       end) [] df.

Definition in_group (k : Z) (r : Row) : bool :=
  match Parent_Message_Timestamp r with
  | Some p => p =? k
  | None => false
  end.

(** [df.groupby(thread_field)], as the sequence of [(key, group)] pairs the
    [for] loop receives; a group keeps its rows in the order of [df]. *)
Definition groupby (df : DataFrame) : list (Z * list Row) :=
  List.map (fun k => (k, List.filter (in_group k) df)) (group_keys df).

(** [group[timestamp_field].max()]: [NaT] entries are skipped, and the
    result is [NaT] when nothing is left. *)
Definition ts_max (col : list (option Z)) : option Z :=
  fold_left
    (fun acc t =>
       match acc, t with
       | Some a, Some b => Some (Z.max a b)
       | None, _ => t
       | Some a, None => Some a
       end) col None.

(** [timedelta(minutes=m)] in nanoseconds. *)
Definition timedelta_minutes (m : Z) : Z := m * 60 * 1000000000.

(** The accumulators of the chunking loop. *)
Record Buffers : Type := mkBuffers {
  chunks : list string;
  current_chunk : list string;
  current_chunk_tokens : Z;
  last_ts : option Z
}.

Section Chunker.

(** [encoding.encode] for [tiktoken.get_encoding("cl100k_base")]; it raises
    on text it refuses (for instance text holding a special token). *)
Variable encode : string -> result (list N).

(** How [astype(str)] renders a cell of the [Timestamp] column. *)
Variable str_of_ts : option Z -> string.

(** [len(encoding.encode(text))] *)
Definition count_tokens (text : string) : result Z :=
  tokens ← encode text; Ok (Z.of_nat (length tokens)).

(** [group[text_fields].astype(str).agg(' '.join, axis=1)] for one row. *)
Definition text_line (r : Row) : string :=
  join " " [str_of_ts (Timestamp r); User_ID r; User_Name r; Channel r;
            Message r; Attachments r].

(** The inner loop over the lines of a thread that is too large by itself. *)
Fixpoint split_thread (target_chunk_tokens : Z) (text_lines : list string)
         (chunks : list string) (temp_chunk : list string) (temp_tokens : Z)
  : result (list string * list string) :=
  match text_lines with
  | [] => Ok (chunks, temp_chunk)
  | line :: rest =>
      line_tokens ← count_tokens line;
      if temp_tokens + line_tokens >? target_chunk_tokens
      then split_thread target_chunk_tokens rest
             (chunks ++ [join LF temp_chunk]) [line] line_tokens
      else split_thread target_chunk_tokens rest
             chunks (temp_chunk ++ [line]) (temp_tokens + line_tokens)
  end.

(** [group.iloc[0][timestamp_field]] *)
Definition iloc0_ts (group : list Row) : result (option Z) :=
  match group with
  | [] => Raise IndexError
  | r :: _ => Ok (Timestamp r)
  end.

(** The body of [for _, group in thread_groups]. *)
Definition process_group (time_window_minutes target_chunk_tokens : Z)
           (b : Buffers) (kg : Z * list Row) : result Buffers :=
  let group := snd kg in
  first_ts ← iloc0_ts group;
  let text_lines := List.map text_line group in
  let combined_text := join LF text_lines in
  combined_tokens ← count_tokens combined_text;
  (* flush when the buffer plus this thread goes over the target *)
  let b :=
    if truthy (current_chunk b)
       && (current_chunk_tokens b + combined_tokens >? target_chunk_tokens)
    then {| chunks := chunks b ++ [join LF (current_chunk b)];
            current_chunk := [];
            current_chunk_tokens := 0;
            last_ts := None |}
    else b in
  if combined_tokens >? target_chunk_tokens then
    (* the thread alone is over the target: split it by lines *)
    '(chunks', temp_chunk) ←
       split_thread target_chunk_tokens text_lines (chunks b) [] 0;
    Ok {| chunks := if truthy temp_chunk
                    then chunks' ++ [join LF temp_chunk] else chunks';
          current_chunk := current_chunk b;
          current_chunk_tokens := current_chunk_tokens b;
          last_ts := last_ts b |}
  else
    (* time-based flush *)
    let b :=
      match last_ts b, first_ts with
      | Some l, Some f =>
          if f - l >? timedelta_minutes time_window_minutes
          then {| chunks := chunks b ++ [join LF (current_chunk b)];
                  current_chunk := [];
                  current_chunk_tokens := 0;
                  last_ts := last_ts b |}
          else b
      | _, _ => b
      end in
    let group_max_ts := ts_max (List.map Timestamp group) in
    Ok {| chunks := chunks b;
          current_chunk := current_chunk b ++ text_lines;
          current_chunk_tokens := current_chunk_tokens b + combined_tokens;
          last_ts :=
            match group_max_ts with
            | None => last_ts b
            | Some m =>
                match last_ts b with
                | None => Some m
                | Some l => Some (Z.max l m)
                end
            end |}.

(** The groups in the order the loop visits them. *)
Definition thread_groups (df : DataFrame) : list (Z * list Row) :=
  groupby (sort_values (List.map fillna df)).

Definition sum_Z (l : list Z) : Z := fold_right Z.add 0 l.

(** [preprocess_and_chunk_data(df, time_window_minutes, target_chunk_tokens)].
    The three [print] calls at the end are kept for the expressions they
    evaluate: the list comprehension over [chunks] and the floor division by
    [len(token_counts)]; once that division has succeeded the list is
    non-empty and [min]/[max] cannot raise. *)
Definition preprocess_and_chunk_data (df : DataFrame)
           (time_window_minutes target_chunk_tokens : Z)
  : result (list string) :=
  b ← for_each (process_group time_window_minutes target_chunk_tokens)
         (thread_groups df)
         {| chunks := []; current_chunk := [];
            current_chunk_tokens := 0; last_ts := None |};
  let chunks :=
    if truthy (current_chunk b)
    then chunks b ++ [join LF (current_chunk b)] else chunks b in
  token_counts ← comprehension count_tokens chunks;
  _ ← floordiv (sum_Z token_counts) (Z.of_nat (length token_counts));
  Ok chunks.

(** ** What the accounting of the chunker bounds

    The loop never measures a finished passage.  It measures [pieces]: the
    text of a whole thread group on the buffer path, a single line on the
    split path, each one alone.  A passage is the join of the lines of its
    pieces. *)

Definition lines_of (rows : list Row) : list string :=
  List.map text_line rows.

(** The passage made of the given pieces. *)
Definition render (pieces : list (list Row)) : string :=
  join LF (lines_of (List.concat pieces)).

(** Every piece was measured by itself and the measurements add up to at
    most the target. *)
Definition measured (target_chunk_tokens : Z) (pieces : list (list Row))
  : Prop :=
  exists counts : list Z,
    Forall2 (fun piece n => count_tokens (join LF (lines_of piece)) = Ok n)
            pieces counts
    /\ sum_Z counts <= target_chunk_tokens.

(** The passage is one line, and that line alone is over the target. *)
Definition oversized_line (target_chunk_tokens : Z)
           (pieces : list (list Row)) : Prop :=
  exists (r : Row) (n : Z),
    pieces = [[r]]
    /\ count_tokens (text_line r) = Ok n
    /\ n > target_chunk_tokens.

(** The bound as the specification words it: the token count of the passage
    itself is at most the target, unless the passage is a single line of the
    table whose own count is over the target. *)
Definition spec_within_budget (df : DataFrame) (target_chunk_tokens : Z)
           (passage : string) : Prop :=
  exists n : Z,
    count_tokens passage = Ok n
    /\ (n <= target_chunk_tokens
        \/ exists r, In r df /\ passage = text_line r).

(** ** The invariant of the loop *)

(** Every row a piece of its own. *)
Definition singletons (rows : list Row) : list (list Row) :=
  List.map (fun r => [r]) rows.

(** A finished passage: measured piece by piece, or one oversized line, or
    made of nothing. *)
Definition accounted (target : Z) (pieces : list (list Row)) : Prop :=
  measured target pieces
  \/ oversized_line target pieces
  \/ pieces = [].

(** The temporary chunk of the split path, with its running total. *)
Definition temp_ok (target : Z) (temp_rows : list Row) (temp_tokens : Z)
  : Prop :=
  exists counts : list Z,
    Forall2 (fun r n => count_tokens (text_line r) = Ok n) temp_rows counts
    /\ sum_Z counts = temp_tokens
    /\ (temp_rows = [] \/ temp_tokens <= target
        \/ exists r, temp_rows = [r]).

(** The buffer holds whole groups, each measured by itself; the running
    total is the sum of those measurements and, unless the buffer is empty,
    at most the target. *)
Definition buffer_ok (target : Z) (b : Buffers) (pieces : list (list Row))
  : Prop :=
  current_chunk b = lines_of (List.concat pieces)
  /\ Forall (fun piece => piece <> []) pieces
  /\ exists counts : list Z,
       Forall2 (fun piece n => count_tokens (join LF (lines_of piece)) = Ok n)
               pieces counts
       /\ sum_Z counts = current_chunk_tokens b
       /\ (pieces = [] \/ current_chunk_tokens b <= target).

(** The loop invariant: the finished passages are accounted for, and the
    passages together with the buffer hold the rows visited so far. *)
Definition loop_ok (target : Z) (b : Buffers) (visited : list Row) : Prop :=
  exists (done : list (list (list Row))) (pieces : list (list Row)),
    chunks b = List.map render done
    /\ Forall (accounted target) done
    /\ buffer_ok target b pieces
    /\ Permutation
         (List.concat (List.map (@List.concat Row) done) ++ List.concat pieces)
         visited.

End Chunker.

(** A row has a key in the filled thread column. *)
Definition has_parent (r : Row) : bool :=
  match Parent_Message_Timestamp r with
  | Some _ => true
  | None => false
  end.

(** A row has a group key after [fillna] when one of its two time cells
    parsed. *)
Definition has_thread_key (r : Row) : bool :=
  match Parent_Message_Timestamp r, Timestamp r with
  | None, None => false
  | _, _ => true
  end.

(** The visiting order as the specification words it: the keys in the order
    in which their first row appears in the table sorted by timestamp. *)
Fixpoint keep_first_occurrences (seen keys : list Z) : list Z :=
  match keys with
  | [] => []
  | k :: rest =>
      if existsb (Z.eqb k) seen then keep_first_occurrences seen rest
      else k :: keep_first_occurrences (k :: seen) rest
  end.

Definition spec_first_appearance_order (df : DataFrame) : list Z :=
  keep_first_occurrences []
    (flat_map
       (fun r =>
          match Parent_Message_Timestamp r with
          | Some k => [k]
          | None => []
          end)
       (sort_values (List.map fillna df))).

(** ** The blob URL

    [download_csv_from_blob] takes the container and the blob name from the
    URL with its local function [parse_blob_url]; the download itself is
    Azure's. *)

(** [s.split(sep)] for a separator of one character. *)
Fixpoint split (sep : ascii) (s : string) : list string :=
  match s with
  | EmptyString => [EmptyString]
  | String c rest =>
      if Ascii.eqb c sep then EmptyString :: split sep rest
      else
        match split sep rest with
        | part :: parts => String c part :: parts
        | [] => [String c EmptyString]
        end
  end.

(** [parse_blob_url(url)]: [parts = url.split('/')], [parts[3]] and
    ['/'.join(parts[4:])].  [None] stands for the [IndexError] of
    [parts[3]]. *)
Definition parse_blob_url (url : string) : option (string * string) :=
  let parts := split "/" url in
  container_name ← parts !! 3%nat;
  let blob_name := join "/" (drop 4 parts) in
  Some (container_name, blob_name).

(** The number of occurrences of a character in a string. *)
Fixpoint count_char (c : ascii) (s : string) : nat :=
  match s with
  | EmptyString => 0
  | String a rest => (if Ascii.eqb a c then 1 else 0) + count_char c rest
  end.

End Blob.

(* ================================================================== *)
(** * app/services/rag/rag_service.py and app/api/v1/rag/router.py *)
(* ================================================================== *)

Module Rag.

(** [str(i)] for a non-negative integer. *)
Definition str_of_nat (i : nat) : string :=
  NilEmpty.string_of_uint (Nat.to_uint i).

(** A vector of floats, as the embedding service returns it.  Its entries,
    like the scores of the search service, are stored and passed on, never
    compared; they are held as exact rationals.  The scores the reranker
    reads with [float] are compared, and are [PyFloat]s. *)
Definition Embedding := list Q.

(** The dict [{"id": .., "content": .., "contentVector": ..}] uploaded to
    the search service. *)
Record Document : Type := mkDocument {
  id : string;
  content : string;
  contentVector : Embedding
}.

(** One result of [search_client.search]: [result["id"]],
    [result["@search.score"]], [result["content"]]. *)
Record SearchResult : Type := mkSearchResult {
  result_id : string;
  search_score : Q;
  result_content : string
}.

(** A Python [float]: a finite number, held exactly, an infinity, or
    [nan].  [float(s)] gives [nan] for the text ["nan"]. *)
Inductive PyFloat : Type :=
| Num (q : Q)
| PosInf
| NegInf
| NaN.

Definition is_nan (a : PyFloat) : bool :=
  match a with
  | NaN => true
  | _ => false
  end.

(** [a < b] on floats: false as soon as one side is [nan]. *)
Definition float_lt (a b : PyFloat) : bool :=
  match a, b with
  | NaN, _ | _, NaN => false
  | Num x, Num y => negb (Qle_bool y x)
  | Num _, PosInf => true
  | NegInf, Num _ => true
  | NegInf, PosInf => true
  | _, _ => false
  end.

(** [a <= b] on floats. *)
Definition float_le (a b : PyFloat) : Prop :=
  match a, b with
  | NaN, _ | _, NaN => False
  | Num x, Num y => (x <= y)%Q
  | NegInf, _ => True
  | _, PosInf => True
  | _, _ => False
  end.

(** The dicts built in [query_index] and [rerank_documents]. *)
Record SourceDocument : Type := mkSourceDocument {
  documentId : string;
  relevanceScore : Q;
  contentSnippet : string
}.

Record RerankedDocument : Type := mkRerankedDocument {
  reranked_documentId : string;
  originalScore : Q;
  rerankScore : PyFloat;
  reranked_contentSnippet : string
}.

(** The dict returned by [query_index]. *)
Record QueryResponse : Type := mkQueryResponse {
  answer : string;
  scores : list Q;
  sourceDocuments : list SourceDocument;
  expandedQuery : string
}.

(** The keyword arguments of [client.chat.completions.create]. *)
Record ChatRequest : Type := mkChatRequest {
  chat_model : string;
  messages : list (string * string);   (* role, content *)
  max_tokens : option Z;
  temperature : option Q
}.

(** The calls to the remote services that are logged, in the order they
    are made: the requests to the two models, the vector searches and the
    uploads.  Requests that manage indexes (get, list, create, delete) show
    in the indexes alone. *)
Inductive Call : Type :=
| EmbeddingsCreate (input model : string)
| ChatCompletionsCreate (request : ChatRequest)
| VectorSearch (index_name : string) (vector : Embedding) (top : Z)
| UploadDocuments (index_name : string) (documents : list Document).

(** A row of the tenant's [csvfile] table. *)
Record CsvFile : Type := mkCsvFile {
  companyId : string;
  blobUrl : string;
  status : string
}.

(** A tenant database: the company's prompt template and its [csvfile]
    table keyed by file id. *)
Record Tenant : Type := mkTenant {
  promptTemplate : string;
  csvfile : gmap string CsvFile
}.

(** Everything the service can change or observe from one call to the
    next: the indexes of the search service (index name to documents), the
    tenant databases (company id to database) and the log of remote calls. *)
Record World : Type := mkWorld {
  indexes : gmap string (list Document);
  tenants : gmap string Tenant;
  calls : list Call
}.

(** [app/core/config.py]: the settings read by the RAG service. *)
Record Settings : Type := mkSettings {
  AZURE_SEARCH_INDEX_NAME : string;
  AZURE_SEARCH_DEPLOYMENT_NAME : string;
  AZURE_OPENAI_API_DEPLOYMENT_NAME : string;
  AZURE_STORAGE_CONNECTION_STRING : string
}.

(** The keyword arguments the service gives its logging calls. *)
Inductive LogKwarg : Type :=
| exc_info_True
| extra (fields : list (string * string)).

(** The collaborators outside the repository.  Each field is the answer the
    collaborator gives to a request; a [result] answer may be an exception.
    An answer depends on the request alone: asked the same thing twice, a
    collaborator answers the same. *)
Record Env : Type := mkEnv {
  settings : Settings;
  (* tiktoken and pandas, see [Blob] *)
  encode : string -> result (list N);
  str_of_ts : option Z -> string;
  (* Python built-ins and hashlib *)
  py_float : string -> result PyFloat;    (* float(s) *)
  py_strip : string -> string;            (* s.strip() *)
  py_lower : string -> string;            (* s.lower() *)
  md5_hexdigest : string -> string;       (* hashlib.md5(s.encode()).hexdigest() *)
  (* message.format(..) with keyword arguments, for a message that holds a
     brace: the text of the KeyError, IndexError or ValueError it raises, if
     it raises *)
  format_error : string -> list LogKwarg -> option string;
  (* list.sort(key=.., reverse=True) on dicts whose keys include nan, where
     the keys do not already form a single run *)
  sort_with_nan : list RerankedDocument -> list RerankedDocument;
  (* Azure OpenAI *)
  embeddings_create : string -> string -> result Embedding;
  chat_completions_create : ChatRequest -> result string;
  (* Azure AI Search: the ranking of an index's documents for a vector,
     and the error, if any, it answers a request to delete the named index
     with (a 404 is none: the client accepts it) *)
  rank : list Document -> Embedding -> Z -> list SearchResult;
  delete_index_refused : string -> option PyExc;
  (* The tenant database: the error, if any, it answers a write to the
     company's csvfile table with *)
  csvfile_write_refused : string -> option PyExc;
  (* Azure Blob Storage followed by pd.read_csv *)
  download_csv_from_blob : string -> string -> result Blob.DataFrame
}.

(** A computation that reads and changes the world and may raise; what it
    did before raising stays done. *)
Definition M (A : Type) : Type := World -> result A * World.

#[global] Instance M_ret : MRet M := fun A a w => (Ok a, w).

#[global] Instance M_bind : MBind M :=
  fun A B k m w =>
    match m w with
    | (Ok a, w') => k a w'
    | (Raise e, w') => (Raise e, w')
    end.

Definition raise {A : Type} (e : PyExc) : M A := fun w => (Raise e, w).

(** A pure expression that may raise. *)
Definition lift {A : Type} (r : result A) : M A := fun w => (r, w).

(** [try: body  except Exception as e: handler(e)] *)
Definition try_except {A : Type} (body : M A) (handler : PyExc -> M A) : M A :=
  fun w =>
    match body w with
    | (Ok a, w') => (Ok a, w')
    | (Raise e, w') => handler e w'
    end.

Definition log_call (c : Call) : M unit :=
  fun w => (Ok tt, {| indexes := indexes w; tenants := tenants w;
                      calls := calls w ++ [c] |}).

Definition get_world : M World := fun w => (Ok w, w).

Definition set_indexes (ix : gmap string (list Document)) : M unit :=
  fun w => (Ok tt, {| indexes := ix; tenants := tenants w; calls := calls w |}).

Definition set_tenants (ts : gmap string Tenant) : M unit :=
  fun w => (Ok tt, {| indexes := indexes w; tenants := ts; calls := calls w |}).

(** ** The search service

    Azure AI Search is modelled as a store of named indexes.  Reading,
    creating and uploading raise for the store's own reasons: the named
    index is missing, or (for [create_index]) already there.  Deleting
    raises when the service refuses the request, see [Env]. *)

(** The documents of the index called [name]; the service answers 404
    when there is no such index. *)
Definition stored_documents (name : string) : M (list Document) :=
  w ← get_world;
  match indexes w !! name with
  | Some stored => mret stored
  | None => raise (LibraryError "ResourceNotFoundError")
  end.

(** [admin_client.get_index(name).name] *)
Definition get_index (name : string) : M string :=
  _ ← stored_documents name;
  mret name.

(** [list(admin_client.list_index_names())] *)
Definition list_index_names : M (list string) :=
  w ← get_world;
  mret (List.map fst (map_to_list (indexes w))).

(** [name in names] *)
Definition contains (names : list string) (name : string) : bool :=
  existsb (String.eqb name) names.

(** [admin_client.create_index(SearchIndex(name=name, ...))] *)
Definition create_index (name : string) : M unit :=
  w ← get_world;
  match indexes w !! name with
  | Some _ => raise (LibraryError "ResourceExistsError")
  | None => set_indexes (<[name := []]> (indexes w))
  end.

(** Upload is an upsert keyed by ["id"]. *)
Fixpoint upsert (d : Document) (stored : list Document) : list Document :=
  match stored with
  | [] => [d]
  | x :: rest =>
      if String.eqb (id x) (id d) then d :: rest else x :: upsert d rest
  end.

(** [SearchClient(index_name=name).upload_documents(documents)] *)
Definition upload_documents (name : string) (documents : list Document)
  : M unit :=
  _ ← log_call (UploadDocuments name documents);
  stored ← stored_documents name;
  w ← get_world;
  set_indexes
    (<[name := fold_left (fun st d => upsert d st) documents stored]>
       (indexes w)).

Section Service.

Variable env : Env.

(** [admin_client.delete_index(name)]: the client accepts the 404 of a
    missing index and returns. *)
Definition delete_index_by_name (name : string) : M unit :=
  match delete_index_refused env name with
  | Some e => raise e
  | None =>
      w ← get_world;
      set_indexes (delete name (indexes w))
  end.

(** ** Logging

    The handlers of [app/core/logging.py] are loguru's.  A logging call
    given positional or keyword arguments formats its message with them,
    [message.format(..)], before any handler sees it; a call given the
    message alone does not.  Formatting a message without braces gives the
    message back, so only the calls below can raise: those whose message
    carries the text of an exception, or a name, and that pass
    [exc_info=True] or [extra=..]. *)

Fixpoint has_brace (s : string) : bool :=
  match s with
  | EmptyString => false
  | String c rest =>
      Ascii.eqb c "{" || Ascii.eqb c "}" || has_brace rest
  end.

(** [logger.error(message, ..)] with keyword arguments.  The error of
    [str.format] is held as a [LibraryError] with its text. *)
Definition log_formatted (message : string) (kwargs : list LogKwarg)
  : M unit :=
  if has_brace message
  then match format_error env message kwargs with
       | Some what => raise (LibraryError what)
       | None => mret tt
       end
  else mret tt.

(** [SearchClient(index_name=name).search(search_text=None,
      vector_queries=[{"kind": "vector", "vector": v, "k": k,
      "fields": "contentVector"}], select=["id", "content"], top=k)],
    consumed by the list comprehension that follows it. *)
Definition search (name : string) (vector : Embedding) (k : Z)
  : M (list SearchResult) :=
  _ ← log_call (VectorSearch name vector k);
  stored ← stored_documents name;
  mret (rank env stored vector k).

(** ** The tenant database *)

(** The database of [company_id]; connecting fails when there is none. *)
Definition tenant_database (company_id : string) : M Tenant :=
  w ← get_world;
  match tenants w !! company_id with
  | Some t => mret t
  | None => raise (LibraryError "tenant database unavailable")
  end.

(** [async with tenant_client_context_by_company_id(company_id)]: opening
    the connection. *)
Definition tenant_client_context_by_company_id (company_id : string)
  : M unit :=
  _ ← tenant_database company_id;
  mret tt.

(** [tenant_client.csvfile.find_first(where={"id": file_id})] *)
Definition csvfile_find_first (company_id file_id : string)
  : M (option CsvFile) :=
  t ← tenant_database company_id;
  mret (csvfile t !! file_id).

(** [tenant_client.csvfile.update(where={"id": file_id},
      data={"status": new_status})] *)
Definition csvfile_update (company_id file_id new_status : string) : M unit :=
  t ← tenant_database company_id;
  match csvfile_write_refused env company_id with
  | Some e => raise e
  | None =>
      w ← get_world;
      set_tenants
        (<[company_id :=
             {| promptTemplate := promptTemplate t;
                csvfile :=
                  alter (fun f => {| companyId := companyId f;
                                     blobUrl := blobUrl f;
                                     status := new_status |})
                        file_id (csvfile t) |}]> (tenants w))
  end.

(** [tenant_client.csvfile.update_many(where={"companyId": company_id},
      data={"status": new_status})] *)
Definition csvfile_update_many (company_id new_status : string) : M unit :=
  t ← tenant_database company_id;
  match csvfile_write_refused env company_id with
  | Some e => raise e
  | None =>
      w ← get_world;
      set_tenants
        (<[company_id :=
             {| promptTemplate := promptTemplate t;
                csvfile :=
                  (fun f => if String.eqb (companyId f) company_id
                            then {| companyId := companyId f;
                                    blobUrl := blobUrl f;
                                    status := new_status |}
                            else f) <$> csvfile t |}]> (tenants w))
  end.

(** [CompanyService.get_prompt_template(company_id)]
    ([app/services/company/company_service.py]). *)
Definition get_prompt_template (company_id : string) : M string :=
  t ← tenant_database company_id;
  mret (promptTemplate t).

(** ** Azure OpenAI *)

(** [client.embeddings.create(input=chunk, model=model)] followed by
    [response.data[0].embedding]. *)
Definition call_embeddings_create (chunk model : string) : M Embedding :=
  _ ← log_call (EmbeddingsCreate chunk model);
  lift (embeddings_create env chunk model).

(** [client.chat.completions.create(...)] followed by
    [completion.choices[0].message.content]. *)
Definition call_chat_completions_create (request : ChatRequest) : M string :=
  _ ← log_call (ChatCompletionsCreate request);
  lift (chat_completions_create env request).

(** ** RagService

    Constructing the clients ([get_azure_openai_client], [SearchIndexClient],
    [SearchClient]) sends no request and is left out, and so are the logging
    calls that cannot raise. *)

Definition indent12 : string := "            ".
Definition indent16 : string := "                ".
Definition DQUOTE : string := String (ascii_of_nat 34) EmptyString.

(** [RagService.create_embeddings(text_chunks, model)]: the loop, with the
    list [embeddings] built so far. *)
Fixpoint create_embeddings_loop (text_chunks : list string) (model : string)
         (embeddings : list Embedding) : M (list Embedding) :=
  match text_chunks with
  | [] => mret embeddings
  | chunk :: rest =>
      embeddings ←
        try_except
          (embedding ← call_embeddings_create chunk model;
           mret (embeddings ++ [embedding]))
          (fun e =>
             raise (AppException INTERNAL_SERVER_ERROR
                      "Failed to create embedding"
                      [("error", str_exc e)]));
      create_embeddings_loop rest model embeddings
  end.

Definition create_embeddings (text_chunks : list string) (model : string)
  : M (list Embedding) :=
  create_embeddings_loop text_chunks model [].

(** [enumerate(zip(text_chunks, embeddings))] *)
Fixpoint enumerate_from {A : Type} (i : nat) (l : list A) : list (nat * A) :=
  match l with
  | [] => []
  | x :: rest => (i, x) :: enumerate_from (S i) rest
  end.

Definition enumerate_zip (text_chunks : list string)
           (embeddings : list Embedding) : list (nat * (string * Embedding)) :=
  enumerate_from 0 (combine text_chunks embeddings).

(** [except AppException: raise] followed by [except Exception as e:]. *)
Definition reraise_app_or {A : Type} (wrap : PyExc -> PyExc) (e : PyExc)
  : M A :=
  match e with
  | AppException _ _ _ => raise e
  | _ => raise (wrap e)
  end.

(** [RagService.build_index_from_blob(blob_url, index_name,
      connection_string=settings.AZURE_STORAGE_CONNECTION_STRING)];
    the value is the ["indexSize"] of the returned dict.  The [float(x)]
    conversions of the embedding entries leave a list of floats as it is. *)
Definition build_index_from_blob (blob_url index_name : string)
           (connection_string : option string) : M nat :=
  let connection_string :=
    match connection_string with
    | Some c => c
    | None => AZURE_STORAGE_CONNECTION_STRING (settings env)
    end in
  let embedding_model := AZURE_SEARCH_DEPLOYMENT_NAME (settings env) in
  try_except
    (let index_name := "saixgen_index" in
     df ← try_except
            (lift (download_csv_from_blob env blob_url connection_string))
            (fun e =>
               _ ← log_formatted
                     ("Failed to download CSV from blob: " +:+ str_exc e)
                     [exc_info_True];
               raise (AppException INTERNAL_SERVER_ERROR
                        "Failed to download CSV from blob"
                        [("error", str_exc e)]));
     text_chunks ←
       try_except
         (lift (Blob.preprocess_and_chunk_data (encode env) (str_of_ts env)
                  df 5 1000))
         (fun e =>
            _ ← log_formatted
                  ("Failed to preprocess and chunk data: " +:+ str_exc e)
                  [exc_info_True];
            raise (AppException INTERNAL_SERVER_ERROR
                     "Failed to preprocess and chunk data"
                     [("error", str_exc e)]));
     embeddings ←
       try_except
         (create_embeddings text_chunks embedding_model)
         (fun e =>
            _ ← log_formatted
                  ("Failed to create embeddings: " +:+ str_exc e)
                  [exc_info_True];
            raise (AppException INTERNAL_SERVER_ERROR
                     "Failed to create embeddings"
                     [("error", str_exc e)]));
     documents ←
       try_except
         (names ← list_index_names;
          _ ← (if negb (contains names index_name)
               then create_index index_name else mret tt);
          let blob_identifier :=
            substring 0 8 (md5_hexdigest env blob_url) in
          let documents :=
            List.map
              (fun '(i, (chunk, embedding)) =>
                 {| id := index_name +:+ "_" +:+ blob_identifier +:+ "_"
                            +:+ str_of_nat i;
                    content := chunk;
                    contentVector := embedding |})
              (enumerate_zip text_chunks embeddings) in
          _ ← upload_documents index_name documents;
          mret documents)
         (fun e =>
            _ ← log_formatted
                  ("Failed to upload documents to Azure AI Search: "
                     +:+ str_exc e)
                  [exc_info_True];
            raise (AppException INTERNAL_SERVER_ERROR
                     "Failed to upload documents to Azure AI Search"
                     [("error", str_exc e)]));
     mret (length documents))
    (reraise_app_or
       (fun e => AppException INTERNAL_SERVER_ERROR
                   "Failed to build index from blob"
                   [("error", str_exc e)])).

(** The index management block of [build_index]: it yields
    [target_index_name]. *)
Definition resolve_target_index (base_index_name company_id : string)
  : M string :=
  actual_index_name ←
    try_except
      (get_index base_index_name)
      (fun _ => mret (base_index_name +:+ "-" +:+ py_lower env company_id));
  existing_indexes ← list_index_names;
  if contains existing_indexes actual_index_name
  then mret actual_index_name
  else
    _ ← create_index actual_index_name;
    _ ← try_except
          (_ ← try_except (delete_index_by_name base_index_name)
                          (fun _ => mret tt);
           create_index base_index_name)
          (fun e =>
             log_formatted ("Failed to manage index alias: " +:+ str_exc e)
                           [exc_info_True]);
    mret actual_index_name.

(** [RagService.build_index(file_id, company_id)]; the value is the
    ["indexSize"] of the returned dict. *)
Definition build_index (file_id company_id : string) : M nat :=
  let base_index_name := AZURE_SEARCH_INDEX_NAME (settings env) in
  let embedding_model := AZURE_SEARCH_DEPLOYMENT_NAME (settings env) in
  _ ← tenant_client_context_by_company_id company_id;
  try_except
    (csv_file_record ← csvfile_find_first company_id file_id;
     match csv_file_record with
     | None =>
         raise (AppException NOT_FOUND
                  ("CSV file record not found for file_id: " +:+ file_id)
                  [("file_id", file_id)])
     | Some csv_file_record =>
         let blob_url := blobUrl csv_file_record in
         df ← try_except
                (lift (download_csv_from_blob env blob_url
                         (AZURE_STORAGE_CONNECTION_STRING (settings env))))
                (fun e =>
                   let error_msg :=
                     "Failed to download CSV from blob: " +:+ str_exc e in
                   _ ← log_formatted error_msg [exc_info_True];
                   raise (AppException INTERNAL_SERVER_ERROR error_msg
                            [("error", str_exc e); ("blob_url", blob_url)]));
         text_chunks ←
           try_except
             (lift (Blob.preprocess_and_chunk_data (encode env)
                      (str_of_ts env) df 5 1000))
             (fun e =>
                let error_msg :=
                  "Failed to preprocess and chunk data: " +:+ str_exc e in
                _ ← log_formatted error_msg [exc_info_True];
                raise (AppException INTERNAL_SERVER_ERROR error_msg
                         [("error", str_exc e)]));
         embeddings ←
           try_except
             (create_embeddings text_chunks embedding_model)
             (fun e =>
                let error_msg :=
                  "Failed to create embeddings: " +:+ str_exc e in
                _ ← log_formatted error_msg [exc_info_True];
                raise (AppException INTERNAL_SERVER_ERROR error_msg
                         [("error", str_exc e)]));
         target_index_name ←
           try_except
             (resolve_target_index base_index_name company_id)
             (fun e =>
                let error_msg :=
                  "Failed to manage indexes: " +:+ str_exc e in
                _ ← log_formatted error_msg [exc_info_True];
                raise (AppException INTERNAL_SERVER_ERROR error_msg
                         [("error", str_exc e)]));
         let documents :=
           List.map
             (fun '(i, (chunk, embedding)) =>
                {| id := file_id +:+ "_" +:+ str_of_nat i;
                   content := chunk;
                   contentVector := embedding |})
             (enumerate_zip text_chunks embeddings) in
         _ ← try_except
               (upload_documents target_index_name documents)
               (fun e =>
                  let error_msg :=
                    "Failed to upload documents: " +:+ str_exc e in
                  _ ← log_formatted error_msg [exc_info_True];
                  raise (AppException INTERNAL_SERVER_ERROR error_msg
                           [("error", str_exc e);
                            ("document_count",
                             str_of_nat (length documents))]));
         _ ← try_except
               (csvfile_update company_id file_id "indexed")
               (fun e =>
                  log_formatted
                    ("Failed to update CSV file status: " +:+ str_exc e)
                    [exc_info_True]);
         mret (length documents)
     end)
    (fun e =>
       match e with
       | AppException _ _ _ => raise e
       | _ =>
           let error_msg :=
             "Unexpected error in build_index: " +:+ str_exc e in
           _ ← log_formatted error_msg [exc_info_True];
           raise (AppException INTERNAL_SERVER_ERROR error_msg
                    [("error", str_exc e); ("file_id", file_id);
                     ("company_id", company_id)])
       end).

(** The prompt of [expand_query]. *)
Definition expand_prompt (query : string) : string :=
  join LF
    [EmptyString;
     indent12 +:+ "以下の短いクエリを、類義語や関連するキーワードを含めて検索に適した自然な文章に書き換えてください。";
     EmptyString;
     indent12 +:+ "クエリ: " +:+ DQUOTE +:+ query +:+ DQUOTE;
     EmptyString;
     indent12 +:+ "書き換え後のクエリ:";
     indent12].

(** The completion request of [expand_query]. *)
Definition expand_request (query : string) : ChatRequest :=
  {| chat_model := AZURE_OPENAI_API_DEPLOYMENT_NAME (settings env);
     messages := [("user", expand_prompt query)];
     max_tokens := Some 50;
     temperature := Some (2 # 10)%Q |}.

(** [RagService.expand_query(query)] *)
Definition expand_query (query : string) : M string :=
  try_except
    (content ← call_chat_completions_create (expand_request query);
     let expanded_query := py_strip env content in
     mret expanded_query)
    (fun _ => mret query).

(** The prompt of [rerank_documents] for one document. *)
Definition rerank_prompt (query : string) (doc : SourceDocument) : string :=
  join LF
    [EmptyString;
     indent12 +:+ "以下のドキュメントが、質問に回答するためにどの程度役に立つかを1〜10で評価してください。";
     EmptyString;
     indent12 +:+ "質問: " +:+ query;
     EmptyString;
     indent12 +:+ "ドキュメント:";
     indent12 +:+ contentSnippet doc;
     EmptyString;
     indent12 +:+ "評価 (数値のみ):";
     indent12].

(** The completion request of [rerank_documents] for one document. *)
Definition rerank_request (query : string) (doc : SourceDocument)
  : ChatRequest :=
  {| chat_model := AZURE_OPENAI_API_DEPLOYMENT_NAME (settings env);
     messages := [("user", rerank_prompt query doc)];
     max_tokens := Some 3;
     temperature := Some 0%Q |}.

(** The [try]/[except] inside the loop of [rerank_documents]: it yields
    [relevance_score]. *)
Definition relevance_score_of (query : string) (doc : SourceDocument)
  : M PyFloat :=
  try_except
    (content ← call_chat_completions_create (rerank_request query doc);
     let score_text := py_strip env content in
     lift (py_float env score_text))
    (fun _ => mret (Num 0)).

(** The loop of [rerank_documents], with the list [reranked_results]
    built so far. *)
Fixpoint rerank_loop (query : string) (documents : list SourceDocument)
         (reranked_results : list RerankedDocument)
  : M (list RerankedDocument) :=
  match documents with
  | [] => mret reranked_results
  | doc :: rest =>
      relevance_score ← relevance_score_of query doc;
      rerank_loop query rest
        (reranked_results ++
           [{| reranked_documentId := documentId doc;
               originalScore := relevanceScore doc;
               rerankScore := relevance_score;
               reranked_contentSnippet := contentSnippet doc |}])
  end.

(** [d] goes before the first dict whose score is not greater than its
    own. *)
Fixpoint insert_by_rerank_score (d : RerankedDocument)
         (sorted : list RerankedDocument) : list RerankedDocument :=
  match sorted with
  | [] => [d]
  | x :: rest =>
      if float_lt (rerankScore d) (rerankScore x)
      then x :: insert_by_rerank_score d rest
      else d :: sorted
  end.

(** The keys form a single run for the sorting algorithm: none is less
    than the one before it. *)
Fixpoint one_run (keys : list PyFloat) : bool :=
  match keys with
  | a :: (b :: _) as rest => negb (float_lt b a) && one_run rest
  | _ => true
  end.

(** [l.sort(key=lambda x: x["rerankScore"], reverse=True)].  The sort is
    stable and compares keys with [<] alone.  When no key is [nan] that
    settles the result: descending, dicts with equal scores in the order
    they had.  With [reverse=True] CPython reverses the list, sorts it
    ascending and reverses it back; a list that is a single run is sorted
    already, so the dicts stay where they were.  What else it does with
    [nan] keys depends on the version of the interpreter and is left to
    [sort_with_nan]. *)
Definition sort_by_rerank_score_reverse (l : list RerankedDocument)
  : list RerankedDocument :=
  let keys := List.map rerankScore l in
  if forallb (fun key => negb (is_nan key)) keys
  then fold_right insert_by_rerank_score [] l
  else if one_run (rev keys) then l
  else sort_with_nan env l.

(** [RagService.rerank_documents(query, documents)] *)
Definition rerank_documents (query : string) (documents : list SourceDocument)
  : M (list RerankedDocument) :=
  reranked_results ← rerank_loop query documents [];
  mret (sort_by_rerank_score_reverse reranked_results).

(** The first system message of the completion call in [query_index]. *)
Definition faq_instruction : string :=
  join LF
    [EmptyString;
     indent16 +:+ "あなたはFAQチャットボットです。以下の情報を元に、可能な範囲で正確に質問に回答してください。";
     EmptyString;
     indent16 +:+ "部分的にでも情報があれば、それに基づいて回答してください.";
     indent16 +:+ "コンテクストは「タイムスタンプ」「ユーザーId」「ユーザー名」「チャンネル";
     indent16 +:+ "」「メッセージ」「添付ファイル」の順番で表示されます。";
     indent16].

(** The messages of the completion call in [query_index]. *)
Definition completion_messages (system_prompt context_texts query : string)
  : list (string * string) :=
  [("system", faq_instruction);
   ("system", system_prompt);
   ("system", context_texts);
   ("user", query)].

(** The completion request of [query_index]. *)
Definition completion_request (system_prompt context_texts query : string)
  : ChatRequest :=
  {| chat_model := AZURE_OPENAI_API_DEPLOYMENT_NAME (settings env);
     messages := completion_messages system_prompt context_texts query;
     max_tokens := None;
     temperature := None |}.

(** The dict built from one search result in [query_index]. *)
Definition source_document (result : SearchResult) : SourceDocument :=
  {| documentId := result_id result;
     relevanceScore := search_score result;
     contentSnippet := result_content result |}.

(** [RagService.query_index(query, company_id, top_k)] *)
Definition query_index (query company_id : string) (top_k : Z)
  : M QueryResponse :=
  let embedding_model := AZURE_SEARCH_DEPLOYMENT_NAME (settings env) in
  embeddings ← create_embeddings [query] embedding_model;
  query_embedding ←
    lift (match embeddings with e :: _ => Ok e | [] => Raise IndexError end);
  let base_index_name := AZURE_SEARCH_INDEX_NAME (settings env) in
  let index_name := base_index_name in
  actual_index_name ←
    try_except
      (get_index index_name)
      (fun e =>
         raise (AppException INTERNAL_SERVER_ERROR
                  "Failed to resolve index alias"
                  [("error", str_exc e)]));
  results ← search actual_index_name query_embedding top_k;
  let source_documents := List.map source_document results in
  reranked_documents ← rerank_documents query source_documents;
  let context_texts :=
    join LF (List.map reranked_contentSnippet reranked_documents) in
  system_prompt ← get_prompt_template company_id;
  content ←
    call_chat_completions_create
      (completion_request system_prompt context_texts query);
  let answer := py_strip env content in
  let scores := List.map relevanceScore source_documents in
  mret {| answer := answer;
          scores := scores;
          sourceDocuments := source_documents;
          expandedQuery := query |}.

(** [RagService.delete_index(company_id)] *)
Definition delete_index (company_id : string) : M unit :=
  let base_index_name := AZURE_SEARCH_INDEX_NAME (settings env) in
  let index_name := base_index_name +:+ "-" +:+ py_lower env company_id in
  _ ← try_except
        (delete_index_by_name index_name)
        (fun e =>
           let message :=
             "Failed to delete index '" +:+ index_name
               +:+ "' from Azure AI Search" in
           _ ← log_formatted message
                 [extra [("error", str_exc e)]; exc_info_True];
           raise (AppException INTERNAL_SERVER_ERROR message
                    [("error", str_exc e)]));
  _ ← tenant_client_context_by_company_id company_id;
  try_except
    (csvfile_update_many company_id "uploaded")
    (fun e =>
       let message :=
         "Failed to update CSV file records for company '"
           +:+ company_id +:+ "'" in
       _ ← log_formatted message
             [extra [("error", str_exc e)]; exc_info_True];
       raise (AppException INTERNAL_SERVER_ERROR message
                [("error", str_exc e)])).

(** ** app/api/v1/rag/router.py *)

(** [class QueryRequest(BaseModel)] *)
Record QueryRequest : Type := mkQueryRequest {
  payload_company_id : string;
  payload_query : string;
  payload_index_name : string;
  payload_top_k : Z
}.

(** [@router.post("/query")  query_rag_index(payload)] *)
Definition query_rag_index (payload : QueryRequest) : M QueryResponse :=
  try_except
    (expanded_query ← expand_query (payload_query payload);
     result ← query_index expanded_query (payload_company_id payload) 5;
     mret result)
    (fun e =>
       match e with
       | AppException _ _ _ =>
           _ ← log_formatted ("RAG error: " +:+ str_exc e) [exc_info_True];
           raise (HTTPException 500 (str_exc e))
       | _ =>
           _ ← log_formatted ("Unexpected error: " +:+ str_exc e)
                 [exc_info_True];
           raise (HTTPException 500 "An unexpected error occurred")
       end).

(** [@router.post("/build-index-from-blob")  build_index_from_blob(blob_url)];
    the value is the ["indexSize"] of the returned dict. *)
Definition route_build_index_from_blob (blob_url : string) : M nat :=
  try_except
    (build_index_from_blob blob_url "saixgen_index" None)
    (fun e =>
       _ ← log_formatted ("Error building index from blob: " +:+ str_exc e)
             [exc_info_True];
       raise (HTTPException 500 (str_exc e))).

(** ** Reading the outcome of a run *)

(** The score the loop of [rerank_documents] gives a document: the number
    the model answered when the call and [float] both went through, and 0
    otherwise. *)
Definition relevance_score_value (query : string) (doc : SourceDocument)
  : PyFloat :=
  match chat_completions_create env (rerank_request query doc) with
  | Ok content =>
      match py_float env (py_strip env content) with
      | Ok score => score
      | Raise _ => Num 0
      end
  | Raise _ => Num 0
  end.

(** The dict appended to [reranked_results] for a document. *)
Definition rescored (query : string) (doc : SourceDocument)
  : RerankedDocument :=
  {| reranked_documentId := documentId doc;
     originalScore := relevanceScore doc;
     rerankScore := relevance_score_value query doc;
     reranked_contentSnippet := contentSnippet doc |}.

(** What [expand_query] returns: the stripped answer of the model, or the
    query itself when the call raised. *)
Definition expansion (query : string) : string :=
  match chat_completions_create env (expand_request query) with
  | Ok content => py_strip env content
  | Raise _ => query
  end.

(** The position of the first text the embedding service refuses. *)
Fixpoint first_failure (model : string) (text_chunks : list string)
  : option nat :=
  match text_chunks with
  | [] => None
  | chunk :: rest =>
      match embeddings_create env chunk model with
      | Raise _ => Some 0%nat
      | Ok _ => option_map S (first_failure model rest)
      end
  end.

(** The order the specification gives the response's documents: by the
    score the reranker gave them, highest first. *)
Definition spec_in_rerank_order (query : string)
           (documents : list SourceDocument) : Prop :=
  StronglySorted
    (fun a b =>
       float_le (relevance_score_value query b)
                (relevance_score_value query a))
    documents.

(** The world after some more remote calls. *)
Definition with_calls (w : World) (more : list Call) : World :=
  {| indexes := indexes w; tenants := tenants w; calls := calls w ++ more |}.

End Service.

(** ** app/core/exceptions.py: the response for an AppException *)

(** [ErrorCode.<member>.status_code] *)
Definition ErrorCode_status_code (c : ErrorCode) : Z :=
  match c with
  | NOT_FOUND => 404
  | INTERNAL_SERVER_ERROR => 500
  end.

(** The dict returned by [AppException.to_dict]. *)
Record ErrorDict : Type := mkErrorDict {
  dict_error_code : string;
  dict_error_message : string;
  dict_status_code : Z;
  dict_details : option (list (string * string))
}.

(** [AppException.to_dict(self)], for an exception constructed without a
    [status_code] argument, as all those of the RAG service are: its
    [status_code] attribute is the one of its [error_code]. *)
Definition to_dict (error_code : ErrorCode) (message : string)
           (context : list (string * string)) : ErrorDict :=
  {| dict_error_code := ErrorCode_name error_code;
     dict_error_message := message;
     dict_status_code := ErrorCode_status_code error_code;
     dict_details := if truthy context then Some context else None |}.

(** [fastapi.responses.JSONResponse(status_code=.., content=..)] *)
Record JSONResponse : Type := mkJSONResponse {
  response_status_code : Z;
  response_content : ErrorDict
}.

(** [handle_app_exception(e)]: the response it returns. *)
Definition handle_app_exception (error_code : ErrorCode) (message : string)
           (context : list (string * string)) : JSONResponse :=
  {| response_status_code := ErrorCode_status_code error_code;
     response_content := to_dict error_code message context |}.

(** ** app/api/v1/rag/router.py: the /delete-index route *)

(** What a route function hands to the framework: the value it returned, or
    the [HTTPException] it raised with a dict as its detail. *)
Inductive Outcome (A : Type) : Type :=
| Returns (value : A)
| RaisesHTTPException (status_code : Z) (detail : list (string * string)).
Arguments Returns {A} value.
Arguments RaisesHTTPException {A} status_code detail.

Section Router.

Variable env : Env.

(** [traceback.format_exc()] inside the handler of the given exception. *)
Variable format_exc : PyExc -> string.

(** [@router.delete("/delete-index")  delete_rag_index(current_user)], with
    [company_id] the [current_user.company_id] the dependency resolved.  The
    value is the dict the function returns, [None] when it falls off its
    end. *)
Definition delete_rag_index (company_id : string) (w : World)
  : Outcome (option (list (string * string))) * World :=
  match delete_index env company_id w with
  | (Ok _, w') =>
      (Returns (Some [("status", "success");
                      ("message", "Index deleted successfully")]), w')
  | (Raise (AppException error_code message context), w') =>
      (* [handle_app_exception(e)] stands as a statement of its own *)
      let _ := handle_app_exception error_code message context in
      (Returns None, w')
  | (Raise e, w') =>
      (RaisesHTTPException 500
         [("message", "Internal Server Error");
          ("error", str_exc e);
          ("traceback", format_exc e)], w')
  end.

End Router.

(** ** Properties of computations *)

(** The computation leaves the calls already logged in place. *)
Definition appends {A : Type} (m : M A) : Prop :=
  forall w, exists more, calls (snd (m w)) = calls w ++ more.

(** A handler that only converts the exception it is given. *)
Definition raises {A : Type} (handler : PyExc -> M A) : Prop :=
  forall e w, exists e', handler e w = (Raise e', w).

(** [a] may stand before [b] in a list sorted by [rerankScore], highest
    first. *)
Definition ranks_before (a b : RerankedDocument) : Prop :=
  float_le (rerankScore b) (rerankScore a).

(** No score of the list is [nan]. *)
Definition no_nan_score (l : list RerankedDocument) : Prop :=
  Forall (fun d => is_nan (rerankScore d) = false) l.

(** What is assumed of [list.sort] where the model leaves its result
    open: it rearranges the list. *)
Definition sort_permutes (env : Env) : Prop :=
  forall l, Permutation (sort_with_nan env l) l.

(** The exception came out of formatting the message of a logging call. *)
Definition raised_by_logging (env : Env) (e : PyExc) : Prop :=
  exists message kwargs what,
    has_brace message = true
    /\ format_error env message kwargs = Some what
    /\ e = LibraryError what.

(** The computation raises nothing but exceptions in [P]. *)
Definition raises_only {A : Type} (P : PyExc -> Prop) (m : M A) : Prop :=
  forall w e w', m w = (Raise e, w') -> P e.

(** An [AppException] with code [INTERNAL_SERVER_ERROR]. *)
Definition internal_error (e : PyExc) : Prop :=
  exists message context,
    e = AppException INTERNAL_SERVER_ERROR message context.

(** The computation leaves the indexes and the tenant databases as they
    are. *)
Definition reads_only {A : Type} (m : M A) : Prop :=
  forall w, indexes (snd (m w)) = indexes w /\ tenants (snd (m w)) = tenants w.

(** The messages of the four stages of [build_index_from_blob]: download,
    chunking, embedding, upload. *)
Definition blob_stage_messages : list string :=
  ["Failed to download CSV from blob";
   "Failed to preprocess and chunk data";
   "Failed to create embeddings";
   "Failed to upload documents to Azure AI Search"].

(** The [AppException] one of the stages raises. *)
Definition blob_stage_failure (e : PyExc) : Prop :=
  exists stage detail,
    In stage blob_stage_messages
    /\ e = AppException INTERNAL_SERVER_ERROR stage [("error", detail)].

(** The [AppException] that leaves [build_index_from_blob]: the one of a
    stage, or the one of the outermost handler, which a logging error
    brought about. *)
Definition blob_failure (env : Env) (e : PyExc) : Prop :=
  exists message detail,
    (In message blob_stage_messages
     \/ (message = "Failed to build index from blob"
         /\ raised_by_logging env (LibraryError detail)))
    /\ e = AppException INTERNAL_SERVER_ERROR message [("error", detail)].

End Rag.

(* ================================================================== *)
(** * app/utils/env_manager.py *)
(* ================================================================== *)

Module EnvManager.

(** [os.environ] *)
Definition Environ := gmap string string.

(** How a [with temporary_env(..)] statement ends: with the value of its
    block, with the exception the block raised, or with the [KeyError] of
    [os.environ.pop(var)] in the [finally] clause, which replaces either. *)
Inductive Exit (A E : Type) : Type :=
| Normal (a : A)
| BlockRaised (e : E)
| KeyError (key : string).
Arguments Normal {A E} a.
Arguments BlockRaised {A E} e.
Arguments KeyError {A E} key.

(** The generator up to its [yield]: [original = os.getenv(var)] and
    [os.environ[var] = value]; it keeps [original]. *)
Definition temporary_env_enter (var value : string) (environ : Environ)
  : option string * Environ :=
  (environ !! var, <[var := value]> environ).

(** The [finally] clause.  The first component is the key of the
    [KeyError] that [os.environ.pop(var)] raises when [var] is not set. *)
Definition temporary_env_finally (var : string) (original : option string)
           (environ : Environ) : option string * Environ :=
  match original with
  | None =>
      match environ !! var with
      | Some _ => (None, delete var environ)
      | None => (Some var, environ)
      end
  | Some o => (None, <[var := o]> environ)
  end.

(** [with temporary_env(var, value): block], for a block that reads and
    changes the environment and returns or raises. *)
Definition temporary_env {A E : Type} (var value : string)
           (block : Environ -> (A + E) * Environ) (environ : Environ)
  : Exit A E * Environ :=
  let '(original, environ) := temporary_env_enter var value environ in
  let '(r, environ) := block environ in
  match temporary_env_finally var original environ with
  | (Some key, environ) => (KeyError key, environ)
  | (None, environ) =>
      (match r with inl a => Normal a | inr e => BlockRaised e end, environ)
  end.

(** Two [with temporary_env(var, ..)] statements whose blocks overlap, as
    the blocks of two coroutines do when each of them waits inside its
    block ([tenant_client_context_by_company_id] awaits the connection and
    the caller's work there): the first enters, the second enters, the first
    leaves, the second leaves.  The value is the [KeyError] key of each
    [finally] clause and the environment at the end. *)
Definition overlapping_uses (var value_a value_b : string) (environ : Environ)
  : option string * option string * Environ :=
  let '(original_a, environ) := temporary_env_enter var value_a environ in
  let '(original_b, environ) := temporary_env_enter var value_b environ in
  let '(error_a, environ) := temporary_env_finally var original_a environ in
  let '(error_b, environ) := temporary_env_finally var original_b environ in
  (error_a, error_b, environ).

End EnvManager.

(* ================================================================== *)
(** * app/services/chat/chat_service.py *)
(* ================================================================== *)

Module Chat.
Import Rag.

(** [app/models/chat/model.py] *)
Record ChatUser : Type := mkChatUser {
  user_id : string;
  user_name : string;
  user_company_id : string;
  user_role : string
}.

Record ChatMessageSendRequest : Type := mkChatMessageSendRequest {
  session_id : string;
  user_message : string;
  senpai_id : string
}.

Record ChatMessageSendResponse : Type := mkChatMessageSendResponse {
  response_status : string;
  system_reply : string;
  system_score : list Q
}.

(** The rows of the tenant's [chatroom], [chatmessage] and [senior] tables,
    with the columns [send_message] reads or writes. *)
Record ChatRoom : Type := mkChatRoom {
  room_companyId : string
}.

Record ChatMessage : Type := mkChatMessage {
  roomId : string;
  isAssistant : bool;
  senpaiId : option string;
  message_content : string;
  metadata : string
}.

Record Senior : Type := mkSenior {
  senior_name : string
}.

(** The chat tables of one tenant database: rooms and seniors by id, the
    messages in the order they were created. *)
Record ChatTables : Type := mkChatTables {
  chatroom : gmap string ChatRoom;
  chatmessage : list ChatMessage;
  senior : gmap string Senior
}.

(** The world of the RAG service together with the chat tables of every
    tenant database (company id to tables). *)
Record ChatWorld : Type := mkChatWorld {
  world : World;
  chat : gmap string ChatTables
}.

(** What [send_message] can raise: an exception of the RAG service or of a
    library, or the [AttributeError] of an attribute access. *)
Inductive ChatExc : Type :=
| Propagated (e : PyExc)
| AttributeError (what : string).

(** Truthiness of a Python [str]. *)
Definition truthy_str (s : string) : bool :=
  match s with
  | EmptyString => false
  | String _ _ => true
  end.

(** Evaluating [AppException(error_code=s, message=m, context=c)] with a
    [str] for [error_code] ([app/core/exceptions.py]): [__init__] computes
    [message or error_code.default_message] and then
    [status_code or error_code.status_code] with [status_code] left at
    [None]; a [str] has neither attribute, so the constructor raises. *)
Definition AppException_with_str_code (error_code message : string)
           (context : list (string * string)) : ChatExc :=
  if truthy_str message
  then AttributeError "'str' object has no attribute 'status_code'"
  else AttributeError "'str' object has no attribute 'default_message'".

(** The tables of a tenant database that holds no chat row yet. *)
Definition no_tables : ChatTables :=
  {| chatroom := ∅; chatmessage := []; senior := ∅ |}.

Definition tables_of (cw : ChatWorld) (company_id : string) : ChatTables :=
  default no_tables (chat cw !! company_id).

(** [transaction.chatroom.find_unique(where={"id": session_id,
      "companyId": company_id})] *)
Definition chatroom_find_unique (tables : ChatTables)
           (session_id company_id : string) : option ChatRoom :=
  match chatroom tables !! session_id with
  | Some room =>
      if String.eqb (room_companyId room) company_id then Some room else None
  | None => None
  end.

(** [transaction.chatmessage.create(data=message)] *)
Definition chatmessage_create (tables : ChatTables) (message : ChatMessage)
  : ChatTables :=
  {| chatroom := chatroom tables;
     chatmessage := chatmessage tables ++ [message];
     senior := senior tables |}.

Section Service.

Variable env : Env.

(** The value of [rag_query]: the user's message, prefixed with the name of
    the senior when [senpai_id] is set, names a row of [senior] and that
    row's name is not empty. *)
Definition rag_query_of (tables : ChatTables)
           (request : ChatMessageSendRequest) : string :=
  let senpai_name :=
    if truthy_str (senpai_id request)
    then
      match senior tables !! senpai_id request with
      | Some senpai_record => Some (senior_name senpai_record)
      | None => None
      end
    else None in
  match senpai_name with
  | Some name =>
      if truthy_str name
      then name +:+ "について教えて: " +:+ user_message request
      else user_message request
  | None => user_message request
  end.

(** [ChatService.send_message(request, current_user)].  The block under
    [async with tenant_client.tx()] is a transaction of the tenant
    database: its writes are kept when the block returns and undone when it
    raises.  The calls made to the remote services stay made. *)
Definition send_message (request : ChatMessageSendRequest)
           (current_user : ChatUser) (cw : ChatWorld)
  : (ChatExc + ChatMessageSendResponse) * ChatWorld :=
  let company_id := user_company_id current_user in
  match tenant_client_context_by_company_id company_id (world cw) with
  | (Raise e, w) => (inl (Propagated e), {| world := w; chat := chat cw |})
  | (Ok _, w) =>
      let tables := tables_of cw company_id in
      match chatroom_find_unique tables (session_id request) company_id with
      | None =>
          (inl (AppException_with_str_code "CHAT_ROOM_NOT_FOUND"
                  "Chat session not found"
                  [("session_id", session_id request)]),
           {| world := w; chat := chat cw |})
      | Some chat_room =>
          let tables :=
            chatmessage_create tables
              {| roomId := session_id request;
                 isAssistant := false;
                 senpaiId := None;
                 message_content := user_message request;
                 metadata := "{}" |} in
          let rag_query := rag_query_of tables request in
          match query_index env rag_query company_id 10 w with
          | (Raise e, w) =>
              (inl (Propagated e), {| world := w; chat := chat cw |})
          | (Ok rag_response, w) =>
              let system_reply := answer rag_response in
              let tables :=
                chatmessage_create tables
                  {| roomId := session_id request;
                     isAssistant := true;
                     senpaiId := Some (senpai_id request);
                     message_content := system_reply;
                     metadata := "{}" |} in
              (inr {| response_status := "success";
                      system_reply := system_reply;
                      system_score := scores rag_response |},
               {| world := w;
                  chat := <[company_id := tables]> (chat cw) |})
          end
      end
  end.

End Service.

End Chat.

(* ================================================================== *)
(** * Example data *)
(* ================================================================== *)

Module Examples.
Import Blob.

(** A stand-in tokenizer for the examples: one token per byte.  Like
    cl100k_base it gives the line feed between two lines a token of its
    own. *)
Definition one_token_per_byte (text : string) : result (list N) :=
  Ok (List.map N_of_ascii (list_ascii_of_string text)).

Definition str_of_Z (n : Z) : string :=
  NilEmpty.string_of_uint (Nat.to_uint (Z.to_nat n)).

Definition two_digits (n : Z) : string :=
  if n <? 10 then "0" +:+ str_of_Z n else str_of_Z n.

(** Midnight of 1 January 2024 (UTC), in seconds since the epoch. *)
Definition midnight : Z := 1704067200.

(** The rendering of a [Timestamp] cell, for times on 1 January 2024. *)
Definition clock (t : option Z) : string :=
  match t with
  | None => "NaT"
  | Some ns =>
      let s := ns / 1000000000 - midnight in
      "2024-01-01 " +:+ two_digits (s / 3600) +:+ ":"
        +:+ two_digits (s mod 3600 / 60) +:+ ":" +:+ two_digits (s mod 60)
  end.

(** [hh:mm] on 1 January 2024, in nanoseconds since the epoch. *)
Definition at_time (hh mm : Z) : Z :=
  (midnight + hh * 3600 + mm * 60) * 1000000000.

Definition row_hi : Row :=
  {| Timestamp := Some (at_time 9 0); User_ID := "U1"; User_Name := "alice";
     Channel := "general"; Message := "hi"; Attachments := "nan";
     Parent_Message_Timestamp := None |}.

Definition row_hello : Row :=
  {| Timestamp := Some (at_time 9 1); User_ID := "U2"; User_Name := "bob";
     Channel := "general"; Message := "hello"; Attachments := "nan";
     Parent_Message_Timestamp := None |}.

(** A row whose two time cells both failed to parse. *)
Definition row_undated : Row :=
  {| Timestamp := None; User_ID := "U3"; User_Name := "carol";
     Channel := "general"; Message := "note"; Attachments := "nan";
     Parent_Message_Timestamp := None |}.

(** A reply written at 10:05 in a thread anchored at 09:00. *)
Definition row_late_reply : Row :=
  {| Timestamp := Some (at_time 10 5); User_ID := "U2"; User_Name := "bob";
     Channel := "general"; Message := "re"; Attachments := "nan";
     Parent_Message_Timestamp := Some (at_time 9 0) |}.

(** A message written at 10:00 that starts its own thread. *)
Definition row_ten : Row :=
  {| Timestamp := Some (at_time 10 0); User_ID := "U1"; User_Name := "alice";
     Channel := "general"; Message := "new"; Attachments := "nan";
     Parent_Message_Timestamp := None |}.

(** *** A search service and two tenants *)

Import Rag.

Definition example_settings : Settings :=
  {| AZURE_SEARCH_INDEX_NAME := "saix";
     AZURE_SEARCH_DEPLOYMENT_NAME := "text-embedding";
     AZURE_OPENAI_API_DEPLOYMENT_NAME := "gpt";
     AZURE_STORAGE_CONNECTION_STRING := "storage" |}.

(** [float] on the answers the example model gives. *)
Definition example_float (s : string) : result PyFloat :=
  if String.eqb s "9" then Ok (Num 9)
  else if String.eqb s "2" then Ok (Num 2)
  else if String.eqb s "nan" then Ok NaN
  else Raise (LibraryError "could not convert string to float").

(** The example model: it is down for query expansion (the request with
    [max_tokens=50]), rates a document 9 when its text mentions bob and 2
    otherwise (the requests with [max_tokens=3]), and answers every other
    request. *)
Definition example_chat (request : ChatRequest) : result string :=
  match max_tokens request with
  | Some 50 => Raise (LibraryError "timeout")
  | Some 3 =>
      match messages request with
      | [(_, prompt)] =>
          if existsb
               (fun i => String.eqb (substring i 3 prompt) "bob")
               (seq 0 (String.length prompt))
          then Ok "9" else Ok "2"
      | _ => Ok "2"
      end
  | _ => Ok "done"
  end.

(** The example ranking: the first [k] documents of the index as stored,
    with scores 1, 1/2, 1/3, ... *)
Definition example_rank (stored : list Document) (vector : Embedding) (k : Z)
  : list SearchResult :=
  List.map
    (fun '(i, d) =>
       {| result_id := id d;
          search_score := (1 # Pos.of_nat (S i))%Q;
          result_content := content d |})
    (enumerate_from 0 (firstn (Z.to_nat k) stored)).

(** The example collaborators.  The messages of the examples hold at most
    a lone closing brace, which [str.format] refuses with a [ValueError]
    whose own text quotes the brace. *)
Definition example_env : Env :=
  {| settings := example_settings;
     encode := one_token_per_byte;
     str_of_ts := clock;
     py_float := example_float;
     py_strip := fun s => s;
     py_lower := fun s => s;
     md5_hexdigest := fun _ => "0123456789abcdef0123456789abcdef";
     format_error :=
       fun _ _ => Some "Single '}' encountered in format string";
     sort_with_nan := fun l => l;
     embeddings_create :=
       fun text _ =>
         if String.eqb text "unembeddable"
         then Raise (LibraryError "content filter")
         else Ok [1%Q; 0%Q];
     chat_completions_create := example_chat;
     rank := example_rank;
     delete_index_refused := fun _ => None;
     csvfile_write_refused := fun _ => None;
     download_csv_from_blob :=
       fun blob_url _ =>
         if String.eqb blob_url "https://store/files/a.csv"
         then Ok [row_hi] else Ok [row_hello] |}.


(** Tenants [a] and [b], each with one uploaded file, and a search service
    without indexes. *)
Definition fresh_world : World :=
  {| indexes := ∅;
     tenants :=
       {[ "a" := {| promptTemplate := "prompt of a";
                    csvfile :=
                      {[ "file-a" :=
                           {| companyId := "a";
                              blobUrl := "https://store/files/a.csv";
                              status := "uploaded" |} ]} |};
          "b" := {| promptTemplate := "prompt of b";
                    csvfile :=
                      {[ "file-b" :=
                           {| companyId := "b";
                              blobUrl := "https://store/files/b.csv";
                              status := "uploaded" |} ]} |} ]};
     calls := [] |}.

(** Tenant [a] builds its index, then tenant [b] builds its own. *)
Definition world_after_a : World :=
  snd (build_index example_env "file-a" "a" fresh_world).

Definition world_after_b : World :=
  snd (build_index example_env "file-b" "b" world_after_a).

(** A search service whose shared index holds the lines of alice and bob. *)
Definition doc_alice : Document :=
  {| id := "d1";
     content := "2024-01-01 09:00:00 U1 alice general hi nan";
     contentVector := [1%Q; 0%Q] |}.

Definition doc_bob : Document :=
  {| id := "d2";
     content := "2024-01-01 09:01:00 U2 bob general hello nan";
     contentVector := [1%Q; 0%Q] |}.

Definition world_two_documents : World :=
  {| indexes := {[ "saix" := [doc_alice; doc_bob] ]};
     tenants := tenants fresh_world;
     calls := [] |}.

(** The database of a tenant of the example worlds. *)
Definition tenant_of (w : World) (company_id : string) : Tenant :=
  default {| promptTemplate := EmptyString; csvfile := ∅ |}
          (tenants w !! company_id).

(** The same collaborators with a storage whose files hold a header line
    and no record. *)
Definition env_empty_export : Env :=
  {| settings := settings example_env;
     encode := encode example_env;
     str_of_ts := str_of_ts example_env;
     py_float := py_float example_env;
     py_strip := py_strip example_env;
     py_lower := py_lower example_env;
     md5_hexdigest := md5_hexdigest example_env;
     format_error := format_error example_env;
     sort_with_nan := sort_with_nan example_env;
     embeddings_create := embeddings_create example_env;
     chat_completions_create := chat_completions_create example_env;
     rank := rank example_env;
     delete_index_refused := delete_index_refused example_env;
     csvfile_write_refused := csvfile_write_refused example_env;
     download_csv_from_blob := fun _ _ => Ok [] |}.






(** The same collaborators with a search service that refuses to delete
    an index. *)
Definition env_delete_refused : Env :=
  {| settings := settings example_env;
     encode := encode example_env;
     str_of_ts := str_of_ts example_env;
     py_float := py_float example_env;
     py_strip := py_strip example_env;
     py_lower := py_lower example_env;
     md5_hexdigest := md5_hexdigest example_env;
     format_error := format_error example_env;
     sort_with_nan := sort_with_nan example_env;
     embeddings_create := embeddings_create example_env;
     chat_completions_create := chat_completions_create example_env;
     rank := rank example_env;
     delete_index_refused := fun _ => Some (LibraryError "HttpResponseError");
     csvfile_write_refused := csvfile_write_refused example_env;
     download_csv_from_blob := download_csv_from_blob example_env |}.

(** The same collaborators with tenant databases that refuse a write to
    the csvfile table. *)
Definition env_write_refused : Env :=
  {| settings := settings example_env;
     encode := encode example_env;
     str_of_ts := str_of_ts example_env;
     py_float := py_float example_env;
     py_strip := py_strip example_env;
     py_lower := py_lower example_env;
     md5_hexdigest := md5_hexdigest example_env;
     format_error := format_error example_env;
     sort_with_nan := sort_with_nan example_env;
     embeddings_create := embeddings_create example_env;
     chat_completions_create := chat_completions_create example_env;
     rank := rank example_env;
     delete_index_refused := delete_index_refused example_env;
     csvfile_write_refused := fun _ => Some (LibraryError "connection closed");
     download_csv_from_blob := download_csv_from_blob example_env |}.

(** The same collaborators with a storage whose error text holds a
    closing brace. *)
Definition env_brace_in_error : Env :=
  {| settings := settings example_env;
     encode := encode example_env;
     str_of_ts := str_of_ts example_env;
     py_float := py_float example_env;
     py_strip := py_strip example_env;
     py_lower := py_lower example_env;
     md5_hexdigest := md5_hexdigest example_env;
     format_error := format_error example_env;
     sort_with_nan := sort_with_nan example_env;
     embeddings_create := embeddings_create example_env;
     chat_completions_create := chat_completions_create example_env;
     rank := rank example_env;
     delete_index_refused := delete_index_refused example_env;
     csvfile_write_refused := csvfile_write_refused example_env;
     download_csv_from_blob := fun _ _ => Raise (LibraryError "no blob named }") |}.

(** *** A chat room *)

Import Chat.

Definition user_of_a : ChatUser :=
  {| user_id := "u1"; user_name := "ann"; user_company_id := "a";
     user_role := "member" |}.

(** Tenant [a] has one chat room and one senior, bob. *)
Definition chat_world : ChatWorld :=
  {| world := world_two_documents;
     chat :=
       {[ "a" := {| chatroom := {[ "room-1" := {| room_companyId := "a" |} ]};
                    chatmessage := [];
                    senior := {[ "s1" := {| senior_name := "bob" |} ]} |} ]} |}.

End Examples.

(* ================================================================== *)
(** * Properties of the chunker *)
(* ================================================================== *)

Module BlobFacts.
Import Blob.

Lemma bind_inv {A B : Type} (r : result A) (k : A -> result B) (b : B) :
  (r ≫= k) = Ok b -> exists a, r = Ok a /\ k a = Ok b.
Proof.
  destruct r as [a | e]; simpl; intros H.
  - exists a. split; [reflexivity | exact H].
  - discriminate H.
Qed.

(** C8: with no rows the loop runs zero times and [chunks] stays empty; the
    statistics printed before [return] then divide by [len(token_counts)],
    which is zero, so the call raises instead of returning zero passages. *)
Theorem empty_table_raises_ZeroDivisionError :
  forall (encode : string -> result (list N)) (str_of_ts : option Z -> string)
         (time_window_minutes target_chunk_tokens : Z),
    preprocess_and_chunk_data encode str_of_ts []
      time_window_minutes target_chunk_tokens
    = Raise ZeroDivisionError.
Proof.
  intros encode str_of_ts tw target.
  reflexivity.
Qed.

(** ** The order of the thread groups *)

Lemma in_insert_key (k x : Z) (keys : list Z) :
  In x (insert_key k keys) <-> x = k \/ In x keys.
Proof.
  induction keys as [| y keys IH]; simpl.
  - intuition.
  - destruct (Z.ltb_spec k y) as [Hlt | Hge]; simpl.
    + intuition.
    + destruct (Z.eqb_spec k y) as [-> | Hne]; simpl.
      * intuition.
      * rewrite IH. intuition.
Qed.

Lemma insert_key_sorted (k : Z) (keys : list Z) :
  StronglySorted Z.lt keys -> StronglySorted Z.lt (insert_key k keys).
Proof.
  induction keys as [| y keys IH]; simpl; intros Hs.
  - repeat constructor.
  - inversion Hs as [| ? ? Hs' Hall]; subst.
    destruct (Z.ltb_spec k y) as [Hlt | Hge].
    + constructor; [exact Hs |].
      constructor; [exact Hlt |].
      rewrite List.Forall_forall in Hall |- *.
      intros z Hz. specialize (Hall z Hz). lia.
    + destruct (Z.eqb_spec k y) as [-> | Hne]; [exact Hs |].
      constructor; [apply IH; exact Hs' |].
      rewrite List.Forall_forall in Hall |- *.
      intros z Hz. apply in_insert_key in Hz.
      destruct Hz as [-> | Hz]; [lia | apply Hall; exact Hz].
Qed.

Lemma group_keys_sorted (df : DataFrame) :
  StronglySorted Z.lt (group_keys df).
Proof.
  induction df as [| r df IH]; simpl.
  - constructor.
  - destruct (Parent_Message_Timestamp r); [apply insert_key_sorted |];
      exact IH.
Qed.

Lemma in_group_keys (df : DataFrame) (k : Z) :
  In k (group_keys df)
  <-> exists r, In r df /\ Parent_Message_Timestamp r = Some k.
Proof.
  induction df as [| r df IH]; simpl.
  - split; [tauto | intros (r & [] & _)].
  - destruct (Parent_Message_Timestamp r) as [p |] eqn:Hp.
    + rewrite in_insert_key, IH. split.
      * intros [-> | (r' & Hin & Hr')]; eauto.
      * intros (r' & [<- | Hin] & Hr'); [left; congruence | right; eauto].
    + rewrite IH. split.
      * intros (r' & Hin & Hr'); eauto.
      * intros (r' & [<- | Hin] & Hr'); [congruence | eauto].
Qed.

Lemma in_group_true (k : Z) (r : Row) :
  in_group k r = true <-> Parent_Message_Timestamp r = Some k.
Proof.
  unfold in_group. destruct (Parent_Message_Timestamp r) as [p |].
  - rewrite Z.eqb_eq. split; congruence.
  - split; discriminate.
Qed.

Lemma insert_row_perm (r : Row) (l : list Row) :
  Permutation (insert_row r l) (r :: l).
Proof.
  induction l as [| x l IH]; simpl.
  - reflexivity.
  - destruct (ts_leb (Timestamp r) (Timestamp x)); [reflexivity |].
    rewrite IH. apply perm_swap.
Qed.

Lemma sort_values_perm (df : DataFrame) : Permutation (sort_values df) df.
Proof.
  induction df as [| r df IH]; simpl.
  - reflexivity.
  - rewrite insert_row_perm. constructor. exact IH.
Qed.

Lemma groupby_keys (df : DataFrame) :
  List.map fst (groupby df) = group_keys df.
Proof.
  unfold groupby. rewrite List.map_map. simpl. apply List.map_id.
Qed.

(** C9 (as the code has it): the loop receives the groups in ascending
    order of their key, the filled [Parent Message Timestamp]; every group
    is non-empty and holds, in timestamp order, exactly the rows carrying
    its key; and every row that has a key is in the group of that key. *)
Theorem thread_groups_visited_in_key_order :
  forall df : DataFrame,
    StronglySorted Z.lt (List.map fst (thread_groups df))
    /\ (forall k group,
          In (k, group) (thread_groups df) ->
          group <> []
          /\ group
             = List.filter (in_group k) (sort_values (List.map fillna df)))
    /\ (forall r k,
          In r df ->
          Parent_Message_Timestamp (fillna r) = Some k ->
          exists group,
            In (k, group) (thread_groups df) /\ In (fillna r) group).
Proof.
  intros df. unfold thread_groups.
  set (sorted := sort_values (List.map fillna df)).
  split; [| split].
  - rewrite groupby_keys. apply group_keys_sorted.
  - intros k group Hin. unfold groupby in Hin.
    apply List.in_map_iff in Hin. destruct Hin as (k' & Heq & Hk').
    inversion Heq; subst k' group. split; [| reflexivity].
    apply in_group_keys in Hk'. destruct Hk' as (r & Hr & Hp).
    intros Hnil.
    assert (Hf : In r (List.filter (in_group k) sorted)).
    { apply List.filter_In. split; [exact Hr | apply in_group_true; exact Hp]. }
    rewrite Hnil in Hf. exact Hf.
  - intros r k Hr Hp.
    assert (Hs : In (fillna r) sorted).
    { apply (Permutation_in _ (Permutation_sym (sort_values_perm _))).
      apply List.in_map. exact Hr. }
    exists (List.filter (in_group k) sorted). split.
    + unfold groupby. apply List.in_map_iff. exists k. split; [reflexivity |].
      apply in_group_keys. eauto.
    + apply List.filter_In. split; [exact Hs | apply in_group_true; exact Hp].
Qed.

(** ** The accounting of the loop *)

Section Accounting.

Variable encode : string -> result (list N).
Variable str_of_ts : option Z -> string.
Variable target : Z.

Abbreviation count := (count_tokens encode).
Abbreviation line := (text_line str_of_ts).
Abbreviation lines := (lines_of str_of_ts).
Abbreviation passage := (render str_of_ts).
Abbreviation accounted := (Blob.accounted encode str_of_ts target).
Abbreviation temp_ok := (Blob.temp_ok encode str_of_ts target).
Abbreviation buffer_ok := (Blob.buffer_ok encode str_of_ts target).
Abbreviation loop_ok := (Blob.loop_ok encode str_of_ts target).

Lemma sum_Z_app (a b : list Z) : sum_Z (a ++ b) = sum_Z a + sum_Z b.
Proof.
  induction a as [| x a IH]; simpl; [reflexivity |].
  unfold sum_Z in *. simpl. rewrite IH. lia.
Qed.

Lemma count_tokens_nonneg (text : string) (n : Z) :
  count text = Ok n -> 0 <= n.
Proof.
  unfold count_tokens. intros H.
  apply bind_inv in H. destruct H as (tokens & _ & H).
  inversion H. lia.
Qed.

Lemma concat_singletons (rows : list Row) :
  List.concat (singletons rows) = rows.
Proof.
  induction rows as [| r rows IH]; simpl; [reflexivity |].
  f_equal. exact IH.
Qed.

Lemma passage_singletons (rows : list Row) :
  passage (singletons rows) = join LF (lines rows).
Proof. unfold render. rewrite concat_singletons. reflexivity. Qed.

Lemma temp_ok_accounted (temp_rows : list Row) (temp_tokens : Z) :
  temp_ok temp_rows temp_tokens -> accounted (singletons temp_rows).
Proof.
  intros (counts & Hc & Hsum & Hcase).
  destruct Hcase as [-> | [Hle | (r & ->)]].
  - right. right. reflexivity.
  - left. exists counts. split; [| lia].
    clear Hsum Hle. induction Hc; simpl; constructor; auto.
  - inversion Hc as [| ? n ? cs Hn Hrest]; subst. inversion Hrest; subst.
    destruct (Z_le_gt_dec n target) as [Hle | Hgt].
    + left. exists [n]. split.
      * constructor; [exact Hn | constructor].
      * unfold sum_Z. simpl. lia.
    + right. left. exists r, n. repeat split; auto.
Qed.

Lemma accounted_flush (chunks0 : list string) (done : list (list (list Row)))
      (pieces : list (list Row)) :
  chunks0 = List.map passage done ->
  chunks0 ++ [passage pieces] = List.map passage (done ++ [pieces]).
Proof. intros ->. rewrite List.map_app. reflexivity. Qed.

(** The inner loop: every row it is given ends up, in order, either in a
    passage it appended or in the temporary chunk it returns. *)
Lemma split_thread_accounted (rows : list Row) :
  forall chunks0 done temp_rows temp_tokens chunks1 temp1,
    split_thread encode target (lines rows) chunks0 (lines temp_rows)
      temp_tokens = Ok (chunks1, temp1) ->
    chunks0 = List.map passage done ->
    temp_ok temp_rows temp_tokens ->
    exists added temp_rows1 temp_tokens1,
      chunks1 = List.map passage (done ++ added)
      /\ Forall accounted added
      /\ temp1 = lines temp_rows1
      /\ temp_ok temp_rows1 temp_tokens1
      /\ List.concat (List.map (@List.concat Row) added) ++ temp_rows1
         = temp_rows ++ rows.
Proof.
  induction rows as [| r rows IH];
    intros chunks0 done temp_rows temp_tokens chunks1 temp1 Hrun Hchunks Htemp.
  - simpl in Hrun. inversion Hrun; subst.
    exists [], temp_rows, temp_tokens.
    rewrite !List.app_nil_r. simpl. repeat split; auto.
  - simpl in Hrun. apply bind_inv in Hrun.
    destruct Hrun as (n & Hn & Hrun).
    destruct (temp_tokens + n >? target) eqn:Hover.
    + (* flush the temporary chunk, start again with this line *)
      change [line r] with (lines [r]) in Hrun.
      rewrite <- passage_singletons in Hrun.
      eapply IH in Hrun.
      2:{ apply accounted_flush. exact Hchunks. }
      2:{ exists [n]. split; [constructor; [exact Hn | constructor] |].
          split; [unfold sum_Z; simpl; lia |]. right. right. eauto. }
      destruct Hrun as (added & temp_rows1 & temp_tokens1 & H1 & H2 & H3
                          & H4 & H5).
      exists (singletons temp_rows :: added), temp_rows1, temp_tokens1.
      rewrite <- List.app_assoc in H1. simpl in H1.
      split; [exact H1 |].
      split; [constructor; [eapply temp_ok_accounted; exact Htemp | exact H2] |].
      split; [exact H3 |]. split; [exact H4 |].
      simpl. rewrite concat_singletons, <- List.app_assoc. simpl in H5.
      rewrite H5. reflexivity.
    + (* the line fits *)
      assert (Hlines : lines temp_rows ++ [line r] = lines (temp_rows ++ [r])).
      { unfold lines_of. rewrite List.map_app. reflexivity. }
      rewrite Hlines in Hrun.
      eapply IH in Hrun; [| exact Hchunks |].
      2:{ destruct Htemp as (counts & Hc & Hsum & _).
          exists (counts ++ [n]). split.
          - apply Forall2_app; [exact Hc |].
            constructor; [exact Hn | constructor].
          - rewrite sum_Z_app. unfold sum_Z at 2. simpl.
            split; [lia |]. right. left.
            rewrite Z.gtb_ltb in Hover. apply Z.ltb_ge in Hover. lia. }
      destruct Hrun as (added & temp_rows1 & temp_tokens1 & H1 & H2 & H3
                          & H4 & H5).
      exists added, temp_rows1, temp_tokens1.
      repeat split; auto.
      rewrite H5, <- List.app_assoc. reflexivity.
Qed.

Lemma concat_map_concat_app (a b : list (list (list Row))) :
  List.concat (List.map (@List.concat Row) (a ++ b))
  = List.concat (List.map (@List.concat Row) a)
    ++ List.concat (List.map (@List.concat Row) b).
Proof. rewrite List.map_app, List.concat_app. reflexivity. Qed.

Lemma flush_ok (b : Buffers) (visited : list Row) (last : option Z) :
  loop_ok b visited ->
  loop_ok {| chunks := chunks b ++ [join LF (current_chunk b)];
             current_chunk := [];
             current_chunk_tokens := 0;
             last_ts := last |} visited.
Proof.
  intros (done & pieces & Hchunks & Hdone & Hbuf & Hperm).
  destruct Hbuf as (Hcur & Hne & counts & Hcounts & Hsum & Hle).
  exists (done ++ [pieces]), []. simpl. split; [| split; [| split]].
  - rewrite Hcur. apply accounted_flush. exact Hchunks.
  - apply Forall_app. split; [exact Hdone |].
    constructor; [| constructor].
    destruct Hle as [-> | Hle]; [right; right; reflexivity |].
    left. exists counts. split; [exact Hcounts | lia].
  - split; [reflexivity |]. split; [constructor |].
    exists []. split; [constructor |]. split; [reflexivity | left; reflexivity].
  - rewrite concat_map_concat_app. simpl.
    rewrite !List.app_nil_r. exact Hperm.
Qed.

Lemma truthy_lines (rows : list Row) : truthy (lines rows) = truthy rows.
Proof. destruct rows; reflexivity. Qed.

Lemma buffer_empty (b : Buffers) (pieces : list (list Row)) :
  buffer_ok b pieces ->
  truthy (current_chunk b) = false ->
  pieces = [] /\ current_chunk_tokens b = 0.
Proof.
  intros (Hcur & Hne & counts & Hcounts & Hsum & _) Hempty.
  destruct pieces as [| piece pieces].
  - inversion Hcounts; subst. split; [reflexivity |]. symmetry. exact Hsum.
  - inversion Hne as [| ? ? Hpiece _]; subst.
    destruct piece as [| r piece]; [congruence |].
    rewrite Hcur in Hempty. discriminate Hempty.
Qed.

(** Appending a group that fits to the buffer. *)
Lemma append_ok (b : Buffers) (visited group : list Row) (n : Z)
      (last : option Z) :
  loop_ok b visited ->
  truthy (current_chunk b) = false \/ current_chunk_tokens b + n <= target ->
  group <> [] ->
  count (join LF (lines group)) = Ok n ->
  n <= target ->
  loop_ok {| chunks := chunks b;
             current_chunk := current_chunk b ++ lines group;
             current_chunk_tokens := current_chunk_tokens b + n;
             last_ts := last |} (visited ++ group).
Proof.
  intros (done & pieces & Hchunks & Hdone & Hbuf & Hperm) Hfit Hgroup Hn Hle.
  exists done, (pieces ++ [group]). cbn [chunks current_chunk
                                          current_chunk_tokens].
  split; [exact Hchunks |]. split; [exact Hdone |].
  split.
  - assert (Hsum2 : current_chunk_tokens b + n <= target).
    { destruct Hfit as [Hempty | Hfit]; [| exact Hfit].
      destruct (buffer_empty _ _ Hbuf Hempty) as [_ ->]. lia. }
    destruct Hbuf as (Hcur & Hne & counts & Hcounts & Hsum & _).
    split.
    { rewrite Hcur, List.concat_app. simpl. rewrite List.app_nil_r.
      unfold lines_of. rewrite List.map_app. reflexivity. }
    split.
    { apply Forall_app. split; [exact Hne |].
      constructor; [exact Hgroup | constructor]. }
    exists (counts ++ [n]). split.
    { apply Forall2_app; [exact Hcounts |].
      constructor; [exact Hn | constructor]. }
    rewrite sum_Z_app. unfold sum_Z at 2. simpl.
    split; [lia | right; exact Hsum2].
  - rewrite List.concat_app. simpl. rewrite List.app_nil_r.
    rewrite List.app_assoc. apply Permutation_app_tail. exact Hperm.
Qed.

(** One round of the loop keeps the invariant. *)
Lemma process_group_ok (time_window_minutes : Z) (b b' : Buffers)
      (kg : Z * list Row) (visited : list Row) :
  loop_ok b visited ->
  process_group encode str_of_ts time_window_minutes target b kg = Ok b' ->
  loop_ok b' (visited ++ snd kg).
Proof.
  intros Hb Hrun. unfold process_group in Hrun.
  destruct kg as [k group]. simpl snd in *.
  apply bind_inv in Hrun. destruct Hrun as (first_ts & Hfirst & Hrun).
  destruct group as [| r0 group0]; [discriminate Hfirst |].
  set (group := r0 :: group0) in *.
  apply bind_inv in Hrun. destruct Hrun as (n & Hn & Hrun).
  pose proof (count_tokens_nonneg _ _ Hn) as Hn0.
  fold (lines group) in Hrun, Hn.
  (* the token flush *)
  match type of Hrun with
  | context [if ?c then ?flushed else b] =>
      set (cond := c) in Hrun; set (b1 := if cond then flushed else b) in Hrun
  end.
  assert (Hb1 : loop_ok b1 visited).
  { subst b1. destruct cond; [apply flush_ok |]; exact Hb. }
  assert (Hfit1 : truthy (current_chunk b1) = false
                  \/ current_chunk_tokens b1 + n <= target).
  { subst b1. destruct cond eqn:Hcond; [left; reflexivity |].
    subst cond. apply andb_false_iff in Hcond.
    destruct Hcond as [Hc | Hc]; [left; exact Hc | right].
    rewrite Z.gtb_ltb in Hc. apply Z.ltb_ge in Hc. exact Hc. }
  clearbody b1. clear Hb cond.
  destruct (n >? target) eqn:Hover.
  - (* the thread alone is over the target *)
    destruct Hb1 as (done & pieces & Hchunks & Hdone & Hbuf & Hperm).
    apply bind_inv in Hrun. destruct Hrun as ([chunks1 temp1] & Hsplit & Hrun).
    inversion Hrun; subst b'; clear Hrun.
    change (@nil string) with (lines []) in Hsplit.
    eapply split_thread_accounted in Hsplit; [| exact Hchunks |].
    2:{ exists []. split; [constructor |].
        split; [reflexivity | left; reflexivity]. }
    destruct Hsplit as (added & temp_rows1 & temp_tokens1 & H1 & H2 & H3
                          & H4 & H5).
    simpl in H5. subst temp1. rewrite truthy_lines.
    destruct temp_rows1 as [| t temp_rows1]; cbn [truthy].
    + exists (done ++ added), pieces. simpl.
      split; [exact H1 |].
      split; [apply Forall_app; split; assumption |].
      split; [exact Hbuf |].
      rewrite concat_map_concat_app.
      rewrite List.app_nil_r in H5. rewrite H5.
      rewrite <- List.app_assoc.
      rewrite (Permutation_app_comm group). rewrite List.app_assoc.
      apply Permutation_app_tail. exact Hperm.
    + exists ((done ++ added) ++ [singletons (t :: temp_rows1)]), pieces.
      cbn [chunks current_chunk current_chunk_tokens].
      split.
      { rewrite <- passage_singletons. apply accounted_flush. exact H1. }
      split.
      { apply Forall_app. split; [apply Forall_app; split; assumption |].
        constructor; [| constructor].
        eapply temp_ok_accounted. exact H4. }
      split; [exact Hbuf |].
      rewrite !concat_map_concat_app. simpl.
      rewrite List.app_nil_r.
      change (t :: List.concat (singletons temp_rows1))
        with (List.concat (singletons (t :: temp_rows1))).
      rewrite concat_singletons.
      rewrite <- (List.app_assoc _ _ (t :: temp_rows1)), H5.
      rewrite <- List.app_assoc.
      rewrite (Permutation_app_comm group). rewrite List.app_assoc.
      apply Permutation_app_tail. exact Hperm.
  - (* the thread goes to the buffer, after the time-based flush *)
    rewrite Z.gtb_ltb in Hover. apply Z.ltb_ge in Hover.
    assert (Hgroup : group <> []) by discriminate.
    destruct (last_ts b1) as [l |] eqn:Hlast;
      [destruct first_ts as [f |];
       [destruct (f - l >? timedelta_minutes time_window_minutes) |] |];
      inversion Hrun; subst b'; clear Hrun.
    + pose (b2 := {| chunks := chunks b1 ++ [join LF (current_chunk b1)];
                     current_chunk := [];
                     current_chunk_tokens := 0;
                     last_ts := last_ts b1 |}).
      apply (append_ok b2 visited group n);
        [apply flush_ok; exact Hb1 | left; reflexivity | assumption..].
    + apply (append_ok b1 visited group n); assumption.
    + apply (append_ok b1 visited group n); assumption.
    + apply (append_ok b1 visited group n); assumption.
Qed.

Lemma loop_ok_initial :
  loop_ok {| chunks := []; current_chunk := [];
             current_chunk_tokens := 0; last_ts := None |} [].
Proof.
  exists [], []. split; [reflexivity |]. split; [constructor |].
  split; [| reflexivity].
  split; [reflexivity |]. split; [constructor |].
  exists []. split; [constructor |]. split; [reflexivity | left; reflexivity].
Qed.

Lemma for_each_ok (time_window_minutes : Z) (groups : list (Z * list Row)) :
  forall b b' visited,
    loop_ok b visited ->
    for_each (process_group encode str_of_ts time_window_minutes target)
      groups b = Ok b' ->
    loop_ok b' (visited ++ List.concat (List.map snd groups)).
Proof.
  induction groups as [| kg groups IH]; intros b b' visited Hb Hrun.
  - simpl in *. inversion Hrun; subst. rewrite List.app_nil_r. exact Hb.
  - simpl in Hrun. apply bind_inv in Hrun. destruct Hrun as (b1 & Hstep & Hrun).
    simpl. rewrite List.app_assoc.
    eapply IH; [| exact Hrun].
    eapply process_group_ok; eassumption.
Qed.

(** Every passage the chunker returns is accounted for, and the passages
    together hold the rows of the thread groups. *)
Lemma chunker_accounted (df : DataFrame) (time_window_minutes : Z)
      (passages : list string) :
  preprocess_and_chunk_data encode str_of_ts df time_window_minutes target
  = Ok passages ->
  exists done : list (list (list Row)),
    passages = List.map passage done
    /\ Forall accounted done
    /\ Permutation (List.concat (List.map (@List.concat Row) done))
                   (List.concat (List.map snd (thread_groups df))).
Proof.
  intros Hrun. unfold preprocess_and_chunk_data in Hrun.
  apply bind_inv in Hrun. destruct Hrun as (b & Hloop & Hrun).
  apply bind_inv in Hrun. destruct Hrun as (token_counts & _ & Hrun).
  apply bind_inv in Hrun. destruct Hrun as (average & _ & Hrun).
  inversion Hrun; subst passages; clear Hrun.
  eapply (for_each_ok _ _ _ _ []) in Hloop; [| apply loop_ok_initial].
  simpl in Hloop.
  destruct (truthy (current_chunk b)) eqn:Hcur.
  - apply (flush_ok _ _ None) in Hloop.
    destruct Hloop as (done & pieces & Hchunks & Hdone & Hbuf & Hperm).
    destruct (buffer_empty _ _ Hbuf eq_refl) as [-> _].
    simpl in Hchunks. exists done. split; [exact Hchunks |].
    split; [exact Hdone |].
    rewrite List.app_nil_r in Hperm. exact Hperm.
  - destruct Hloop as (done & pieces & Hchunks & Hdone & Hbuf & Hperm).
    destruct (buffer_empty _ _ Hbuf Hcur) as [-> _].
    exists done. split; [exact Hchunks |]. split; [exact Hdone |].
    rewrite List.app_nil_r in Hperm. exact Hperm.
Qed.

End Accounting.

Lemma in_thread_groups (df : DataFrame) (r : Row) :
  In r (List.concat (List.map snd (thread_groups df))) ->
  In r (List.map fillna df).
Proof.
  intros Hin. apply List.in_concat in Hin. destruct Hin as (group & Hg & Hr).
  apply List.in_map_iff in Hg. destruct Hg as ([k g] & Heq & Hkg).
  simpl in Heq. subst g.
  unfold thread_groups, groupby in Hkg.
  apply List.in_map_iff in Hkg. destruct Hkg as (k' & Heq & _).
  inversion Heq; subst.
  apply List.filter_In in Hr. destruct Hr as [Hr _].
  apply (Permutation_in _ (sort_values_perm _)). exact Hr.
Qed.

(** C2 (as the code has it): with a non-negative target, every returned
    passage is the join of the lines of pieces (whole thread groups, or
    single lines of a thread that was split) made of rows of the table, and
    either the token counts of the pieces, each piece encoded by itself, add
    up to at most the target, or the passage is one line whose own count is
    over the target.  The count of the joined passage is not what is bounded. *)
Theorem passages_accounted_within_target :
  forall (encode : string -> result (list N)) (str_of_ts : option Z -> string)
         (df : DataFrame) (time_window_minutes target_chunk_tokens : Z)
         (passages : list string) (passage : string),
    0 <= target_chunk_tokens ->
    preprocess_and_chunk_data encode str_of_ts df
      time_window_minutes target_chunk_tokens = Ok passages ->
    In passage passages ->
    exists pieces : list (list Row),
      passage = render str_of_ts pieces
      /\ (measured encode str_of_ts target_chunk_tokens pieces
          \/ oversized_line encode str_of_ts target_chunk_tokens pieces)
      /\ (forall r, In r (List.concat pieces) -> In r (List.map fillna df)).
Proof.
  intros encode str_of_ts df tw target passages passage Htarget Hrun Hin.
  apply chunker_accounted in Hrun.
  destruct Hrun as (done & -> & Hdone & Hperm).
  apply List.in_map_iff in Hin. destruct Hin as (pieces & <- & Hpieces).
  exists pieces. split; [reflexivity |]. split.
  - rewrite List.Forall_forall in Hdone.
    destruct (Hdone pieces Hpieces) as [H | [H | ->]]; [left | right | left];
      try exact H.
    exists []. split; [constructor | exact Htarget].
  - intros r Hr. apply in_thread_groups.
    apply (Permutation_in _ Hperm).
    apply List.in_concat. exists (List.concat pieces). split; [| exact Hr].
    apply List.in_map. exact Hpieces.
Qed.

Import Examples.

(** ** Which rows reach a passage *)

Lemma filter_perm (f : Row -> bool) (l l' : list Row) :
  Permutation l l' -> Permutation (List.filter f l) (List.filter f l').
Proof.
  induction 1 as [| x l l' _ IH | x y l | l l' l'' _ IH1 _ IH2]; simpl.
  - reflexivity.
  - destruct (f x); [constructor |]; exact IH.
  - destruct (f x), (f y); try reflexivity. apply perm_swap.
  - etransitivity; eassumption.
Qed.

Lemma sorted_keys_NoDup (keys : list Z) :
  StronglySorted Z.lt keys -> List.NoDup keys.
Proof.
  induction 1 as [| k keys _ IH Hall]; constructor; [| exact IH].
  intros Hin. rewrite List.Forall_forall in Hall.
  specialize (Hall k Hin). lia.
Qed.

Lemma in_group_other (k : Z) (r : Row) (p : Z) :
  Parent_Message_Timestamp r = Some p -> k <> p -> in_group k r = false.
Proof.
  intros Hp Hne. unfold in_group. rewrite Hp. apply Z.eqb_neq. congruence.
Qed.

(** The groups of a table, taken over any duplicate-free list of keys that
    covers the keys of the table, hold the rows that have a key, each one
    once. *)
Lemma groups_hold_keyed_rows (keys : list Z) (df : DataFrame) :
  List.NoDup keys ->
  (forall r k, In r df -> Parent_Message_Timestamp r = Some k -> In k keys) ->
  Permutation
    (List.concat (List.map (fun k => List.filter (in_group k) df) keys))
    (List.filter has_parent df).
Proof.
  intros Hnodup. induction df as [| r df IH]; intros Hcover.
  - simpl. clear. induction keys as [| k keys IH]; simpl; [reflexivity | exact IH].
  - assert (IH' := IH (fun r' k Hin => Hcover r' k (or_intror Hin))).
    clear IH. unfold has_parent at 1. simpl List.filter at 2.
    destruct (Parent_Message_Timestamp r) as [p |] eqn:Hp.
    + destruct (List.in_split p keys (Hcover r p (or_introl eq_refl) Hp))
        as (before & after & Hkeys).
      subst keys.
      apply List.NoDup_remove_2 in Hnodup.
      rewrite List.map_app, List.concat_app in IH' |- *. simpl in IH' |- *.
      assert (Hp' : in_group p r = true) by (apply in_group_true; exact Hp).
      rewrite Hp'.
      assert (Hrest : forall part,
                 (forall k, In k part -> k <> p) ->
                 List.map (fun k => List.filter (in_group k) (r :: df)) part
                 = List.map (fun k => List.filter (in_group k) df) part).
      { intros part Hpart. apply List.map_ext_in. intros k Hk. simpl.
        rewrite (in_group_other k r p Hp (Hpart k Hk)). reflexivity. }
      rewrite !Hrest.
      * etransitivity; [symmetry; apply Permutation_middle |].
        constructor. exact IH'.
      * intros k Hk ->. apply Hnodup. apply List.in_or_app. right. exact Hk.
      * intros k Hk ->. apply Hnodup. apply List.in_or_app. left. exact Hk.
    + assert (Hsame :
        List.map (fun k => List.filter (in_group k) (r :: df)) keys
        = List.map (fun k => List.filter (in_group k) df) keys).
      { apply List.map_ext. intros k. simpl. unfold in_group at 1.
        rewrite Hp. reflexivity. }
      rewrite Hsame. exact IH'.
Qed.

Lemma filter_has_parent_fillna (df : DataFrame) :
  List.filter has_parent (List.map fillna df)
  = List.map fillna (List.filter has_thread_key df).
Proof.
  induction df as [| r df IH]; simpl; [reflexivity |].
  unfold has_parent at 1, has_thread_key at 1. simpl.
  destruct (Parent_Message_Timestamp r), (Timestamp r); simpl;
    rewrite IH; reflexivity.
Qed.

Lemma thread_groups_hold_keyed_rows (df : DataFrame) :
  Permutation (List.concat (List.map snd (thread_groups df)))
              (List.map fillna (List.filter has_thread_key df)).
Proof.
  unfold thread_groups, groupby. rewrite List.map_map. simpl.
  rewrite groups_hold_keyed_rows.
  - rewrite <- filter_has_parent_fillna.
    apply filter_perm. apply sort_values_perm.
  - apply sorted_keys_NoDup. apply group_keys_sorted.
  - intros r k Hr Hk. apply in_group_keys. eauto.
Qed.

Lemma text_line_fillna (str_of_ts : option Z -> string) (r : Row) :
  text_line str_of_ts (fillna r) = text_line str_of_ts r.
Proof. reflexivity. Qed.

(** X1, row conservation for the rows that have a thread key: whenever the
    chunker returns, its passages are joins of lines, and the lines of all
    passages together are the lines of the rows of the table that have a
    thread key (a [Timestamp] or a [Parent Message Timestamp] that parsed),
    each row once. *)
Theorem keyed_rows_are_conserved :
  forall (encode : string -> result (list N)) (str_of_ts : option Z -> string)
         (df : DataFrame) (time_window_minutes target_chunk_tokens : Z)
         (passages : list string),
    preprocess_and_chunk_data encode str_of_ts df
      time_window_minutes target_chunk_tokens = Ok passages ->
    exists passage_lines : list (list string),
      passages = List.map (join LF) passage_lines
      /\ Permutation (List.concat passage_lines)
           (List.map (text_line str_of_ts)
              (List.filter has_thread_key df)).
Proof.
  intros encode str_of_ts df tw target passages Hrun.
  apply chunker_accounted in Hrun.
  destruct Hrun as (done & -> & _ & Hperm).
  exists (List.map (fun pieces => lines_of str_of_ts (List.concat pieces))
                   done).
  split.
  - rewrite List.map_map. reflexivity.
  - rewrite thread_groups_hold_keyed_rows in Hperm.
    apply (Permutation_map (text_line str_of_ts)) in Hperm.
    rewrite List.map_map in Hperm.
    erewrite List.map_ext in Hperm; [| intros r; apply text_line_fillna].
    rewrite <- Hperm. clear.
    induction done as [| pieces done IH]; simpl; [reflexivity |].
    unfold lines_of at 1. rewrite List.map_app. rewrite IH. reflexivity.
Qed.

(** The same theorem on the two example threads. *)
Lemma keyed_rows_are_conserved_witness :
  exists passage_lines : list (list string),
    [join LF [text_line clock row_hi; text_line clock row_hello]]
    = List.map (join LF) passage_lines
    /\ Permutation (List.concat passage_lines)
         (List.map (text_line clock)
            (List.filter has_thread_key [row_hi; row_hello; row_undated])).
Proof.
  apply (keyed_rows_are_conserved one_token_per_byte clock
           [row_hi; row_hello; row_undated] 5 1000).
  vm_compute. reflexivity.
Defined.

(** ** The chunker on the example data *)

(** C1: a row whose [Timestamp] and [Parent Message Timestamp] both failed
    to parse has no group key, [groupby] leaves it out, and its line reaches
    no passage: for every tokenizer the call behaves as if the row were not
    in the table, and with the example tokenizer the only passage is the
    line of the other row. *)
Theorem undated_row_is_dropped :
  (forall (encode : string -> result (list N))
          (str_of_ts : option Z -> string)
          (time_window_minutes target_chunk_tokens : Z),
      preprocess_and_chunk_data encode str_of_ts [row_hi; row_undated]
        time_window_minutes target_chunk_tokens
      = preprocess_and_chunk_data encode str_of_ts [row_hi]
          time_window_minutes target_chunk_tokens)
  /\ preprocess_and_chunk_data one_token_per_byte clock
       [row_hi; row_undated] 5 1000
     = Ok ["2024-01-01 09:00:00 U1 alice general hi nan"]
  /\ text_line clock row_undated = "NaT U3 carol general note nan".
Proof.
  split; [| split].
  - intros encode str_of_ts tw target. reflexivity.
  - vm_compute. reflexivity.
  - vm_compute. reflexivity.
Qed.

(** C2, counterexample: two one-line threads a minute apart, measured at 43
    and 44 tokens, and a target of 87.  The sum is not over the target, so
    both lines go to one passage; the passage has the line feed between them
    as well, 88 tokens, and it is not a single line. *)
Lemma joined_passage_exceeds_target :
  preprocess_and_chunk_data one_token_per_byte clock [row_hi; row_hello] 5 87
  = Ok [join LF [text_line clock row_hi; text_line clock row_hello]]
  /\ count_tokens one_token_per_byte (text_line clock row_hi) = Ok 43
  /\ count_tokens one_token_per_byte (text_line clock row_hello) = Ok 44
  /\ count_tokens one_token_per_byte
       (join LF [text_line clock row_hi; text_line clock row_hello]) = Ok 88
  /\ ~ spec_within_budget one_token_per_byte clock [row_hi; row_hello] 87
         (join LF [text_line clock row_hi; text_line clock row_hello]).
Proof.
  split; [vm_compute; reflexivity |].
  split; [vm_compute; reflexivity |].
  split; [vm_compute; reflexivity |].
  split; [vm_compute; reflexivity |].
  intros (n & Hn & Hcase).
  vm_compute in Hn. inversion Hn; subst n; clear Hn.
  destruct Hcase as [Hle | (r & Hr & Heq)]; [lia |].
  destruct Hr as [<- | [<- | []]]; vm_compute in Heq; discriminate Heq.
Qed.

(** The accounting theorem applied to the same two threads with the default
    target of 1000. *)
Lemma passages_accounted_within_target_witness :
  exists pieces : list (list Row),
    join LF [text_line clock row_hi; text_line clock row_hello]
    = render clock pieces
    /\ (measured one_token_per_byte clock 1000 pieces
        \/ oversized_line one_token_per_byte clock 1000 pieces)
    /\ (forall r, In r (List.concat pieces) ->
                  In r (List.map fillna [row_hi; row_hello])).
Proof.
  apply (passages_accounted_within_target one_token_per_byte clock
           [row_hi; row_hello] 5 1000
           [join LF [text_line clock row_hi; text_line clock row_hello]]).
  - lia.
  - vm_compute. reflexivity.
  - left. reflexivity.
Defined.

(** A round of the loop that appends the group to the buffer: nothing is
    flushed and the thread is not split. *)
Lemma process_group_appends (encode : string -> result (list N))
      (str_of_ts : option Z -> string) (time_window_minutes target : Z)
      (b : Buffers) (k : Z) (r : Row) (rest : list Row) (n : Z) :
  count_tokens encode (join LF (lines_of str_of_ts (r :: rest))) = Ok n ->
  truthy (current_chunk b) && (current_chunk_tokens b + n >? target) = false ->
  (n >? target) = false ->
  match last_ts b, Timestamp r with
  | Some l, Some f => f - l >? timedelta_minutes time_window_minutes
  | _, _ => false
  end = false ->
  process_group encode str_of_ts time_window_minutes target b (k, r :: rest)
  = Ok {| chunks := chunks b;
          current_chunk := current_chunk b ++ lines_of str_of_ts (r :: rest);
          current_chunk_tokens := current_chunk_tokens b + n;
          last_ts :=
            match ts_max (List.map Timestamp (r :: rest)) with
            | None => last_ts b
            | Some m =>
                match last_ts b with
                | None => Some m
                | Some l => Some (Z.max l m)
                end
            end |}.
Proof.
  intros Hn Hflush Hover Htime.
  unfold process_group. cbn [snd iloc0_ts].
  change (Ok (Timestamp r) ≫= ?k) with (k (Timestamp r)). cbv beta.
  fold (lines_of str_of_ts (r :: rest)). rewrite Hn.
  change (Ok n ≫= ?k) with (k n). cbv beta.
  rewrite Hflush, Hover. cbv iota.
  destruct (last_ts b) as [l |] eqn:Hlast; cbv iota;
    [destruct (Timestamp r) as [f |]; [rewrite Htime |]; cbv iota |];
    rewrite ?Hlast; reflexivity.
Qed.

(** X4: the overshoot does not depend on the stand-in tokenizer.  For every
    tokenizer that counts more tokens for the two example lines joined by a
    line feed than for the two lines taken separately, and a target equal to
    the sum of the two separate counts, the chunker returns the joined lines
    as one passage, over the target. *)
Theorem separator_tokens_break_the_budget :
  forall (encode : string -> result (list N)) (n1 n2 n12 : Z),
    count_tokens encode (text_line clock row_hi) = Ok n1 ->
    count_tokens encode (text_line clock row_hello) = Ok n2 ->
    count_tokens encode
      (join LF [text_line clock row_hi; text_line clock row_hello])
    = Ok n12 ->
    n1 + n2 < n12 ->
    preprocess_and_chunk_data encode clock [row_hi; row_hello] 5 (n1 + n2)
    = Ok [join LF [text_line clock row_hi; text_line clock row_hello]]
    /\ ~ spec_within_budget encode clock [row_hi; row_hello] (n1 + n2)
           (join LF [text_line clock row_hi; text_line clock row_hello]).
Proof.
  intros encode n1 n2 n12 H1 H2 H12 Hlt.
  pose proof (count_tokens_nonneg _ _ _ H1) as Hn1.
  pose proof (count_tokens_nonneg _ _ _ H2) as Hn2.
  split.
  - unfold preprocess_and_chunk_data.
    assert (Hg : thread_groups [row_hi; row_hello]
                 = [(at_time 9 0, [fillna row_hi]);
                    (at_time 9 1, [fillna row_hello])])
      by (vm_compute; reflexivity).
    rewrite Hg. clear Hg. cbn [for_each].
    rewrite (process_group_appends encode clock 5 (n1 + n2) _ (at_time 9 0)
               (fillna row_hi) [] n1 H1);
      [| reflexivity | rewrite Z.gtb_ltb; apply Z.ltb_ge; lia | reflexivity ].
    cbn [mbind result_bind].
    rewrite (process_group_appends encode clock 5 (n1 + n2) _ (at_time 9 1)
               (fillna row_hello) [] n2 H2).
    + cbn [mbind result_bind chunks current_chunk truthy app comprehension
           lines_of List.map].
      change (text_line clock (fillna row_hi)) with (text_line clock row_hi).
      change (text_line clock (fillna row_hello))
        with (text_line clock row_hello).
      rewrite H12. reflexivity.
    + cbn [current_chunk current_chunk_tokens]. apply andb_false_iff. right.
      rewrite Z.gtb_ltb. apply Z.ltb_ge. lia.
    + rewrite Z.gtb_ltb. apply Z.ltb_ge. lia.
    + vm_compute. reflexivity.
  - intros (n & Hn & Hcase). rewrite H12 in Hn. inversion Hn; subst n.
    destruct Hcase as [Hle | (r & Hr & Heq)]; [lia |].
    destruct Hr as [<- | [<- | []]]; vm_compute in Heq; discriminate Heq.
Qed.

(** The same with one token per byte: 43 and 44 tokens, 88 when joined. *)
Lemma separator_tokens_break_the_budget_witness :
  preprocess_and_chunk_data one_token_per_byte clock [row_hi; row_hello] 5
    (43 + 44)
  = Ok [join LF [text_line clock row_hi; text_line clock row_hello]]
  /\ ~ spec_within_budget one_token_per_byte clock [row_hi; row_hello]
         (43 + 44)
         (join LF [text_line clock row_hi; text_line clock row_hello]).
Proof.
  apply (separator_tokens_break_the_budget one_token_per_byte 43 44 88).
  - vm_compute. reflexivity.
  - vm_compute. reflexivity.
  - vm_compute. reflexivity.
  - lia.
Defined.

(** C9, counterexample: a reply written at 10:05 in a thread anchored at
    09:00, and a message of 10:00 that starts its own thread.  In the sorted
    table the 10:00 thread appears first; the loop visits the 09:00 thread
    first, and the reply's line comes first in the passage. *)
Lemma groups_not_in_first_appearance_order :
  spec_first_appearance_order [row_ten; row_late_reply]
  = [at_time 10 0; at_time 9 0]
  /\ List.map fst (thread_groups [row_ten; row_late_reply])
     = [at_time 9 0; at_time 10 0]
  /\ List.map fst (thread_groups [row_ten; row_late_reply])
     <> spec_first_appearance_order [row_ten; row_late_reply]
  /\ preprocess_and_chunk_data one_token_per_byte clock
       [row_ten; row_late_reply] 5 1000
     = Ok [join LF ["2024-01-01 10:05:00 U2 bob general re nan";
                    "2024-01-01 10:00:00 U1 alice general new nan"]].
Proof.
  split; [vm_compute; reflexivity |].
  split; [vm_compute; reflexivity |].
  split; [vm_compute; discriminate |].
  vm_compute. reflexivity.
Qed.

(** ** Tables without a thread key *)

Lemma no_thread_keys_no_groups (df : DataFrame) :
  (forall r, In r df -> has_thread_key r = false) ->
  thread_groups df = [].
Proof.
  intros Hnone. unfold thread_groups, groupby.
  destruct (group_keys (sort_values (List.map fillna df))) as [| k keys] eqn:Hk;
    [reflexivity |].
  assert (Hin : In k (group_keys (sort_values (List.map fillna df))))
    by (rewrite Hk; left; reflexivity).
  apply in_group_keys in Hin. destruct Hin as (r & Hr & Hparent).
  apply (Permutation_in _ (sort_values_perm _)) in Hr.
  apply List.in_map_iff in Hr. destruct Hr as (r0 & <- & Hr0).
  specialize (Hnone r0 Hr0). unfold has_thread_key in Hnone.
  unfold fillna in Hparent. cbn [Parent_Message_Timestamp] in Hparent.
  destruct (Parent_Message_Timestamp r0); [discriminate Hnone |].
  destruct (Timestamp r0); discriminate.
Qed.

(** X8: a table none of whose rows has a thread key (neither time cell of
    any row parsed; the table without rows is one) leaves the loop nothing to
    visit, and the call raises [ZeroDivisionError] at the statistics, for
    every tokenizer, window and target. *)
Theorem table_without_thread_keys_raises :
  forall (encode : string -> result (list N)) (str_of_ts : option Z -> string)
         (df : DataFrame) (time_window_minutes target_chunk_tokens : Z),
    (forall r, In r df -> has_thread_key r = false) ->
    preprocess_and_chunk_data encode str_of_ts df
      time_window_minutes target_chunk_tokens
    = Raise ZeroDivisionError.
Proof.
  intros encode str_of_ts df window target Hnone.
  unfold preprocess_and_chunk_data.
  rewrite (no_thread_keys_no_groups df Hnone). reflexivity.
Qed.

(** The theorem on a table whose only row has no time cell that parsed. *)
Lemma table_without_thread_keys_raises_witness :
  preprocess_and_chunk_data one_token_per_byte clock [row_undated] 5 1000
  = Raise ZeroDivisionError.
Proof.
  apply table_without_thread_keys_raises.
  intros r [<- | []]. reflexivity.
Defined.

(** ** The list of passages only grows *)

Section Growing.

Variable encode : string -> result (list N).
Variable str_of_ts : option Z -> string.

Lemma split_thread_grows (target : Z) (text_lines : list string) :
  forall chunks0 temp_chunk temp_tokens chunks1 temp_chunk1,
    split_thread encode target text_lines chunks0 temp_chunk temp_tokens
    = Ok (chunks1, temp_chunk1) ->
    exists more, chunks1 = chunks0 ++ more.
Proof.
  induction text_lines as [| line rest IH];
    intros chunks0 temp_chunk temp_tokens chunks1 temp_chunk1 H; simpl in H.
  - inversion H; subst. exists []. symmetry. apply List.app_nil_r.
  - apply bind_inv in H. destruct H as (n & _ & H).
    destruct (temp_tokens + n >? target).
    + apply IH in H. destruct H as (more & ->).
      rewrite <- List.app_assoc. eexists. reflexivity.
    + apply IH in H. exact H.
Qed.

Lemma process_group_grows (window target : Z) (b b' : Buffers)
      (kg : Z * list Row) :
  process_group encode str_of_ts window target b kg = Ok b' ->
  exists more, chunks b' = chunks b ++ more.
Proof.
  unfold process_group. intros H.
  apply bind_inv in H. destruct H as (first_ts & _ & H).
  apply bind_inv in H. destruct H as (combined_tokens & _ & H).
  cbv zeta in H.
  set (b1 := if truthy (current_chunk b)
                && (current_chunk_tokens b + combined_tokens >? target)
             then _ else b) in H.
  assert (H1 : exists more, chunks b1 = chunks b ++ more).
  { subst b1. destruct (truthy (current_chunk b)
                        && (current_chunk_tokens b + combined_tokens >? target)).
    - eexists. reflexivity.
    - exists []. symmetry. apply List.app_nil_r. }
  destruct H1 as (more1 & H1).
  destruct (combined_tokens >? target).
  - apply bind_inv in H. destruct H as ([chunks1 temp_chunk] & Hsplit & H).
    apply split_thread_grows in Hsplit. destruct Hsplit as (more & ->).
    inversion H; subst b'; clear H. cbn [chunks]. rewrite H1.
    destruct (truthy temp_chunk); rewrite <- ?List.app_assoc; eexists;
      reflexivity.
  - inversion H; subst b'; clear H. cbn [chunks].
    destruct (last_ts b1) as [l |]; [destruct first_ts as [f |] |];
      try (exists more1; exact H1).
    destruct (f - l >? timedelta_minutes window); cbn [chunks];
      [| exists more1; exact H1].
    rewrite H1, <- List.app_assoc. eexists. reflexivity.
Qed.

Lemma for_each_grows (window target : Z) (groups : list (Z * list Row)) :
  forall b b',
    for_each (process_group encode str_of_ts window target) groups b = Ok b' ->
    exists more, chunks b' = chunks b ++ more.
Proof.
  induction groups as [| kg rest IH]; intros b b' H; simpl in H.
  - inversion H; subst. exists []. symmetry. apply List.app_nil_r.
  - apply bind_inv in H. destruct H as (b1 & H1 & H).
    apply process_group_grows in H1. destruct H1 as (more1 & H1).
    apply IH in H. destruct H as (more & ->). rewrite H1, <- List.app_assoc.
    eexists. reflexivity.
Qed.

(** A group of the list is visited, and what it left in [chunks] stays. *)
Lemma for_each_visits (window target : Z) (kg : Z * list Row)
      (groups : list (Z * list Row)) :
  forall b b',
    In kg groups ->
    for_each (process_group encode str_of_ts window target) groups b = Ok b' ->
    exists b0 b1 more,
      process_group encode str_of_ts window target b0 kg = Ok b1
      /\ chunks b' = chunks b1 ++ more.
Proof.
  induction groups as [| kg0 rest IH]; intros b b' Hin H; [destruct Hin |].
  simpl in H. apply bind_inv in H. destruct H as (b1 & H1 & H).
  destruct Hin as [-> | Hin].
  - apply for_each_grows in H. destruct H as (more & H).
    exists b, b1, more. split; assumption.
  - exact (IH _ _ Hin H).
Qed.

(** The split path starts with an empty [temp_chunk]; a first line that is
    over the target by itself flushes it. *)
Lemma split_thread_oversized_first_line (target : Z) (line : string)
      (rest : list string) (chunks0 chunks1 temp_chunk1 : list string)
      (n : Z) :
  count_tokens encode line = Ok n ->
  n > target ->
  split_thread encode target (line :: rest) chunks0 [] 0
  = Ok (chunks1, temp_chunk1) ->
  In EmptyString chunks1.
Proof.
  intros Hn Hover H. simpl in H. rewrite Hn in H.
  change (Ok n ≫= ?k) with (k n) in H. cbv beta in H.
  replace (0 + n >? target) with true in H
    by (symmetry; apply Z.gtb_lt; lia).
  apply split_thread_grows in H. destruct H as (more & ->).
  apply List.in_or_app. left. apply List.in_or_app. right. left. reflexivity.
Qed.

End Growing.

(** X9: when the first line of a thread counts more tokens than the target
    by itself (and the thread as a whole does, so that it is split by
    lines), the chunker emits an empty passage: the split loop flushes its
    still empty [temp_chunk] before it takes that line.  The empty string is
    then one of the returned passages, whatever the rest of the table. *)
Theorem oversized_first_line_gives_empty_passage :
  forall (encode : string -> result (list N)) (str_of_ts : option Z -> string)
         (df : DataFrame) (time_window_minutes target_chunk_tokens : Z)
         (passages : list string) (k : Z) (r : Row) (rest : list Row)
         (m n : Z),
    preprocess_and_chunk_data encode str_of_ts df time_window_minutes
      target_chunk_tokens = Ok passages ->
    In (k, r :: rest) (thread_groups df) ->
    count_tokens encode (join LF (lines_of str_of_ts (r :: rest))) = Ok m ->
    m > target_chunk_tokens ->
    count_tokens encode (text_line str_of_ts r) = Ok n ->
    n > target_chunk_tokens ->
    In EmptyString passages.
Proof.
  intros encode str_of_ts df window target passages k r rest m n
         H Hin Hm Hmover Hn Hnover.
  unfold preprocess_and_chunk_data in H.
  apply bind_inv in H. destruct H as (b & Hloop & H).
  cbv zeta in H.
  apply bind_inv in H. destruct H as (token_counts & _ & H).
  apply bind_inv in H. destruct H as (_ & _ & H).
  inversion H; subst passages; clear H.
  destruct (for_each_visits _ _ _ _ _ _ _ _ Hin Hloop)
    as (b0 & b1 & more & Hg & Hb).
  assert (Hempty : In EmptyString (chunks b1)).
  { unfold process_group in Hg. cbn [snd iloc0_ts] in Hg.
    change (Ok (Timestamp r) ≫= ?k) with (k (Timestamp r)) in Hg.
    cbv beta in Hg. fold (lines_of str_of_ts (r :: rest)) in Hg.
    rewrite Hm in Hg. change (Ok m ≫= ?k) with (k m) in Hg.
    cbv beta zeta in Hg.
    replace (m >? target) with true in Hg by (symmetry; apply Z.gtb_lt; lia).
    cbv iota in Hg.
    apply bind_inv in Hg. destruct Hg as ([chunks1 temp_chunk] & Hsplit & Hg).
    apply (split_thread_oversized_first_line _ _ _ _ _ _ _ _ Hn Hnover)
      in Hsplit.
    inversion Hg; subst b1; clear Hg. cbn [chunks].
    destruct (truthy temp_chunk); [apply List.in_or_app; left |];
      exact Hsplit. }
  assert (Hb' : In EmptyString (chunks b)).
  { rewrite Hb. apply List.in_or_app. left. exact Hempty. }
  destruct (truthy (current_chunk b)); [apply List.in_or_app; left |];
    exact Hb'.
Qed.

(** The theorem on a table of one line of 43 tokens and a target of 10: the
    passages are the empty string and the line. *)
Lemma oversized_first_line_gives_empty_passage_witness :
  In EmptyString [EmptyString; text_line clock row_hi].
Proof.
  apply (oversized_first_line_gives_empty_passage one_token_per_byte clock
           [row_hi] 5 10 _ (at_time 9 0) (fillna row_hi) [] 43 43).
  - vm_compute. reflexivity.
  - vm_compute. left. reflexivity.
  - vm_compute. reflexivity.
  - lia.
  - vm_compute. reflexivity.
  - lia.
Defined.

(** ** parse_blob_url *)

Lemma split_nonempty (sep : ascii) (s : string) : split sep s <> [].
Proof.
  destruct s as [| c rest]; simpl; [discriminate |].
  destruct (Ascii.eqb c sep); [discriminate |].
  destruct (split sep rest); discriminate.
Qed.

Lemma split_length (sep : ascii) (s : string) :
  length (split sep s) = S (count_char sep s).
Proof.
  induction s as [| c rest IH]; simpl; [reflexivity |].
  destruct (Ascii.eqb c sep); simpl; [rewrite IH; reflexivity |].
  destruct (split sep rest) as [| part parts] eqn:Hsplit;
    [exact (False_ind _ (split_nonempty _ _ Hsplit)) |].
  exact IH.
Qed.

Lemma split_app (sep : ascii) (prefix rest : string) :
  count_char sep prefix = 0%nat ->
  split sep (prefix +:+ String sep rest) = prefix :: split sep rest.
Proof.
  induction prefix as [| c prefix IH]; simpl; intros H.
  - rewrite Ascii.eqb_refl. reflexivity.
  - destruct (Ascii.eqb c sep); [discriminate H |].
    rewrite (IH H). reflexivity.
Qed.

(** [sep.join(s.split(sep)) == s] *)
Lemma join_split (sep : ascii) (s : string) :
  join (String sep EmptyString) (split sep s) = s.
Proof.
  unfold join. induction s as [| c rest IH]; simpl; [reflexivity |].
  destruct (Ascii.eqb c sep) eqn:Hc.
  - apply Ascii.eqb_eq in Hc. subst c.
    destruct (split sep rest) as [| part parts] eqn:Hsplit;
      [exact (False_ind _ (split_nonempty _ _ Hsplit)) |].
    rewrite <- IH. reflexivity.
  - destruct (split sep rest) as [| part parts] eqn:Hsplit;
      [exact (False_ind _ (split_nonempty _ _ Hsplit)) |].
    rewrite <- IH. destruct parts; reflexivity.
Qed.

(** X10: for a URL made of a scheme, a host and a container name without a
    slash and any blob name, [parse_blob_url] gives back the container name
    and the whole blob name, slashes included (the upload names its blobs
    [company_id/timestamp_filename]). *)
Theorem parse_blob_url_recovers_container_and_blob :
  forall scheme host container_name blob_name : string,
    count_char "/" scheme = 0%nat ->
    count_char "/" host = 0%nat ->
    count_char "/" container_name = 0%nat ->
    parse_blob_url
      (scheme +:+ "//" +:+ host +:+ "/" +:+ container_name +:+ "/"
         +:+ blob_name)
    = Some (container_name, blob_name).
Proof.
  intros scheme host container_name blob_name Hs Hh Hc.
  unfold parse_blob_url.
  change (scheme +:+ "//" +:+ host +:+ "/" +:+ container_name +:+ "/"
            +:+ blob_name)
    with (scheme +:+ String "/" (EmptyString +:+ String "/"
            (host +:+ String "/" (container_name +:+ String "/" blob_name)))).
  rewrite (split_app _ _ _ Hs), (split_app "/" EmptyString _ eq_refl),
    (split_app _ _ _ Hh), (split_app _ _ _ Hc).
  cbn [lookup list_lookup drop mbind option_bind]. rewrite drop_0.
  rewrite (join_split "/" blob_name). reflexivity.
Qed.

(** The theorem on the URL of a blob in a folder. *)
Lemma parse_blob_url_recovers_container_and_blob_witness :
  parse_blob_url
    "https://account.blob.core.windows.net/files/a/20240101090000_export.csv"
  = Some ("files", "a/20240101090000_export.csv").
Proof.
  apply (parse_blob_url_recovers_container_and_blob "https:"
           "account.blob.core.windows.net" "files"
           "a/20240101090000_export.csv"); reflexivity.
Defined.

(** X11: [parse_blob_url] fails (the [IndexError] of [parts[3]]) exactly on
    the URLs with fewer than three slashes; on every other string it
    returns, whatever stands between the slashes. *)
Theorem parse_blob_url_fails_below_three_slashes :
  forall url : string,
    parse_blob_url url = None <-> (count_char "/" url < 3)%nat.
Proof.
  intros url. unfold parse_blob_url.
  pose proof (split_length "/" url) as Hlen.
  destruct (split "/" url !! 3%nat) as [c |] eqn:Hlookup;
    cbn [mbind option_bind].
  - apply lookup_lt_Some in Hlookup. split; [discriminate | lia].
  - apply lookup_ge_None in Hlookup. split; [lia | reflexivity].
Qed.

End BlobFacts.

(* ================================================================== *)
(** * Properties of the RAG service *)
(* ================================================================== *)

Module RagFacts.
Import Rag.

(** ** Running a computation *)

Lemma run_bind {A B : Type} (m : M A) (k : A -> M B) (w : World) :
  (m ≫= k) w
  = match m w with
    | (Ok a, w') => k a w'
    | (Raise e, w') => (Raise e, w')
    end.
Proof. reflexivity. Qed.

Lemma run_try_except {A : Type} (body : M A) (handler : PyExc -> M A)
      (w : World) :
  try_except body handler w
  = match body w with
    | (Ok a, w') => (Ok a, w')
    | (Raise e, w') => handler e w'
    end.
Proof. reflexivity. Qed.

Lemma bind_Ok_inv {A B : Type} (m : M A) (k : A -> M B) (w w' : World)
      (b : B) :
  (m ≫= k) w = (Ok b, w') ->
  exists a w1, m w = (Ok a, w1) /\ k a w1 = (Ok b, w').
Proof.
  rewrite run_bind. destruct (m w) as [[a | e] w1]; intros H.
  - exists a, w1. split; [reflexivity | exact H].
  - discriminate H.
Qed.

Lemma with_calls_nil (w : World) : with_calls w [] = w.
Proof. destruct w. unfold with_calls. simpl. rewrite List.app_nil_r. reflexivity. Qed.

Lemma with_calls_app (w : World) (a b : list Call) :
  with_calls (with_calls w a) b = with_calls w (a ++ b).
Proof. unfold with_calls. simpl. rewrite List.app_assoc. reflexivity. Qed.

Lemma run_log_call (c : Call) (w : World) :
  log_call c w = (Ok tt, with_calls w [c]).
Proof. reflexivity. Qed.

(** A logging call leaves the world as it is, and raises nothing but what
    formatting a message with a brace raised. *)
Lemma run_log_formatted (env : Env) (message : string)
      (kwargs : list LogKwarg) (w : World) :
  log_formatted env message kwargs w = (Ok tt, w)
  \/ exists e,
       raised_by_logging env e
       /\ log_formatted env message kwargs w = (Raise e, w).
Proof.
  unfold log_formatted.
  destruct (has_brace message) eqn:Hbrace; [| left; reflexivity].
  destruct (format_error env message kwargs) as [what |] eqn:Hformat.
  - right. exists (LibraryError what). split; [| reflexivity].
    exists message, kwargs, what. repeat split; assumption.
  - left. reflexivity.
Qed.

Lemma run_log_formatted_no_brace (env : Env) (message : string)
      (kwargs : list LogKwarg) (w : World) :
  has_brace message = false ->
  log_formatted env message kwargs w = (Ok tt, w).
Proof. unfold log_formatted. intros ->. reflexivity. Qed.

(** A handler that logs and raises leaves the world as it is. *)
Ltac solve_raises :=
  let e := fresh "e" in
  let w := fresh "w" in
  intros e w; cbv zeta;
  try (destruct e; try (eexists; reflexivity));
  rewrite ?run_bind;
  lazymatch goal with
  | |- context [log_formatted ?env ?m ?k ?w'] =>
      destruct (run_log_formatted env m k w') as [-> | (? & _ & ->)]
  | _ => idtac
  end;
  eexists; reflexivity.

Lemma try_except_raises {A : Type} (body : M A) (handler : PyExc -> M A)
      (w : World) :
  raises handler ->
  snd (try_except body handler w) = snd (body w)
  /\ forall a, fst (try_except body handler w) = Ok a -> fst (body w) = Ok a.
Proof.
  intros Hh. rewrite run_try_except.
  destruct (body w) as [[a | e] w']; [split; [reflexivity | tauto] |].
  destruct (Hh e w') as (e' & ->). split; [reflexivity |].
  intros a H. discriminate H.
Qed.

Section Service.

Variable env : Env.

Lemma run_call_embeddings_create (chunk model : string) (w : World) :
  call_embeddings_create env chunk model w
  = (embeddings_create env chunk model,
     with_calls w [EmbeddingsCreate chunk model]).
Proof.
  unfold call_embeddings_create. rewrite run_bind, run_log_call.
  unfold lift. reflexivity.
Qed.

Lemma run_call_chat_completions_create (request : ChatRequest) (w : World) :
  call_chat_completions_create env request w
  = (chat_completions_create env request,
     with_calls w [ChatCompletionsCreate request]).
Proof.
  unfold call_chat_completions_create. rewrite run_bind, run_log_call.
  unfold lift. reflexivity.
Qed.

(** ** create_embeddings *)

Lemma create_embeddings_loop_ok (model : string) (text_chunks : list string) :
  forall (vectors embeddings : list Embedding) (w : World),
    Forall2 (fun chunk v => embeddings_create env chunk model = Ok v)
            text_chunks vectors ->
    create_embeddings_loop env text_chunks model embeddings w
    = (Ok (embeddings ++ vectors),
       with_calls w
         (List.map (fun chunk => EmbeddingsCreate chunk model) text_chunks)).
Proof.
  induction text_chunks as [| chunk rest IH]; intros vectors embeddings w Hall.
  - inversion Hall; subst. simpl. rewrite List.app_nil_r, with_calls_nil.
    reflexivity.
  - inversion Hall as [| ? v ? vs Hv Hrest]; subst. simpl.
    rewrite run_bind, run_try_except, run_bind, run_call_embeddings_create.
    rewrite Hv. simpl.
    rewrite (IH vs), with_calls_app, <- List.app_assoc. reflexivity.
    exact Hrest.
Qed.

Lemma create_embeddings_aborts_on_first_failure_loop (model : string)
      (before : list string) :
  forall (chunk : string) (after : list string) (e : PyExc)
         (embeddings : list Embedding) (w : World),
    Forall (fun t => exists v, embeddings_create env t model = Ok v) before ->
    embeddings_create env chunk model = Raise e ->
    create_embeddings_loop env (before ++ chunk :: after) model embeddings w
    = (Raise (AppException INTERNAL_SERVER_ERROR "Failed to create embedding"
                [("error", str_exc e)]),
       with_calls w
         (List.map (fun t => EmbeddingsCreate t model) (before ++ [chunk]))).
Proof.
  induction before as [| t before IH];
    intros chunk after e embeddings w Hbefore Hchunk.
  - simpl.
    rewrite run_bind, run_try_except, run_bind, run_call_embeddings_create.
    rewrite Hchunk. reflexivity.
  - inversion Hbefore as [| ? ? (v & Hv) Hrest]; subst. simpl.
    rewrite run_bind, run_try_except, run_bind, run_call_embeddings_create.
    rewrite Hv. simpl.
    rewrite (IH chunk after e), with_calls_app; [reflexivity | exact Hrest
                                                  | exact Hchunk].
Qed.

End Service.

(** C7 (as the code has it): when the embedding service refuses a text
    after accepting all the texts before it, [create_embeddings] sends
    nothing after that text and raises an [AppException] with code
    [INTERNAL_SERVER_ERROR], the message "Failed to create embedding" and
    the text of the service's error as its only context entry.  The position
    of the text is not part of the exception. *)
Theorem create_embeddings_aborts_on_first_failure :
  forall (env : Env) (before : list string) (chunk : string)
         (after : list string) (model : string) (e : PyExc) (w : World),
    Forall (fun t => exists v, embeddings_create env t model = Ok v) before ->
    embeddings_create env chunk model = Raise e ->
    create_embeddings env (before ++ chunk :: after) model w
    = (Raise (AppException INTERNAL_SERVER_ERROR "Failed to create embedding"
                [("error", str_exc e)]),
       with_calls w
         (List.map (fun t => EmbeddingsCreate t model) (before ++ [chunk]))).
Proof.
  intros env before chunk after model e w Hbefore Hchunk.
  unfold create_embeddings.
  apply create_embeddings_aborts_on_first_failure_loop; assumption.
Qed.

Import Examples.

(** C7, counterexample: the refused text is first in one batch and second in
    another, and the two calls raise the same exception value; no reading of
    the exception gives the position. *)
Lemma embedding_failure_hides_position :
  first_failure example_env "text-embedding" ["unembeddable"] = Some 0%nat
  /\ first_failure example_env "text-embedding" ["hello"; "unembeddable"]
     = Some 1%nat
  /\ fst (create_embeddings example_env ["unembeddable"] "text-embedding"
            fresh_world)
     = Raise (AppException INTERNAL_SERVER_ERROR "Failed to create embedding"
                [("error", "content filter")])
  /\ fst (create_embeddings example_env ["hello"; "unembeddable"]
            "text-embedding" fresh_world)
     = Raise (AppException INTERNAL_SERVER_ERROR "Failed to create embedding"
                [("error", "content filter")])
  /\ ~ (exists index_of : PyExc -> nat,
          forall text_chunks e,
            fst (create_embeddings example_env text_chunks "text-embedding"
                   fresh_world) = Raise e ->
            first_failure example_env "text-embedding" text_chunks
            = Some (index_of e)).
Proof.
  split; [reflexivity |]. split; [reflexivity |].
  split; [reflexivity |]. split; [reflexivity |].
  intros (index_of & H).
  pose proof (H ["unembeddable"] _ eq_refl) as H0.
  pose proof (H ["hello"; "unembeddable"] _ eq_refl) as H1.
  simpl in H0, H1. congruence.
Qed.

(** The theorem on a batch of three texts whose second one is refused: the
    third is never sent. *)
Lemma create_embeddings_aborts_on_first_failure_witness :
  create_embeddings example_env ["hello"; "unembeddable"; "world"]
    "text-embedding" fresh_world
  = (Raise (AppException INTERNAL_SERVER_ERROR "Failed to create embedding"
              [("error", "content filter")]),
     with_calls fresh_world
       [EmbeddingsCreate "hello" "text-embedding";
        EmbeddingsCreate "unembeddable" "text-embedding"]).
Proof.
  apply (create_embeddings_aborts_on_first_failure example_env
           ["hello"] "unembeddable" ["world"] "text-embedding"
           (LibraryError "content filter") fresh_world).
  - constructor; [exists [1%Q; 0%Q]; reflexivity | constructor].
  - reflexivity.
Defined.

(** ** rerank_documents *)

Lemma float_lt_le (a b : PyFloat) : float_lt a b = true -> float_le a b.
Proof.
  destruct a, b; simpl; try discriminate; try tauto.
  intros H. apply Qlt_le_weak, Qnot_le_lt. intros Hle.
  apply Qle_bool_iff in Hle. rewrite Hle in H. discriminate.
Qed.

Lemma float_not_lt_le (a b : PyFloat) :
  is_nan a = false -> is_nan b = false ->
  float_lt a b = false -> float_le b a.
Proof.
  destruct a, b; simpl; try discriminate; try tauto.
  intros _ _ H. apply Qle_bool_iff.
  destruct (Qle_bool q0 q); [reflexivity | discriminate].
Qed.

Lemma float_le_trans (a b c : PyFloat) :
  float_le a b -> float_le b c -> float_le a c.
Proof.
  destruct a, b, c; simpl; try tauto. apply Qle_trans.
Qed.

Lemma insert_by_rerank_score_perm (d : RerankedDocument)
      (l : list RerankedDocument) :
  Permutation (insert_by_rerank_score d l) (d :: l).
Proof.
  induction l as [| x l IH]; simpl.
  - reflexivity.
  - destruct (float_lt (rerankScore d) (rerankScore x)); [| reflexivity].
    rewrite IH. apply perm_swap.
Qed.

Lemma insert_by_rerank_score_sorted (d : RerankedDocument)
      (l : list RerankedDocument) :
  is_nan (rerankScore d) = false ->
  no_nan_score l ->
  StronglySorted ranks_before l ->
  StronglySorted ranks_before (insert_by_rerank_score d l).
Proof.
  intros Hd.
  induction l as [| x l IH]; simpl; intros Hnan Hs.
  - repeat constructor.
  - inversion Hs as [| ? ? Hs' Hall]; subst.
    inversion Hnan as [| ? ? Hx Hnan']; subst.
    destruct (float_lt (rerankScore d) (rerankScore x)) eqn:Hlt.
    + apply float_lt_le in Hlt.
      constructor; [apply IH; assumption |].
      rewrite List.Forall_forall in Hall |- *.
      intros y Hy.
      apply (Permutation_in _ (insert_by_rerank_score_perm d l)) in Hy.
      destruct Hy as [<- | Hy]; [exact Hlt | apply Hall; exact Hy].
    + apply float_not_lt_le in Hlt; [| assumption | assumption].
      constructor; [exact Hs |].
      constructor; [exact Hlt |].
      rewrite List.Forall_forall in Hall |- *.
      intros y Hy. unfold ranks_before in *.
      eapply float_le_trans; [apply Hall; exact Hy | exact Hlt].
Qed.

Lemma insertion_sort_perm (l : list RerankedDocument) :
  Permutation (fold_right insert_by_rerank_score [] l) l.
Proof.
  induction l as [| d l IH]; simpl; [reflexivity |].
  rewrite insert_by_rerank_score_perm. constructor. exact IH.
Qed.

Lemma insertion_sort_sorted (l : list RerankedDocument) :
  no_nan_score l ->
  StronglySorted ranks_before (fold_right insert_by_rerank_score [] l).
Proof.
  induction l as [| d l IH]; simpl; intros Hnan; [constructor |].
  inversion Hnan as [| ? ? Hd Hnan']; subst.
  apply insert_by_rerank_score_sorted; [exact Hd | | apply IH; exact Hnan'].
  unfold no_nan_score.
  apply (Permutation_Forall (Permutation_sym (insertion_sort_perm l))).
  exact Hnan'.
Qed.

Lemma no_nan_score_forallb (l : list RerankedDocument) :
  no_nan_score l ->
  forallb (fun key => negb (is_nan key)) (List.map rerankScore l) = true.
Proof.
  induction 1 as [| d l Hd _ IH]; simpl; [reflexivity |].
  rewrite Hd, IH. reflexivity.
Qed.

Lemma sort_by_rerank_score_reverse_perm (env : Env)
      (l : list RerankedDocument) :
  sort_permutes env ->
  Permutation (sort_by_rerank_score_reverse env l) l.
Proof.
  intros Hsort. unfold sort_by_rerank_score_reverse.
  destruct (forallb _ _); [apply insertion_sort_perm |].
  destruct (one_run _); [reflexivity | apply Hsort].
Qed.

Lemma sort_by_rerank_score_reverse_sorted (env : Env)
      (l : list RerankedDocument) :
  no_nan_score l ->
  StronglySorted ranks_before (sort_by_rerank_score_reverse env l).
Proof.
  intros Hnan. unfold sort_by_rerank_score_reverse.
  rewrite (no_nan_score_forallb l Hnan). cbv beta iota zeta.
  apply insertion_sort_sorted. exact Hnan.
Qed.

Lemma run_relevance_score_of (env : Env) (query : string)
      (doc : SourceDocument) (w : World) :
  relevance_score_of env query doc w
  = (Ok (relevance_score_value env query doc),
     with_calls w [ChatCompletionsCreate (rerank_request env query doc)]).
Proof.
  unfold relevance_score_of, relevance_score_value.
  rewrite run_try_except, run_bind, run_call_chat_completions_create.
  destruct (chat_completions_create env (rerank_request env query doc))
    as [content | e]; [| reflexivity].
  unfold lift.
  destruct (py_float env (py_strip env content)); reflexivity.
Qed.

Lemma run_rerank_loop (env : Env) (query : string)
      (documents : list SourceDocument) :
  forall (reranked_results : list RerankedDocument) (w : World),
    rerank_loop env query documents reranked_results w
    = (Ok (reranked_results ++ List.map (rescored env query) documents),
       with_calls w
         (List.map (fun d => ChatCompletionsCreate (rerank_request env query d))
                   documents)).
Proof.
  induction documents as [| doc rest IH]; intros reranked_results w.
  - simpl. rewrite List.app_nil_r, with_calls_nil. reflexivity.
  - simpl. rewrite run_bind, run_relevance_score_of.
    rewrite IH, with_calls_app, <- List.app_assoc. reflexivity.
Qed.

Lemma run_rerank_documents (env : Env) (query : string)
      (documents : list SourceDocument) (w : World) :
  rerank_documents env query documents w
  = (Ok (sort_by_rerank_score_reverse env
           (List.map (rescored env query) documents)),
     with_calls w
       (List.map (fun d => ChatCompletionsCreate (rerank_request env query d))
                 documents)).
Proof.
  unfold rerank_documents. rewrite run_bind, run_rerank_loop. reflexivity.
Qed.




(** ** The log of remote calls only grows *)

Lemma appends_ret {A : Type} (a : A) : appends (mret a).
Proof. intros w. exists []. simpl. rewrite List.app_nil_r. reflexivity. Qed.

Lemma appends_raise {A : Type} (e : PyExc) : appends (@raise A e).
Proof. intros w. exists []. simpl. rewrite List.app_nil_r. reflexivity. Qed.

Lemma appends_lift {A : Type} (r : result A) : appends (lift r).
Proof. intros w. exists []. simpl. rewrite List.app_nil_r. reflexivity. Qed.

Lemma appends_get_world : appends get_world.
Proof. intros w. exists []. simpl. rewrite List.app_nil_r. reflexivity. Qed.

Lemma appends_set_indexes (ix : gmap string (list Document)) :
  appends (set_indexes ix).
Proof. intros w. exists []. simpl. rewrite List.app_nil_r. reflexivity. Qed.

Lemma appends_set_tenants (ts : gmap string Tenant) : appends (set_tenants ts).
Proof. intros w. exists []. simpl. rewrite List.app_nil_r. reflexivity. Qed.

Lemma appends_log_call (c : Call) : appends (log_call c).
Proof. intros w. exists [c]. reflexivity. Qed.

Lemma appends_bind {A B : Type} (m : M A) (k : A -> M B) :
  appends m -> (forall a, appends (k a)) -> appends (m ≫= k).
Proof.
  intros Hm Hk w. rewrite run_bind.
  destruct (Hm w) as (more1 & H1).
  destruct (m w) as [[a | e] w1]; simpl in H1.
  - destruct (Hk a w1) as (more2 & H2).
    exists (more1 ++ more2). rewrite H2, H1, List.app_assoc. reflexivity.
  - exists more1. exact H1.
Qed.

Lemma appends_try_except {A : Type} (body : M A) (handler : PyExc -> M A) :
  appends body -> (forall e, appends (handler e)) ->
  appends (try_except body handler).
Proof.
  intros Hm Hk w. rewrite run_try_except.
  destruct (Hm w) as (more1 & H1).
  destruct (body w) as [[a | e] w1]; simpl in H1.
  - exists more1. exact H1.
  - destruct (Hk e w1) as (more2 & H2).
    exists (more1 ++ more2). rewrite H2, H1, List.app_assoc. reflexivity.
Qed.

Create HintDb appends discriminated.

#[local] Hint Resolve appends_ret appends_raise appends_lift appends_get_world
  appends_set_indexes appends_set_tenants appends_log_call : appends.

(** Break a computation into its binds, handlers and branches. *)
Ltac appends_step :=
  match goal with
  | |- appends (_ ≫= _) => apply appends_bind; [| intros ?]
  | |- appends (try_except _ _) => apply appends_try_except; [| intros ?]
  | |- appends (match ?x with _ => _ end) => destruct x
  | |- appends _ => solve [auto with appends]
  end.

Ltac solve_appends := repeat appends_step.

Lemma appends_stored_documents (name : string) : appends (stored_documents name).
Proof. unfold stored_documents. solve_appends. Qed.

#[local] Hint Resolve appends_stored_documents : appends.

Lemma appends_get_index (name : string) : appends (get_index name).
Proof. unfold get_index. solve_appends. Qed.

Lemma appends_search (env : Env) (name : string) (v : Embedding) (k : Z) :
  appends (search env name v k).
Proof. unfold search. solve_appends. Qed.

Lemma appends_tenant_database (company_id : string) :
  appends (tenant_database company_id).
Proof. unfold tenant_database. solve_appends. Qed.

#[local] Hint Resolve appends_tenant_database : appends.

Lemma appends_get_prompt_template (company_id : string) :
  appends (get_prompt_template company_id).
Proof. unfold get_prompt_template. solve_appends. Qed.

Lemma appends_call_chat_completions_create (env : Env) (request : ChatRequest) :
  appends (call_chat_completions_create env request).
Proof. unfold call_chat_completions_create. solve_appends. Qed.

Lemma appends_rerank_documents (env : Env) (query : string)
      (documents : list SourceDocument) :
  appends (rerank_documents env query documents).
Proof.
  intros w. rewrite run_rerank_documents. simpl. eauto.
Qed.

#[local] Hint Resolve appends_get_index appends_search
  appends_get_prompt_template appends_call_chat_completions_create
  appends_rerank_documents : appends.

(** ** The query path *)

Lemma run_expand_query (env : Env) (query : string) (w : World) :
  expand_query env query w
  = (Ok (expansion env query),
     with_calls w [ChatCompletionsCreate (expand_request env query)]).
Proof.
  unfold expand_query, expansion.
  rewrite run_try_except, run_bind, run_call_chat_completions_create.
  destruct (chat_completions_create env (expand_request env query));
    reflexivity.
Qed.

Lemma run_create_embeddings_one (env : Env) (query model : string)
      (w : World) :
  create_embeddings env [query] model w
  = (match embeddings_create env query model with
     | Ok v => Ok [v]
     | Raise e =>
         Raise (AppException INTERNAL_SERVER_ERROR "Failed to create embedding"
                  [("error", str_exc e)])
     end,
     with_calls w [EmbeddingsCreate query model]).
Proof.
  destruct (embeddings_create env query model) as [v | e] eqn:Hv.
  - apply (create_embeddings_loop_ok env model [query] [v] []).
    constructor; [exact Hv | constructor].
  - apply (create_embeddings_aborts_on_first_failure_loop env model [] query
             [] e [] w); [constructor | exact Hv].
Qed.

(** Whatever else it does, [query_index] begins by sending the query it was
    given to the embedding service. *)
Lemma query_index_embeds_first (env : Env) (query company_id : string)
      (top_k : Z) (w : World) :
  exists more,
    calls (snd (query_index env query company_id top_k w))
    = calls w
      ++ EmbeddingsCreate query (AZURE_SEARCH_DEPLOYMENT_NAME (settings env))
      :: more.
Proof.
  unfold query_index. cbv zeta.
  rewrite run_bind, run_create_embeddings_one.
  destruct (embeddings_create env query _) as [v | e].
  - cbv beta iota.
    match goal with
    | |- context [snd (?m (with_calls w ?c))] =>
        assert (Ha : appends m) by solve_appends;
          destruct (Ha (with_calls w c)) as (more & Hmore)
    end.
    exists more. rewrite Hmore. simpl. rewrite <- List.app_assoc. reflexivity.
  - exists []. reflexivity.
Qed.

(** The response of [query_index] echoes the query it was given. *)
Lemma query_index_echoes_query (env : Env) (query company_id : string)
      (top_k : Z) (w w' : World) (response : QueryResponse) :
  query_index env query company_id top_k w = (Ok response, w') ->
  expandedQuery response = query.
Proof.
  unfold query_index. cbv zeta. intros H.
  repeat (apply bind_Ok_inv in H; destruct H as (? & ? & _ & H)).
  inversion H. reflexivity.
Qed.

(** C5 (as the code has it): the [/query] route asks the model to expand
    the question first and only then sends a text to the embedding service,
    namely what the expander returned; when the expansion call fails, that
    text is the original question, and so is the [expandedQuery] field of
    every response the route returns.  The expansion is the route's:
    [query_index] embeds the query it is given. *)
Theorem query_route_expands_before_embedding :
  forall (env : Env) (payload : QueryRequest) (w : World),
    (exists more,
        calls (snd (query_rag_index env payload w))
        = calls w
          ++ ChatCompletionsCreate (expand_request env (payload_query payload))
          :: EmbeddingsCreate (expansion env (payload_query payload))
               (AZURE_SEARCH_DEPLOYMENT_NAME (settings env))
          :: more)
    /\ (forall response,
          fst (query_rag_index env payload w) = Ok response ->
          expandedQuery response = expansion env (payload_query payload))
    /\ (forall e,
          chat_completions_create env
            (expand_request env (payload_query payload)) = Raise e ->
          expansion env (payload_query payload) = payload_query payload
          /\ forall response,
               fst (query_rag_index env payload w) = Ok response ->
               expandedQuery response = payload_query payload).
Proof.
  intros env payload w.
  set (query := payload_query payload).
  assert (Hrun :
    snd (query_rag_index env payload w)
    = snd (query_index env (expansion env query) (payload_company_id payload)
             5 (with_calls w
                  [ChatCompletionsCreate (expand_request env query)]))
    /\ forall response,
         fst (query_rag_index env payload w) = Ok response ->
         fst (query_index env (expansion env query)
                (payload_company_id payload) 5
                (with_calls w
                   [ChatCompletionsCreate (expand_request env query)]))
         = Ok response).
  { unfold query_rag_index. fold query.
    match goal with
    | |- context [try_except ?body ?handler w] =>
        destruct (try_except_raises body handler w) as [Hsnd Hfst];
          [solve_raises |]
    end.
    rewrite Hsnd.
    assert (Hbody :
      forall k : QueryResponse -> M QueryResponse,
        (forall r w', k r w' = (Ok r, w')) ->
        (expand_query env query ≫= fun expanded_query =>
           query_index env expanded_query (payload_company_id payload) 5
             ≫= k) w
        = query_index env (expansion env query) (payload_company_id payload)
            5 (with_calls w
                 [ChatCompletionsCreate (expand_request env query)])).
    { intros k Hk. rewrite run_bind, run_expand_query, run_bind.
      destruct (query_index _ _ _ _ _) as [[r | e] w']; [apply Hk |].
      reflexivity. }
    split.
    - rewrite Hbody; [reflexivity | reflexivity].
    - intros response H. apply Hfst in H.
      rewrite Hbody in H; [exact H | reflexivity]. }
  destruct Hrun as [Hcalls Hrun].
  assert (Hresp : forall response,
             fst (query_rag_index env payload w) = Ok response ->
             expandedQuery response = expansion env query).
  { intros response H. apply Hrun in H.
    destruct (query_index _ _ _ _ _) as [[r | e] w'] eqn:Hq; simpl in H;
      [| discriminate H].
    inversion H; subst r.
    eapply query_index_echoes_query. exact Hq. }
  split; [| split].
  - rewrite Hcalls.
    destruct (query_index_embeds_first env (expansion env query)
                (payload_company_id payload) 5
                (with_calls w
                   [ChatCompletionsCreate (expand_request env query)]))
      as (more & Hmore).
    exists more.
    rewrite Hmore. simpl. rewrite <- List.app_assoc. reflexivity.
  - exact Hresp.
  - intros e He.
    assert (Hsame : expansion env query = query).
    { unfold expansion. rewrite He. reflexivity. }
    split; [exact Hsame |].
    intros response H. rewrite <- Hsame. apply Hresp. exact H.
Qed.

(** The theorem on the example service, whose model is down for query
    expansion: the response carries the question as it was asked. *)
Lemma query_route_expands_before_embedding_witness :
  match fst (query_rag_index example_env
               {| payload_company_id := "a";
                  payload_query := "who said hello?";
                  payload_index_name := "saix";
                  payload_top_k := 3 |} world_two_documents) with
  | Ok response => expandedQuery response = "who said hello?"
  | Raise _ => False
  end.
Proof.
  destruct (query_route_expands_before_embedding example_env
              {| payload_company_id := "a";
                 payload_query := "who said hello?";
                 payload_index_name := "saix";
                 payload_top_k := 3 |} world_two_documents)
    as (_ & _ & Hfails).
  destruct (Hfails (LibraryError "timeout") eq_refl) as [_ Hresponse].
  destruct (fst (query_rag_index _ _ _)) as [response | e] eqn:Hrun.
  - apply Hresponse. reflexivity.
  - vm_compute in Hrun. discriminate Hrun.
Defined.

Lemma run_stored_documents (name : string) (w : World) :
  stored_documents name w
  = match indexes w !! name with
    | Some stored => (Ok stored, w)
    | None => (Raise (LibraryError "ResourceNotFoundError"), w)
    end.
Proof.
  unfold stored_documents. rewrite run_bind. simpl.
  destruct (indexes w !! name); reflexivity.
Qed.

Lemma run_get_index (name : string) (w : World) :
  get_index name w
  = match indexes w !! name with
    | Some _ => (Ok name, w)
    | None => (Raise (LibraryError "ResourceNotFoundError"), w)
    end.
Proof.
  unfold get_index. rewrite run_bind, run_stored_documents.
  destruct (indexes w !! name); reflexivity.
Qed.

Lemma run_search (env : Env) (name : string) (v : Embedding) (k : Z)
      (w : World) :
  search env name v k w
  = match indexes w !! name with
    | Some stored =>
        (Ok (rank env stored v k), with_calls w [VectorSearch name v k])
    | None =>
        (Raise (LibraryError "ResourceNotFoundError"),
         with_calls w [VectorSearch name v k])
    end.
Proof.
  unfold search. rewrite run_bind, run_log_call, run_bind, run_stored_documents.
  simpl. destruct (indexes w !! name); reflexivity.
Qed.

Lemma get_prompt_template_world (company_id prompt : string) (w w' : World) :
  get_prompt_template company_id w = (Ok prompt, w') -> w' = w.
Proof.
  unfold get_prompt_template, tenant_database.
  rewrite !run_bind. simpl.
  destruct (tenants w !! company_id); simpl; intros H; inversion H; reflexivity.
Qed.

(** What a successful run of [query_index] did, step by step. *)
Lemma query_index_Ok_inv (env : Env) (query company_id : string) (top_k : Z)
      (w w' : World) (response : QueryResponse) :
  query_index env query company_id top_k w = (Ok response, w') ->
  exists (v : Embedding) (stored : list Document) (system_prompt : string)
         (earlier : list Call),
    embeddings_create env query (AZURE_SEARCH_DEPLOYMENT_NAME (settings env))
    = Ok v
    /\ indexes w !! AZURE_SEARCH_INDEX_NAME (settings env) = Some stored
    /\ sourceDocuments response
       = List.map source_document (rank env stored v top_k)
    /\ scores response = List.map search_score (rank env stored v top_k)
    /\ calls w'
       = earlier
         ++ [ChatCompletionsCreate
               (completion_request env system_prompt
                  (join LF
                     (List.map reranked_contentSnippet
                        (sort_by_rerank_score_reverse env
                           (List.map (rescored env query)
                              (sourceDocuments response)))))
                  query)].
Proof.
  intros H.
  unfold query_index in H. cbv zeta in H.
  apply bind_Ok_inv in H. destruct H as (embeddings & w1 & H1 & H).
  apply bind_Ok_inv in H. destruct H as (qe & w2 & H2 & H).
  apply bind_Ok_inv in H. destruct H as (actual & w3 & H3 & H).
  apply bind_Ok_inv in H. destruct H as (results & w4 & H4 & H).
  apply bind_Ok_inv in H. destruct H as (reranked & w5 & H5 & H).
  apply bind_Ok_inv in H. destruct H as (system_prompt & w6 & H6 & H).
  apply bind_Ok_inv in H. destruct H as (text & w7 & H7 & H).
  rewrite run_create_embeddings_one in H1.
  destruct (embeddings_create env query _) as [v | e] eqn:Hv;
    inversion H1; subst embeddings w1; clear H1.
  unfold lift in H2. inversion H2; subst qe w2; clear H2.
  rewrite run_try_except, run_get_index in H3. simpl in H3.
  destruct (indexes w !! AZURE_SEARCH_INDEX_NAME (settings env))
    as [stored |] eqn:Hstored; [| discriminate H3].
  inversion H3; subst actual w3; clear H3.
  rewrite run_search in H4. simpl in H4. rewrite Hstored in H4.
  inversion H4; subst results w4; clear H4.
  rewrite run_rerank_documents in H5. inversion H5; subst reranked w5; clear H5.
  apply get_prompt_template_world in H6. subst w6.
  rewrite run_call_chat_completions_create in H7.
  inversion H7 as [[Htext Hw7]]; clear H7.
  inversion H; subst response w'; clear H. cbn [sourceDocuments scores].
  exists v, stored, system_prompt.
  eexists. split; [reflexivity |]. split; [reflexivity |].
  split; [reflexivity |].
  split; [rewrite List.map_map; reflexivity |].
  rewrite <- Hw7. unfold with_calls at 1. cbn [calls]. reflexivity.
Qed.

(** C4 (as the code has it): provided [list.sort] rearranges what it is
    given, when [query_index] returns a response, the context message of its
    completion call, which is the last remote call it makes, joins the texts
    of the retrieved documents, each once, in the order the sort by
    [rerankScore] left them: from highest to lowest when no score is
    [nan].  The response lists the documents and their scores in the order
    the vector search returned them. *)
Theorem query_index_context_in_rerank_order :
  forall (env : Env) (query company_id : string) (top_k : Z) (w w' : World)
         (response : QueryResponse),
    sort_permutes env ->
    query_index env query company_id top_k w = (Ok response, w') ->
    exists (v : Embedding) (stored : list Document) (system_prompt : string)
           (earlier : list Call) (reranked : list RerankedDocument),
      embeddings_create env query (AZURE_SEARCH_DEPLOYMENT_NAME (settings env))
      = Ok v
      /\ indexes w !! AZURE_SEARCH_INDEX_NAME (settings env) = Some stored
      /\ sourceDocuments response
         = List.map source_document (rank env stored v top_k)
      /\ scores response = List.map search_score (rank env stored v top_k)
      /\ reranked
         = sort_by_rerank_score_reverse env
             (List.map (rescored env query) (sourceDocuments response))
      /\ Permutation reranked
           (List.map (rescored env query) (sourceDocuments response))
      /\ (no_nan_score
            (List.map (rescored env query) (sourceDocuments response)) ->
          StronglySorted ranks_before reranked)
      /\ calls w'
         = earlier
           ++ [ChatCompletionsCreate
                 (completion_request env system_prompt
                    (join LF (List.map reranked_contentSnippet reranked))
                    query)].
Proof.
  intros env query company_id top_k w w' response Hsort H.
  apply query_index_Ok_inv in H.
  destruct H as (v & stored & system_prompt & earlier & Hv & Hstored & Hdocs
                   & Hscores & Hcalls).
  exists v, stored, system_prompt, earlier.
  eexists.
  repeat (split; [assumption |]).
  split; [reflexivity |].
  split; [apply sort_by_rerank_score_reverse_perm; exact Hsort |].
  split; [apply sort_by_rerank_score_reverse_sorted | exact Hcalls].
Qed.

(** X2: the documents [query_index] returns do not depend on the company
    that asks: two runs from the same world with the same query and [top_k]
    return the same documents and scores, whatever the two company ids. *)
Theorem query_index_ignores_company :
  forall (env : Env) (query company_a company_b : string) (top_k : Z)
         (w wa wb : World) (response_a response_b : QueryResponse),
    query_index env query company_a top_k w = (Ok response_a, wa) ->
    query_index env query company_b top_k w = (Ok response_b, wb) ->
    sourceDocuments response_a = sourceDocuments response_b
    /\ scores response_a = scores response_b.
Proof.
  intros env query company_a company_b top_k w wa wb response_a response_b
         Ha Hb.
  apply query_index_Ok_inv in Ha, Hb.
  destruct Ha as (va & sa & _ & _ & Hva & Hsa & -> & -> & _).
  destruct Hb as (vb & sb & _ & _ & Hvb & Hsb & -> & -> & _).
  rewrite Hva in Hvb. rewrite Hsa in Hsb.
  inversion Hvb; inversion Hsb; subst. split; reflexivity.
Qed.

(** The same on the example service: tenants [a] and [b] get the same
    documents. *)
Lemma query_index_ignores_company_witness :
  [{| documentId := "d1"; relevanceScore := 1%Q;
      contentSnippet := content doc_alice |};
   {| documentId := "d2"; relevanceScore := (1 # 2)%Q;
      contentSnippet := content doc_bob |}]
  = sourceDocuments
      {| answer := "done";
         scores := [1%Q; (1 # 2)%Q];
         sourceDocuments :=
           [{| documentId := "d1"; relevanceScore := 1%Q;
               contentSnippet := content doc_alice |};
            {| documentId := "d2"; relevanceScore := (1 # 2)%Q;
               contentSnippet := content doc_bob |}];
         expandedQuery := "who said hello?" |}
  /\ [1%Q; (1 # 2)%Q]
     = scores
         {| answer := "done";
            scores := [1%Q; (1 # 2)%Q];
            sourceDocuments :=
              [{| documentId := "d1"; relevanceScore := 1%Q;
                  contentSnippet := content doc_alice |};
               {| documentId := "d2"; relevanceScore := (1 # 2)%Q;
                  contentSnippet := content doc_bob |}];
            expandedQuery := "who said hello?" |}.
Proof.
  apply (query_index_ignores_company example_env "who said hello?" "a" "b" 3
           world_two_documents
           (snd (query_index example_env "who said hello?" "a" 3
                   world_two_documents))
           (snd (query_index example_env "who said hello?" "b" 3
                   world_two_documents))
           {| answer := "done";
              scores := [1%Q; (1 # 2)%Q];
              sourceDocuments :=
                [{| documentId := "d1"; relevanceScore := 1%Q;
                    contentSnippet := content doc_alice |};
                 {| documentId := "d2"; relevanceScore := (1 # 2)%Q;
                    contentSnippet := content doc_bob |}];
              expandedQuery := "who said hello?" |});
    apply injective_projections; try reflexivity; vm_compute; reflexivity.
Defined.

(** ** The index [build_index] writes to *)

Lemma contains_index_names (m : gmap string (list Document)) (name : string)
      (stored : list Document) :
  m !! name = Some stored ->
  contains (List.map fst (map_to_list m)) name = true.
Proof.
  intros Hlookup. unfold contains. apply List.existsb_exists.
  exists name. split; [| apply String.eqb_refl].
  apply List.in_map_iff. exists (name, stored). split; [reflexivity |].
  apply list_elem_of_In. apply elem_of_map_to_list. exact Hlookup.
Qed.

(** X3: once an index with the base name exists, the index management block
    of [build_index] yields the base name as the target index for every
    company, and creates nothing. *)
Theorem existing_base_index_is_target_for_every_company :
  forall (env : Env) (base_index_name company_id : string) (w : World)
         (stored : list Document),
    indexes w !! base_index_name = Some stored ->
    resolve_target_index env base_index_name company_id w
    = (Ok base_index_name, w).
Proof.
  intros env base_index_name company_id w stored Hstored.
  unfold resolve_target_index.
  rewrite run_bind, run_try_except, run_get_index, Hstored.
  rewrite run_bind. unfold list_index_names at 1. rewrite run_bind. simpl.
  rewrite (contains_index_names _ _ _ Hstored). reflexivity.
Qed.

(** The same after the first build of the example: the target of tenant
    [b] is the shared index. *)
Lemma existing_base_index_is_target_for_every_company_witness :
  resolve_target_index example_env "saix" "b" world_after_a
  = (Ok "saix", world_after_a).
Proof.
  apply (existing_base_index_is_target_for_every_company example_env "saix"
           "b" world_after_a []).
  vm_compute. reflexivity.
Defined.

(** C4, counterexample: the shared index holds the lines of alice and bob,
    the vector search returns alice's first, and the reranker gives bob's 9
    and alice's 2.  The context of the completion call has bob's line first;
    the response still lists alice's document first. *)
Lemma source_documents_stay_in_retrieval_order :
  fst (query_index example_env "who said hello?" "a" 3 world_two_documents)
  = Ok {| answer := "done";
          scores := [1%Q; (1 # 2)%Q];
          sourceDocuments :=
            [{| documentId := "d1"; relevanceScore := 1%Q;
                contentSnippet := content doc_alice |};
             {| documentId := "d2"; relevanceScore := (1 # 2)%Q;
                contentSnippet := content doc_bob |}];
          expandedQuery := "who said hello?" |}
  /\ relevance_score_value example_env "who said hello?"
       {| documentId := "d1"; relevanceScore := 1%Q;
          contentSnippet := content doc_alice |} = Num 2
  /\ relevance_score_value example_env "who said hello?"
       {| documentId := "d2"; relevanceScore := (1 # 2)%Q;
          contentSnippet := content doc_bob |} = Num 9
  /\ List.last
       (calls (snd (query_index example_env "who said hello?" "a" 3
                      world_two_documents)))
       (EmbeddingsCreate EmptyString EmptyString)
     = ChatCompletionsCreate
         (completion_request example_env "prompt of a"
            (join LF [content doc_bob; content doc_alice])
            "who said hello?")
  /\ ~ spec_in_rerank_order example_env "who said hello?"
         [{| documentId := "d1"; relevanceScore := 1%Q;
             contentSnippet := content doc_alice |};
          {| documentId := "d2"; relevanceScore := (1 # 2)%Q;
             contentSnippet := content doc_bob |}].
Proof.
  split; [vm_compute; reflexivity |].
  split; [vm_compute; reflexivity |].
  split; [vm_compute; reflexivity |].
  split; [vm_compute; reflexivity |].
  intros Hsorted. unfold spec_in_rerank_order in Hsorted.
  inversion Hsorted as [| ? ? _ Hall]; subst.
  inversion Hall as [| ? ? Hle _]; subst.
  vm_compute in Hle. apply Hle. reflexivity.
Qed.

(** The theorem on the same run. *)
Lemma query_index_context_in_rerank_order_witness :
  sort_permutes example_env
  /\ exists (v : Embedding) (stored : list Document) (system_prompt : string)
            (earlier : list Call) (reranked : list RerankedDocument),
      embeddings_create example_env "who said hello?" "text-embedding" = Ok v
      /\ indexes world_two_documents !! "saix" = Some stored
      /\ [{| documentId := "d1"; relevanceScore := 1%Q;
             contentSnippet := content doc_alice |};
          {| documentId := "d2"; relevanceScore := (1 # 2)%Q;
             contentSnippet := content doc_bob |}]
         = List.map source_document (rank example_env stored v 3)
      /\ [1%Q; (1 # 2)%Q]
         = List.map search_score (rank example_env stored v 3)
      /\ reranked
         = sort_by_rerank_score_reverse example_env
             (List.map (rescored example_env "who said hello?")
                [{| documentId := "d1"; relevanceScore := 1%Q;
                    contentSnippet := content doc_alice |};
                 {| documentId := "d2"; relevanceScore := (1 # 2)%Q;
                    contentSnippet := content doc_bob |}])
      /\ Permutation reranked
           (List.map (rescored example_env "who said hello?")
              [{| documentId := "d1"; relevanceScore := 1%Q;
                  contentSnippet := content doc_alice |};
               {| documentId := "d2"; relevanceScore := (1 # 2)%Q;
                  contentSnippet := content doc_bob |}])
      /\ (no_nan_score
            (List.map (rescored example_env "who said hello?")
               [{| documentId := "d1"; relevanceScore := 1%Q;
                   contentSnippet := content doc_alice |};
                {| documentId := "d2"; relevanceScore := (1 # 2)%Q;
                   contentSnippet := content doc_bob |}]) ->
          StronglySorted ranks_before reranked)
      /\ calls (snd (query_index example_env "who said hello?" "a" 3
                       world_two_documents))
         = earlier
           ++ [ChatCompletionsCreate
                 (completion_request example_env system_prompt
                    (join LF (List.map reranked_contentSnippet reranked))
                    "who said hello?")].
Proof.
  assert (Hsort : sort_permutes example_env) by (intros l; reflexivity).
  split; [exact Hsort |].
  apply (query_index_context_in_rerank_order example_env "who said hello?"
           "a" 3 world_two_documents
           (snd (query_index example_env "who said hello?" "a" 3
                   world_two_documents))
           {| answer := "done";
              scores := [1%Q; (1 # 2)%Q];
              sourceDocuments :=
                [{| documentId := "d1"; relevanceScore := 1%Q;
                    contentSnippet := content doc_alice |};
                 {| documentId := "d2"; relevanceScore := (1 # 2)%Q;
                    contentSnippet := content doc_bob |}];
              expandedQuery := "who said hello?" |} Hsort).
  apply injective_projections; [vm_compute; reflexivity | reflexivity].
Defined.

(** C5, the case the claim leaves out: [query_index] called as the chat
    and Slack services call it.  Its first remote call sends the question as
    it was asked to the embedding service; the only requests the model gets
    are the two ratings and the completion, none of them an expansion; the
    response carries the question under [expandedQuery]. *)
Lemma query_index_embeds_the_query_unexpanded :
  calls (snd (query_index example_env "who said hello?" "a" 10
                world_two_documents))
  = [EmbeddingsCreate "who said hello?" "text-embedding";
     VectorSearch "saix" [1%Q; 0%Q] 10;
     ChatCompletionsCreate
       (rerank_request example_env "who said hello?"
          {| documentId := "d1"; relevanceScore := 1%Q;
             contentSnippet := content doc_alice |});
     ChatCompletionsCreate
       (rerank_request example_env "who said hello?"
          {| documentId := "d2"; relevanceScore := (1 # 2)%Q;
             contentSnippet := content doc_bob |});
     ChatCompletionsCreate
       (completion_request example_env "prompt of a"
          (join LF [content doc_bob; content doc_alice])
          "who said hello?")]
  /\ ~ In (ChatCompletionsCreate
             (expand_request example_env "who said hello?"))
          (calls (snd (query_index example_env "who said hello?" "a" 10
                         world_two_documents)))
  /\ match fst (query_index example_env "who said hello?" "a" 10
                  world_two_documents) with
     | Ok response => expandedQuery response = "who said hello?"
     | Raise _ => False
     end.
Proof.
  split; [vm_compute; reflexivity |].
  split; [| vm_compute; reflexivity].
  intros Hin. vm_compute in Hin.
  repeat (destruct Hin as [Hin | Hin]; [discriminate Hin |]).
  exact Hin.
Qed.

(** C3: tenant [a] builds its index in a fresh search service, then tenant
    [b] builds its own.  The first build writes to the index named after the
    tenant and leaves an empty index under the base name; from then on
    [build_index] resolves the base name for every tenant, so the passage of
    [b] is stored under the base name, which is also the one index
    [query_index] searches whatever the company: the query of tenant [a]
    returns the passage of tenant [b], and nothing of its own. *)
Theorem tenant_b_passage_returned_to_tenant_a :
  fst (build_index example_env "file-a" "a" fresh_world) = Ok 1%nat
  /\ fst (build_index example_env "file-b" "b" world_after_a) = Ok 1%nat
  /\ indexes world_after_b !! "saix-a"
     = Some [{| id := "file-a_0";
                content := "2024-01-01 09:00:00 U1 alice general hi nan";
                contentVector := [1%Q; 0%Q] |}]
  /\ indexes world_after_b !! "saix-b" = None
  /\ indexes world_after_b !! "saix"
     = Some [{| id := "file-b_0";
                content := "2024-01-01 09:01:00 U2 bob general hello nan";
                contentVector := [1%Q; 0%Q] |}]
  /\ fst (query_index example_env "who said hello?" "a" 3 world_after_b)
     = Ok {| answer := "done";
             scores := [1%Q];
             sourceDocuments :=
               [{| documentId := "file-b_0"; relevanceScore := 1%Q;
                   contentSnippet :=
                     "2024-01-01 09:01:00 U2 bob general hello nan" |}];
             expandedQuery := "who said hello?" |}.
Proof.
  split; [vm_compute; reflexivity |].
  split; [vm_compute; reflexivity |].
  split; [vm_compute; reflexivity |].
  split; [vm_compute; reflexivity |].
  split; [vm_compute; reflexivity |].
  vm_compute. reflexivity.
Qed.

(** ** build_index_from_blob *)

Lemma raises_reraise_app_or {A : Type} (wrap : PyExc -> PyExc) :
  raises (@reraise_app_or A wrap).
Proof. intros e w. destruct e; eexists; reflexivity. Qed.

Lemma try_except_Ok_inv {A : Type} (body : M A) (handler : PyExc -> M A)
      (w w' : World) (a : A) :
  raises handler ->
  try_except body handler w = (Ok a, w') ->
  body w = (Ok a, w').
Proof.
  intros Hh. rewrite run_try_except.
  destruct (body w) as [[x | e] w1]; intros H; [exact H |].
  destruct (Hh e w1) as (e' & He). rewrite He in H. discriminate H.
Qed.

Lemma create_embeddings_loop_Ok_inv (env : Env) (model : string)
      (text_chunks : list string) :
  forall (embeddings result : list Embedding) (w w' : World),
    create_embeddings_loop env text_chunks model embeddings w
    = (Ok result, w') ->
    w' = with_calls w
           (List.map (fun c => EmbeddingsCreate c model) text_chunks)
    /\ length result = (length embeddings + length text_chunks)%nat.
Proof.
  induction text_chunks as [| chunk rest IH];
    intros embeddings result w w' H; simpl in H.
  - inversion H; subst. rewrite with_calls_nil. simpl. split; [reflexivity |].
    lia.
  - rewrite run_bind, run_try_except, run_bind,
      run_call_embeddings_create in H.
    destruct (embeddings_create env chunk model) as [v | e];
      [| discriminate H].
    simpl in H. apply IH in H. destruct H as [-> Hlen].
    rewrite with_calls_app. split; [reflexivity |].
    rewrite Hlen, List.length_app. simpl. lia.
Qed.

Lemma run_create_index (name : string) (w : World) :
  create_index name w
  = match indexes w !! name with
    | Some _ => (Raise (LibraryError "ResourceExistsError"), w)
    | None =>
        (Ok tt, {| indexes := <[name := []]> (indexes w);
                   tenants := tenants w; calls := calls w |})
    end.
Proof.
  unfold create_index. rewrite run_bind. simpl.
  destruct (indexes w !! name); reflexivity.
Qed.

Lemma run_upload_documents (name : string) (documents : list Document)
      (w : World) :
  upload_documents name documents w
  = match indexes w !! name with
    | Some stored =>
        (Ok tt,
         {| indexes :=
              <[name := fold_left (fun st d => upsert d st) documents stored]>
                (indexes w);
            tenants := tenants w;
            calls := calls w ++ [UploadDocuments name documents] |})
    | None =>
        (Raise (LibraryError "ResourceNotFoundError"),
         with_calls w [UploadDocuments name documents])
    end.
Proof.
  unfold upload_documents.
  rewrite run_bind, run_log_call, run_bind, run_stored_documents. simpl.
  destruct (indexes w !! name); reflexivity.
Qed.

(** C10: whatever [index_name] it is called with, a call of
    [build_index_from_blob] that returns has sent the chunks to the
    embedding service and then made one upload, to the index named
    "saixgen_index"; that index now holds the uploaded documents (upserted
    into what it held before), their number is the returned [indexSize], no
    other index has changed, and the call does the same for every other
    value of the argument. *)
Theorem build_index_from_blob_writes_to_saixgen_index :
  forall (env : Env) (blob_url index_name : string)
         (connection_string : option string) (w w' : World) (n : nat),
    build_index_from_blob env blob_url index_name connection_string w
    = (Ok n, w') ->
    (exists (text_chunks : list string) (documents : list Document),
        calls w'
        = calls w
          ++ List.map
               (fun c =>
                  EmbeddingsCreate c
                    (AZURE_SEARCH_DEPLOYMENT_NAME (settings env)))
               text_chunks
          ++ [UploadDocuments "saixgen_index" documents]
        /\ length documents = n
        /\ indexes w' !! "saixgen_index"
           = Some (fold_left (fun st d => upsert d st) documents
                     (default [] (indexes w !! "saixgen_index"))))
    /\ (forall name,
          name <> "saixgen_index" -> indexes w' !! name = indexes w !! name)
    /\ (forall other,
          build_index_from_blob env blob_url other connection_string w
          = build_index_from_blob env blob_url index_name connection_string w).
Proof.
  intros env blob_url index_name connection_string w w' n H.
  split; [| split; [| reflexivity]];
    unfold build_index_from_blob in H; cbv zeta in H;
    apply try_except_Ok_inv in H; try apply raises_reraise_app_or;
    apply bind_Ok_inv in H; destruct H as (df & w1 & H1 & H);
    apply bind_Ok_inv in H; destruct H as (text_chunks & w2 & H2 & H);
    apply bind_Ok_inv in H; destruct H as (embeddings & w3 & H3 & H);
    apply bind_Ok_inv in H; destruct H as (documents & w4 & H4 & H);
    inversion H; subst n w4; clear H;
    apply try_except_Ok_inv in H1; try solve_raises;
    apply try_except_Ok_inv in H2; try solve_raises;
    apply try_except_Ok_inv in H3; try solve_raises;
    apply try_except_Ok_inv in H4; try solve_raises;
    unfold lift in H1, H2; inversion H1; subst w1; inversion H2; subst w2;
    clear H1 H2;
    apply create_embeddings_loop_Ok_inv in H3; destruct H3 as [-> _];
    apply bind_Ok_inv in H4; destruct H4 as (names & wa & Ha & H4);
    apply bind_Ok_inv in H4; destruct H4 as ([] & wb & Hb & H4);
    apply bind_Ok_inv in H4; destruct H4 as ([] & wc & Hc & H4);
    inversion H4; subst documents wc; clear H4;
    unfold list_index_names in Ha; rewrite run_bind in Ha; simpl in Ha;
    inversion Ha; subst wa; clear Ha;
    rewrite run_upload_documents in Hc;
    destruct (indexes wb !! "saixgen_index") as [stored |] eqn:Hstored;
    try discriminate Hc; inversion Hc; subst w'; clear Hc; cbn [indexes calls].
  - (* the calls and the content of the index *)
    eexists text_chunks, _.
    assert (Hwb : calls wb
                  = calls w
                    ++ List.map
                         (fun c =>
                            EmbeddingsCreate c
                              (AZURE_SEARCH_DEPLOYMENT_NAME (settings env)))
                         text_chunks
                  /\ stored = default [] (indexes w !! "saixgen_index")).
    { destruct (negb (contains names "saixgen_index")).
      - rewrite run_create_index in Hb. simpl in Hb.
        destruct (indexes w !! "saixgen_index") eqn:Hw; [discriminate Hb |].
        inversion Hb; subst wb. simpl in Hstored.
        rewrite lookup_insert_eq in Hstored. inversion Hstored.
        split; reflexivity.
      - inversion Hb; subst wb. simpl in Hstored. rewrite Hstored.
        split; reflexivity. }
    destruct Hwb as [-> ->].
    split; [rewrite <- List.app_assoc; reflexivity |].
    split; [reflexivity |].
    apply lookup_insert_eq.
  - (* the other indexes *)
    intros name Hname. rewrite lookup_insert_ne by congruence.
    destruct (negb (contains names "saixgen_index")).
    + rewrite run_create_index in Hb. simpl in Hb.
      destruct (indexes w !! "saixgen_index"); [discriminate Hb |].
      inversion Hb; subst wb. simpl.
      rewrite lookup_insert_ne by congruence. reflexivity.
    + inversion Hb; subst wb. reflexivity.
Qed.

(** The theorem on a call that names the index "mine": afterwards there is
    no index of that name, and "saixgen_index" holds the one uploaded
    document. *)
Lemma build_index_from_blob_writes_to_saixgen_index_witness :
  indexes
    (snd (build_index_from_blob example_env "https://store/files/a.csv"
            "mine" None fresh_world)) !! "mine" = None
  /\ exists documents : list Document,
       indexes
         (snd (build_index_from_blob example_env "https://store/files/a.csv"
                 "mine" None fresh_world)) !! "saixgen_index"
       = Some (fold_left (fun st d => upsert d st) documents [])
       /\ length documents = 1%nat.
Proof.
  assert (Hrun :
    build_index_from_blob example_env "https://store/files/a.csv" "mine"
      None fresh_world
    = (Ok 1%nat,
       snd (build_index_from_blob example_env "https://store/files/a.csv"
              "mine" None fresh_world))).
  { apply injective_projections; [vm_compute; reflexivity | reflexivity]. }
  destruct (build_index_from_blob_writes_to_saixgen_index _ _ _ _ _ _ _ Hrun)
    as (Hupload & Hother & _).
  split.
  - rewrite Hother by discriminate. reflexivity.
  - destruct Hupload as (text_chunks & documents & _ & Hlength & Hindex).
    exists documents. split; [exact Hindex | exact Hlength].
Defined.

(** ** build_index: its failures *)

Lemma run_tenant_database (company_id : string) (w : World) (t : Tenant) :
  tenants w !! company_id = Some t ->
  tenant_database company_id w = (Ok t, w).
Proof.
  intros Ht. unfold tenant_database. rewrite run_bind. simpl. rewrite Ht.
  reflexivity.
Qed.

Lemma tenant_database_Ok_inv (company_id : string) (w w' : World) (t : Tenant) :
  tenant_database company_id w = (Ok t, w') ->
  tenants w !! company_id = Some t /\ w' = w.
Proof.
  unfold tenant_database. rewrite run_bind. simpl.
  destruct (tenants w !! company_id); intros H; inversion H.
  split; reflexivity.
Qed.

Lemma run_tenant_client_context (company_id : string) (w : World) (t : Tenant) :
  tenants w !! company_id = Some t ->
  tenant_client_context_by_company_id company_id w = (Ok tt, w).
Proof.
  intros Ht. unfold tenant_client_context_by_company_id.
  rewrite run_bind, (run_tenant_database _ _ _ Ht). reflexivity.
Qed.

Lemma run_csvfile_find_first (company_id file_id : string) (w : World)
      (t : Tenant) :
  tenants w !! company_id = Some t ->
  csvfile_find_first company_id file_id w = (Ok (csvfile t !! file_id), w).
Proof.
  intros Ht. unfold csvfile_find_first.
  rewrite run_bind, (run_tenant_database _ _ _ Ht). reflexivity.
Qed.

Lemma raises_only_bind {A B : Type} (P : PyExc -> Prop) (m : M A)
      (k : A -> M B) :
  raises_only P m -> (forall a, raises_only P (k a)) ->
  raises_only P (m ≫= k).
Proof.
  intros Hm Hk w e w' H. rewrite run_bind in H.
  destruct (m w) as [[a | e1] w1] eqn:Hmw.
  - exact (Hk a w1 e w' H).
  - inversion H; subst. exact (Hm w e w' Hmw).
Qed.

Lemma raises_only_ret {A : Type} (P : PyExc -> Prop) (a : A) :
  raises_only P (mret a : M A).
Proof. intros w e w' H. discriminate H. Qed.

Lemma raises_only_raise {A : Type} (P : PyExc -> Prop) (e : PyExc) :
  P e -> raises_only P (@raise A e).
Proof. intros He w e' w' H. inversion H; subst. exact He. Qed.

Lemma raises_only_log_formatted (P : PyExc -> Prop) (env : Env)
      (message : string) (kwargs : list LogKwarg) :
  (forall e, raised_by_logging env e -> P e) ->
  raises_only P (log_formatted env message kwargs).
Proof.
  intros HP w e w' H.
  destruct (run_log_formatted env message kwargs w) as [Hl | (e' & He' & Hl)];
    rewrite Hl in H; inversion H; subst.
  apply HP. exact He'.
Qed.

(** A [try] raises what its handler raises. *)
Lemma raises_only_try_except {A : Type} (P : PyExc -> Prop) (body : M A)
      (handler : PyExc -> M A) :
  (forall e, raises_only P (handler e)) ->
  raises_only P (try_except body handler).
Proof.
  intros Hh w e w' H. rewrite run_try_except in H.
  destruct (body w) as [[a | e1] w1]; [discriminate H |].
  exact (Hh e1 w1 e w' H).
Qed.

Lemma internal_error_intro (message : string)
      (context : list (string * string)) :
  internal_error (AppException INTERNAL_SERVER_ERROR message context).
Proof. exists message, context. reflexivity. Qed.

(** X5: the error codes of [build_index], for a company whose tenant
    database is reachable.  When the tenant has no record of the file the
    call raises [AppException] with code [NOT_FOUND], the message naming the
    file id, before any download, remote call or write.  Every other
    exception that leaves the call is an [AppException] with code
    [INTERNAL_SERVER_ERROR], or the exception that formatting the message of
    one of its logging calls raised. *)
Theorem build_index_failure_codes :
  forall (env : Env) (file_id company_id : string) (w : World) (t : Tenant),
    tenants w !! company_id = Some t ->
    (csvfile t !! file_id = None ->
     build_index env file_id company_id w
     = (Raise (AppException NOT_FOUND
                 ("CSV file record not found for file_id: " +:+ file_id)
                 [("file_id", file_id)]),
        w))
    /\ (forall (e : PyExc) (w' : World),
          build_index env file_id company_id w = (Raise e, w') ->
          (csvfile t !! file_id = None
           /\ e = AppException NOT_FOUND
                    ("CSV file record not found for file_id: " +:+ file_id)
                    [("file_id", file_id)])
          \/ (exists record : CsvFile,
                csvfile t !! file_id = Some record
                /\ (internal_error e \/ raised_by_logging env e))).
Proof.
  intros env file_id company_id w t Ht.
  assert (Hmissing :
    csvfile t !! file_id = None ->
    build_index env file_id company_id w
    = (Raise (AppException NOT_FOUND
                ("CSV file record not found for file_id: " +:+ file_id)
                [("file_id", file_id)]),
       w)).
  { intros Hnone. unfold build_index. cbv zeta.
    rewrite run_bind, (run_tenant_client_context _ _ _ Ht).
    rewrite run_try_except, run_bind, (run_csvfile_find_first _ _ _ _ Ht),
      Hnone.
    reflexivity. }
  split; [exact Hmissing |].
  intros e w' H.
  destruct (csvfile t !! file_id) as [record |] eqn:Hrecord.
  - right. exists record. split; [reflexivity |].
    unfold build_index in H. cbv zeta in H.
    rewrite run_bind, (run_tenant_client_context _ _ _ Ht) in H.
    rewrite run_try_except, run_bind, (run_csvfile_find_first _ _ _ _ Ht),
      Hrecord in H.
    set (P := fun e => internal_error e \/ raised_by_logging env e).
    assert (Hlog : forall e, raised_by_logging env e -> P e)
      by (intros ? ?; right; assumption).
    match type of H with
    | match ?body w with _ => _ end = _ =>
        assert (Hbody : raises_only P body)
    end.
    { repeat (apply raises_only_bind; [| intros ?]);
        try apply raises_only_ret;
        apply raises_only_try_except; intros ?; cbv zeta;
        try (apply raises_only_log_formatted; exact Hlog);
        (apply raises_only_bind;
         [apply raises_only_log_formatted; exact Hlog | intros ?]);
        apply raises_only_raise; left; apply internal_error_intro. }
    match type of H with
    | match ?body w with _ => _ end = _ =>
        destruct (body w) as [[n | e1] w1] eqn:Hrun; [discriminate H |]
    end.
    pose proof (Hbody _ _ _ Hrun) as He1.
    destruct e1; cbv zeta in H;
      try (inversion H; subst; exact He1);
      rewrite run_bind in H;
      match type of H with
      | context [log_formatted ?env ?m ?k ?w0] =>
          destruct (run_log_formatted env m k w0) as [Hl | (e2 & He2 & Hl)];
            rewrite Hl in H
      end;
      inversion H; subst;
      solve [left; apply internal_error_intro | right; assumption].
  - left. rewrite (Hmissing eq_refl) in H.
    inversion H; subst. split; reflexivity.
Qed.

(** The theorem on a file id tenant [a] has no record of. *)
Lemma build_index_failure_codes_witness :
  build_index example_env "no-such-file" "a" fresh_world
  = (Raise (AppException NOT_FOUND
              "CSV file record not found for file_id: no-such-file"
              [("file_id", "no-such-file")]),
     fresh_world).
Proof.
  assert (Ht : tenants fresh_world !! "a" = Some (tenant_of fresh_world "a"))
    by (vm_compute; reflexivity).
  apply (proj1 (build_index_failure_codes example_env "no-such-file" "a"
                  fresh_world _ Ht)).
  vm_compute. reflexivity.
Defined.

(** An exception of the second kind: the storage fails with a text that
    holds a closing brace, the logging call of the download handler raises
    on it, and so does the one of the outermost handler, whose message
    quotes the first error. *)
Lemma build_index_lets_a_logging_error_out :
  build_index env_brace_in_error "file-a" "a" fresh_world
  = (Raise (LibraryError "Single '}' encountered in format string"),
     fresh_world).
Proof. vm_compute. reflexivity. Qed.

(** X7: a file whose table has no row with a thread key (a CSV with a
    header line and no record is one) cannot be indexed.  [build_index]
    raises [AppException] with code [INTERNAL_SERVER_ERROR] and the message
    of the chunker's [ZeroDivisionError]; it has made no remote call,
    created no index, and the file keeps its status. *)
Theorem build_index_rejects_table_without_thread_keys :
  forall (env : Env) (file_id company_id : string) (w : World) (t : Tenant)
         (record : CsvFile) (df : Blob.DataFrame),
    tenants w !! company_id = Some t ->
    csvfile t !! file_id = Some record ->
    download_csv_from_blob env (blobUrl record)
      (AZURE_STORAGE_CONNECTION_STRING (settings env)) = Ok df ->
    (forall r, In r df -> Blob.has_thread_key r = false) ->
    build_index env file_id company_id w
    = (Raise (AppException INTERNAL_SERVER_ERROR
                ("Failed to preprocess and chunk data: "
                   +:+ str_exc ZeroDivisionError)
                [("error", str_exc ZeroDivisionError)]),
       w).
Proof.
  intros env file_id company_id w t record df Ht Hrecord Hdf Hnone.
  unfold build_index. cbv zeta.
  rewrite run_bind, (run_tenant_client_context _ _ _ Ht).
  rewrite run_try_except, run_bind, (run_csvfile_find_first _ _ _ _ Ht),
    Hrecord.
  rewrite run_bind, run_try_except. unfold lift at 1. rewrite Hdf.
  rewrite run_bind, run_try_except. unfold lift at 1.
  unfold Blob.preprocess_and_chunk_data.
  rewrite (BlobFacts.no_thread_keys_no_groups df Hnone). reflexivity.
Qed.

(** The theorem on a storage whose files have no record. *)
Lemma build_index_rejects_table_without_thread_keys_witness :
  build_index env_empty_export "file-a" "a" fresh_world
  = (Raise (AppException INTERNAL_SERVER_ERROR
              "Failed to preprocess and chunk data: integer division or modulo by zero"
              [("error", "integer division or modulo by zero")]),
     fresh_world).
Proof.
  apply (build_index_rejects_table_without_thread_keys env_empty_export
           "file-a" "a" fresh_world (tenant_of fresh_world "a")
           {| companyId := "a"; blobUrl := "https://store/files/a.csv";
              status := "uploaded" |} []).
  - vm_compute. reflexivity.
  - vm_compute. reflexivity.
  - reflexivity.
  - intros r [].
Defined.

(** ** build_index: what a successful call has done *)

Lemma append_nonempty_neq (s t : string) (c : ascii) :
  s <> s +:+ String c t.
Proof.
  induction s as [| a s IH]; simpl; intros H.
  - discriminate H.
  - injection H as H. exact (IH H).
Qed.

Lemma contains_index_names_lookup (m : gmap string (list Document))
      (name : string) :
  contains (List.map fst (map_to_list m)) name
  = match m !! name with Some _ => true | None => false end.
Proof.
  destruct (m !! name) as [stored |] eqn:Hlookup.
  - exact (contains_index_names _ _ _ Hlookup).
  - apply not_true_is_false. intros H. unfold contains in H.
    apply List.existsb_exists in H. destruct H as (x & Hin & Heq).
    apply String.eqb_eq in Heq. subst x.
    apply List.in_map_iff in Hin. destruct Hin as ([k v] & Hk & Hin).
    simpl in Hk. subst k. apply list_elem_of_In in Hin.
    apply elem_of_map_to_list in Hin. congruence.
Qed.

Lemma run_list_index_names (w : World) :
  list_index_names w = (Ok (List.map fst (map_to_list (indexes w))), w).
Proof. unfold list_index_names. rewrite run_bind. reflexivity. Qed.

Lemma run_delete_index_by_name (env : Env) (name : string) (w : World) :
  delete_index_by_name env name w
  = match delete_index_refused env name with
    | Some e => (Raise e, w)
    | None =>
        (Ok tt, {| indexes := delete name (indexes w);
                   tenants := tenants w; calls := calls w |})
    end.
Proof.
  unfold delete_index_by_name.
  destruct (delete_index_refused env name); reflexivity.
Qed.

(** The index management block never raises; it creates the tenant's index
    and the base index when neither is there. *)
Lemma run_resolve_target_index (env : Env) (base_index_name company_id : string)
      (w : World) :
  resolve_target_index env base_index_name company_id w
  = match indexes w !! base_index_name with
    | Some _ => (Ok base_index_name, w)
    | None =>
        let actual_index_name :=
          base_index_name +:+ "-" +:+ py_lower env company_id in
        match indexes w !! actual_index_name with
        | Some _ => (Ok actual_index_name, w)
        | None =>
            (Ok actual_index_name,
             {| indexes :=
                  <[base_index_name := []]>
                    (<[actual_index_name := []]> (indexes w));
                tenants := tenants w; calls := calls w |})
        end
    end.
Proof.
  unfold resolve_target_index.
  rewrite run_bind, run_try_except, run_get_index.
  destruct (indexes w !! base_index_name) as [stored |] eqn:Hbase.
  - rewrite run_bind, run_list_index_names.
    rewrite contains_index_names_lookup, Hbase. reflexivity.
  - cbv zeta.
    set (actual := base_index_name +:+ "-" +:+ py_lower env company_id).
    assert (Hne : base_index_name <> actual) by apply append_nonempty_neq.
    cbv beta iota.
    change ((mret actual : M string) w) with (Ok actual, w). cbv beta iota.
    rewrite run_bind, run_list_index_names.
    rewrite contains_index_names_lookup.
    destruct (indexes w !! actual) as [stored |] eqn:Hactual; [reflexivity |].
    rewrite run_bind, run_create_index, Hactual.
    rewrite run_bind, run_try_except, run_bind, run_try_except,
      run_delete_index_by_name.
    cbn [indexes tenants calls].
    destruct (delete_index_refused env base_index_name) as [refusal |].
    + unfold mret at 1, M_ret at 1. cbv beta iota.
      rewrite run_create_index. cbn [indexes tenants calls].
      rewrite lookup_insert_ne by congruence. rewrite Hbase.
      reflexivity.
    + rewrite run_create_index. cbn [indexes tenants calls].
      rewrite delete_id by (rewrite lookup_insert_ne by congruence; exact Hbase).
      rewrite lookup_insert_ne by congruence. rewrite Hbase.
      reflexivity.
Qed.

Lemma in_upsert_same (d : Document) (stored : list Document) :
  In d (upsert d stored).
Proof.
  induction stored as [| x rest IH]; simpl; [left; reflexivity |].
  destruct (String.eqb (id x) (id d)); [left; reflexivity | right; exact IH].
Qed.

Lemma in_upsert_other (d d' : Document) (stored : list Document) :
  id d' <> id d -> In d stored -> In d (upsert d' stored).
Proof.
  intros Hne. induction stored as [| x rest IH]; simpl; intros Hin; [tauto |].
  destruct (String.eqb (id x) (id d')) eqn:Heq.
  - destruct Hin as [-> | Hin]; [| right; exact Hin].
    apply String.eqb_eq in Heq. congruence.
  - destruct Hin as [-> | Hin]; [left; reflexivity | right; exact (IH Hin)].
Qed.

Lemma in_fold_upsert_kept (d : Document) (documents : list Document) :
  forall stored,
    Forall (fun d' => id d' <> id d) documents ->
    In d stored ->
    In d (fold_left (fun st d' => upsert d' st) documents stored).
Proof.
  induction documents as [| d0 rest IH]; intros stored Hall Hin; simpl;
    [exact Hin |].
  inversion Hall; subst. apply IH; [assumption |].
  apply in_upsert_other; assumption.
Qed.

(** Documents with different ids are all in the index after their upload. *)
Lemma in_fold_upsert (d : Document) (documents : list Document) :
  forall stored,
    NoDup (List.map id documents) ->
    In d documents ->
    In d (fold_left (fun st d' => upsert d' st) documents stored).
Proof.
  induction documents as [| d0 rest IH]; intros stored Hnodup Hin; simpl;
    [destruct Hin |].
  simpl in Hnodup. inversion Hnodup as [| ? ? Hnotin Hrest]; subst.
  destruct Hin as [-> | Hin].
  - apply in_fold_upsert_kept; [| apply in_upsert_same].
    apply List.Forall_forall. intros d' Hd' Heq. apply Hnotin.
    apply list_elem_of_In. rewrite <- Heq. apply List.in_map. exact Hd'.
  - apply IH; assumption.
Qed.

Lemma str_of_nat_inj (i j : nat) : str_of_nat i = str_of_nat j -> i = j.
Proof.
  unfold str_of_nat. intros H.
  assert (Hu : Nat.to_uint i = Nat.to_uint j).
  { pose proof (NilEmpty.usu (Nat.to_uint i)) as Hi.
    rewrite H, NilEmpty.usu in Hi. congruence. }
  rewrite <- (Unsigned.of_to i), <- (Unsigned.of_to j), Hu. reflexivity.
Qed.

Lemma enumerate_from_fst {A : Type} (l : list A) :
  forall i, List.map fst (enumerate_from i l) = seq i (length l).
Proof.
  induction l as [| x rest IH]; intros i; simpl; [reflexivity |].
  rewrite IH. reflexivity.
Qed.

Lemma in_enumerate_from {A : Type} (l : list A) :
  forall i j x,
    nth_error l j = Some x -> In ((i + j)%nat, x) (enumerate_from i l).
Proof.
  induction l as [| y rest IH]; intros i j x H; [destruct j; discriminate H |].
  destruct j as [| j]; simpl in *.
  - inversion H; subst. left. f_equal. lia.
  - right. replace (i + S j)%nat with (S i + j)%nat by lia. apply IH. exact H.
Qed.

Lemma nth_error_combine {A B : Type} (l : list A) :
  forall (l' : list B) i x y,
    nth_error l i = Some x -> nth_error l' i = Some y ->
    nth_error (combine l l') i = Some (x, y).
Proof.
  induction l as [| a rest IH]; intros l' i x y Hx Hy;
    [destruct i; discriminate Hx |].
  destruct l' as [| b rest']; [destruct i; discriminate Hy |].
  destruct i as [| i]; simpl in *.
  - congruence.
  - apply IH; assumption.
Qed.

Lemma Forall2_nth_error {A B : Type} (P : A -> B -> Prop) (l : list A)
      (l' : list B) :
  Forall2 P l l' ->
  forall i x, nth_error l i = Some x ->
              exists y, nth_error l' i = Some y /\ P x y.
Proof.
  induction 1 as [| a b rest rest' Hab Hrest IH]; intros i x Hx;
    [destruct i; discriminate Hx |].
  destruct i as [| i]; simpl in *.
  - inversion Hx; subst. exists b. split; [reflexivity | exact Hab].
  - apply IH. exact Hx.
Qed.

Lemma create_embeddings_loop_Ok_vectors (env : Env) (model : string)
      (text_chunks : list string) :
  forall (embeddings result : list Embedding) (w w' : World),
    create_embeddings_loop env text_chunks model embeddings w
    = (Ok result, w') ->
    exists vectors,
      result = embeddings ++ vectors
      /\ Forall2 (fun chunk v => embeddings_create env chunk model = Ok v)
                 text_chunks vectors.
Proof.
  induction text_chunks as [| chunk rest IH];
    intros embeddings result w w' H; simpl in H.
  - inversion H; subst. exists []. rewrite List.app_nil_r.
    split; [reflexivity | constructor].
  - rewrite run_bind, run_try_except, run_bind,
      run_call_embeddings_create in H.
    destruct (embeddings_create env chunk model) as [v | e] eqn:Hv;
      [| discriminate H].
    simpl in H. apply IH in H. destruct H as (vectors & -> & Hall).
    exists (v :: vectors). rewrite <- List.app_assoc.
    split; [reflexivity |]. constructor; assumption.
Qed.

Lemma run_csvfile_update (env : Env) (company_id file_id new_status : string)
      (w : World) (t : Tenant) :
  tenants w !! company_id = Some t ->
  csvfile_update env company_id file_id new_status w
  = match csvfile_write_refused env company_id with
    | Some e => (Raise e, w)
    | None =>
        (Ok tt,
         {| indexes := indexes w;
            tenants :=
              <[company_id :=
                  {| promptTemplate := promptTemplate t;
                     csvfile :=
                       alter (fun f => {| companyId := companyId f;
                                          blobUrl := blobUrl f;
                                          status := new_status |})
                             file_id (csvfile t) |}]> (tenants w);
            calls := calls w |})
    end.
Proof.
  intros Ht. unfold csvfile_update.
  rewrite run_bind, (run_tenant_database _ _ _ Ht).
  destruct (csvfile_write_refused env company_id); reflexivity.
Qed.

(** X6: what a call of [build_index] that returns has done.  The tenant has
    a record of the file; its table was downloaded and chunked; the returned
    [indexSize] is the number of passages; the target index is the base
    index or the tenant's own; for every passage, that index now holds a
    document with the id [file_id_i] ([i] the position of the passage), the
    passage as content and its embedding as vector.  The file's status is
    "indexed" if the tenant database took the update; if it refused, the
    call returns all the same and the tenant databases are as they were. *)
Theorem build_index_stores_every_passage :
  forall (env : Env) (file_id company_id : string) (w w' : World) (n : nat),
    build_index env file_id company_id w = (Ok n, w') ->
    exists (t : Tenant) (record : CsvFile) (df : Blob.DataFrame)
           (text_chunks : list string) (target : string)
           (stored : list Document),
      tenants w !! company_id = Some t
      /\ csvfile t !! file_id = Some record
      /\ download_csv_from_blob env (blobUrl record)
           (AZURE_STORAGE_CONNECTION_STRING (settings env)) = Ok df
      /\ Blob.preprocess_and_chunk_data (encode env) (str_of_ts env) df 5 1000
         = Ok text_chunks
      /\ n = length text_chunks
      /\ (target = AZURE_SEARCH_INDEX_NAME (settings env)
          \/ target = AZURE_SEARCH_INDEX_NAME (settings env) +:+ "-"
                        +:+ py_lower env company_id)
      /\ indexes w' !! target = Some stored
      /\ (forall (i : nat) (chunk : string),
            nth_error text_chunks i = Some chunk ->
            exists v : Embedding,
              embeddings_create env chunk
                (AZURE_SEARCH_DEPLOYMENT_NAME (settings env)) = Ok v
              /\ In {| id := file_id +:+ "_" +:+ str_of_nat i;
                       content := chunk;
                       contentVector := v |} stored)
      /\ match csvfile_write_refused env company_id with
         | None =>
             exists t' : Tenant,
               tenants w' !! company_id = Some t'
               /\ csvfile t' !! file_id
                  = Some {| companyId := companyId record;
                            blobUrl := blobUrl record;
                            status := "indexed" |}
         | Some _ => tenants w' = tenants w
         end.
Proof.
  intros env file_id company_id w w' n H.
  unfold build_index in H. cbv zeta in H.
  apply bind_Ok_inv in H. destruct H as ([] & w0 & H0 & H).
  unfold tenant_client_context_by_company_id in H0.
  apply bind_Ok_inv in H0. destruct H0 as (t & w0' & Ht & H0).
  apply tenant_database_Ok_inv in Ht. destruct Ht as [Ht ->].
  inversion H0; subst w0; clear H0.
  apply try_except_Ok_inv in H; [| solve_raises].
  rewrite run_bind, (run_csvfile_find_first _ _ _ _ Ht) in H.
  destruct (csvfile t !! file_id) as [record |] eqn:Hrecord;
    [| discriminate H].
  apply bind_Ok_inv in H; destruct H as (df & w1 & H1 & H).
  apply bind_Ok_inv in H; destruct H as (text_chunks & w2 & H2 & H).
  apply bind_Ok_inv in H; destruct H as (embeddings & w3 & H3 & H).
  apply bind_Ok_inv in H; destruct H as (target & w4 & H4 & H).
  apply bind_Ok_inv in H; destruct H as ([] & w5 & H5 & H).
  apply bind_Ok_inv in H; destruct H as ([] & w6 & H6 & H).
  inversion H; subst n w6; clear H.
  apply try_except_Ok_inv in H1; [| solve_raises].
  apply try_except_Ok_inv in H2; [| solve_raises].
  apply try_except_Ok_inv in H3; [| solve_raises].
  apply try_except_Ok_inv in H4; [| solve_raises].
  apply try_except_Ok_inv in H5; [| solve_raises].
  unfold lift in H1, H2. inversion H1; subst w1. inversion H2; subst w2.
  clear H1 H2. rename H0 into Hdf, H7 into Hchunks.
  pose proof (create_embeddings_loop_Ok_inv _ _ _ _ _ _ _ H3) as [Hw3 Hlen].
  apply create_embeddings_loop_Ok_vectors in H3.
  destruct H3 as (vectors & -> & Hvectors). cbn [app] in *. simpl in Hlen.
  exists t, record, df, text_chunks, target.
  (* the target index *)
  assert (Htarget :
    (target = AZURE_SEARCH_INDEX_NAME (settings env)
     \/ target = AZURE_SEARCH_INDEX_NAME (settings env) +:+ "-"
                   +:+ py_lower env company_id)
    /\ tenants w4 = tenants w
    /\ exists stored0, indexes w4 !! target = Some stored0).
  { rewrite run_resolve_target_index in H4. subst w3.
    unfold with_calls in H4. cbn [indexes tenants calls] in H4.
    destruct (indexes w !! AZURE_SEARCH_INDEX_NAME (settings env))
      as [s |] eqn:Hbase.
    - inversion H4; subst. split; [left; reflexivity |].
      split; [reflexivity |]. exists s. exact Hbase.
    - cbv zeta in H4.
      destruct (indexes w !! (AZURE_SEARCH_INDEX_NAME (settings env) +:+ "-"
                                +:+ py_lower env company_id))
        as [s |] eqn:Hactual.
      + inversion H4; subst. split; [right; reflexivity |].
        split; [reflexivity |]. exists s. exact Hactual.
      + inversion H4; subst. split; [right; reflexivity |].
        split; [reflexivity |]. exists []. cbn [indexes].
        rewrite lookup_insert_ne by apply append_nonempty_neq.
        apply lookup_insert_eq. }
  destruct Htarget as (Hname & Htenants & stored0 & Hstored0).
  rewrite run_upload_documents, Hstored0 in H5.
  inversion H5; subst w5; clear H5.
  assert (Ht5 : tenants
                  {| indexes :=
                       <[target :=
                           fold_left (fun st d => upsert d st)
                             (List.map
                                (fun '(i, (chunk, embedding)) =>
                                   {| id := file_id +:+ "_" +:+ str_of_nat i;
                                      content := chunk;
                                      contentVector := embedding |})
                                (enumerate_zip text_chunks vectors)) stored0]>
                         (indexes w4);
                     tenants := tenants w4;
                     calls := calls w4 ++
                       [UploadDocuments target
                          (List.map
                             (fun '(i, (chunk, embedding)) =>
                                {| id := file_id +:+ "_" +:+ str_of_nat i;
                                   content := chunk;
                                   contentVector := embedding |})
                             (enumerate_zip text_chunks vectors))] |}
                !! company_id = Some t).
  { cbn [tenants]. rewrite Htenants. exact Ht. }
  rewrite run_try_except, (run_csvfile_update _ _ _ _ _ _ Ht5) in H6.
  assert (Hindexes :
    indexes w' !! target
    = Some (fold_left (fun st d => upsert d st)
              (List.map
                 (fun '(i, (chunk, embedding)) =>
                    {| id := file_id +:+ "_" +:+ str_of_nat i;
                       content := chunk;
                       contentVector := embedding |})
                 (enumerate_zip text_chunks vectors)) stored0)
    /\ match csvfile_write_refused env company_id with
       | None =>
           exists t' : Tenant,
             tenants w' !! company_id = Some t'
             /\ csvfile t' !! file_id
                = Some {| companyId := companyId record;
                          blobUrl := blobUrl record;
                          status := "indexed" |}
       | Some _ => tenants w' = tenants w
       end).
  { destruct (csvfile_write_refused env company_id) as [refusal |].
    - match type of H6 with
      | log_formatted ?env ?m ?k ?w0 = _ =>
          destruct (run_log_formatted env m k w0) as [Hl | (e2 & _ & Hl)];
            rewrite Hl in H6; [| discriminate H6]
      end.
      inversion H6; subst w'; clear H6. cbn [indexes tenants].
      split; [apply lookup_insert_eq | exact Htenants].
    - inversion H6; subst w'; clear H6. cbn [indexes tenants].
      split; [apply lookup_insert_eq |].
      eexists. split; [apply lookup_insert_eq |]. cbn [csvfile].
      rewrite lookup_alter_eq, Hrecord. reflexivity. }
  destruct Hindexes as [Hindexes Hstatus].
  eexists. split; [exact Ht |]. split; [exact Hrecord |].
  split; [exact Hdf |]. split; [exact Hchunks |].
  split.
  { rewrite List.length_map. unfold enumerate_zip.
    rewrite <- (List.length_map fst (enumerate_from 0 _)),
      enumerate_from_fst, List.length_seq, List.length_combine.
    lia. }
  split; [exact Hname |].
  split; [exact Hindexes |].
  split; [| exact Hstatus].
  intros i chunk Hi.
  destruct (Forall2_nth_error _ _ _ Hvectors i chunk Hi)
    as (v & Hv & Hcreate).
  exists v. split; [exact Hcreate |].
  apply in_fold_upsert.
  + rewrite List.map_map. unfold enumerate_zip.
    erewrite List.map_ext
      with (g := fun p => file_id +:+ "_" +:+ str_of_nat (fst p));
      [| intros [j [c e]]; reflexivity].
    rewrite <- (List.map_map fst
                  (fun j => file_id +:+ "_" +:+ str_of_nat j)).
    rewrite enumerate_from_fst.
    apply NoDup_fmap_2; [| apply NoDup_seq].
    intros a b Hab. apply String.app_inj in Hab.
    apply String.app_inj in Hab. apply str_of_nat_inj. exact Hab.
  + apply List.in_map_iff. exists (i, (chunk, v)). split; [reflexivity |].
    unfold enumerate_zip.
    apply (in_enumerate_from (combine text_chunks vectors) 0 i (chunk, v)).
    apply nth_error_combine; assumption.
Qed.

(** The theorem on the first build of the example: the file of tenant [a]
    is "indexed" afterwards. *)
Lemma build_index_stores_every_passage_witness :
  exists t' : Tenant,
    tenants (snd (build_index example_env "file-a" "a" fresh_world)) !! "a"
    = Some t'
    /\ status <$> csvfile t' !! "file-a" = Some "indexed".
Proof.
  assert (Hrun :
    build_index example_env "file-a" "a" fresh_world
    = (Ok 1%nat, snd (build_index example_env "file-a" "a" fresh_world))).
  { apply injective_projections; [vm_compute; reflexivity | reflexivity]. }
  destruct (build_index_stores_every_passage _ _ _ _ _ _ Hrun)
    as (t & record & df & text_chunks & target & stored & _ & _ & _ & _ & _
        & _ & _ & _ & t' & Ht' & Hfile).
  exists t'. split; [exact Ht' |]. rewrite Hfile. reflexivity.
Defined.

(** The same build with a tenant database that refuses the update: the call
    returns, the passage is in the index, and the file is still
    "uploaded". *)
Lemma build_index_returns_when_the_status_update_is_refused :
  fst (build_index env_write_refused "file-a" "a" fresh_world) = Ok 1%nat
  /\ indexes (snd (build_index env_write_refused "file-a" "a" fresh_world))
       !! "saix-a"
     = Some [{| id := "file-a_0";
                content := "2024-01-01 09:00:00 U1 alice general hi nan";
                contentVector := [1%Q; 0%Q] |}]
  /\ tenants (snd (build_index env_write_refused "file-a" "a" fresh_world))
     = tenants fresh_world.
Proof.
  split; [vm_compute; reflexivity |].
  split; vm_compute; reflexivity.
Qed.

(** ** delete_index and its route *)

Lemma run_csvfile_update_many (env : Env) (company_id new_status : string)
      (w : World) (t : Tenant) :
  tenants w !! company_id = Some t ->
  csvfile_update_many env company_id new_status w
  = match csvfile_write_refused env company_id with
    | Some e => (Raise e, w)
    | None =>
        (Ok tt,
         {| indexes := indexes w;
            tenants :=
              <[company_id :=
                  {| promptTemplate := promptTemplate t;
                     csvfile :=
                       (fun f => if String.eqb (companyId f) company_id
                                 then {| companyId := companyId f;
                                         blobUrl := blobUrl f;
                                         status := new_status |}
                                 else f) <$> csvfile t |}]> (tenants w);
            calls := calls w |})
    end.
Proof.
  intros Ht. unfold csvfile_update_many.
  rewrite run_bind, (run_tenant_database _ _ _ Ht).
  destruct (csvfile_write_refused env company_id); reflexivity.
Qed.

(** X12: what a call of [delete_index] that returns has done.  The search
    service has been asked to delete the tenant-scoped index, named after
    the base index and the lower-cased company id, and holds no index of
    that name any more, whether or not it held one.  No other index has
    changed: the index under the base name, the one [query_index] searches,
    is as it was.  The status of every file of the company is "uploaded";
    the prompt and the other tenants are as they were. *)
Theorem delete_index_removes_tenant_index_only :
  forall (env : Env) (company_id : string) (w w' : World),
    delete_index env company_id w = (Ok tt, w') ->
    indexes w'
    = delete (AZURE_SEARCH_INDEX_NAME (settings env) +:+ "-"
                +:+ py_lower env company_id) (indexes w)
    /\ indexes w' !! AZURE_SEARCH_INDEX_NAME (settings env)
       = indexes w !! AZURE_SEARCH_INDEX_NAME (settings env)
    /\ exists t t' : Tenant,
         tenants w !! company_id = Some t
         /\ tenants w' !! company_id = Some t'
         /\ promptTemplate t' = promptTemplate t
         /\ (forall (file_id : string) (f : CsvFile),
               csvfile t !! file_id = Some f ->
               csvfile t' !! file_id
               = Some (if String.eqb (companyId f) company_id
                       then {| companyId := companyId f;
                               blobUrl := blobUrl f;
                               status := "uploaded" |}
                       else f))
         /\ (forall other : string,
               other <> company_id ->
               tenants w' !! other = tenants w !! other).
Proof.
  intros env company_id w w' H.
  unfold delete_index in H. cbv zeta in H.
  apply bind_Ok_inv in H. destruct H as ([] & w1 & H1 & H).
  apply try_except_Ok_inv in H1; [| solve_raises].
  rewrite run_delete_index_by_name in H1.
  destruct (delete_index_refused env _) as [refusal |]; [discriminate H1 |].
  inversion H1; subst w1; clear H1.
  apply bind_Ok_inv in H. destruct H as ([] & w2 & H2 & H).
  unfold tenant_client_context_by_company_id in H2.
  apply bind_Ok_inv in H2. destruct H2 as (t & w2' & Ht & H2).
  apply tenant_database_Ok_inv in Ht. destruct Ht as [Ht ->].
  inversion H2; subst w2; clear H2.
  apply try_except_Ok_inv in H; [| solve_raises].
  rewrite (run_csvfile_update_many _ _ _ _ _ Ht) in H.
  destruct (csvfile_write_refused env company_id) as [refusal |];
    [discriminate H |].
  inversion H; subst w'; clear H. cbn [indexes tenants calls] in *.
  split; [reflexivity |].
  split; [apply lookup_delete_ne; intros Heq; symmetry in Heq;
          exact (append_nonempty_neq _ _ _ Heq) |].
  exists t. eexists. split; [exact Ht |].
  split; [apply lookup_insert_eq |].
  split; [reflexivity |].
  split.
  - intros file_id f Hf. cbn [csvfile]. rewrite lookup_fmap, Hf. reflexivity.
  - intros other Hother. apply lookup_insert_ne. congruence.
Qed.

(** The theorem after the two builds of the example: deleting the index of
    tenant [a] removes "saix-a" and leaves the shared "saix", which holds
    the passage of tenant [b], as it is. *)
Lemma delete_index_removes_tenant_index_only_witness :
  indexes (snd (delete_index example_env "a" world_after_b)) !! "saix"
  = indexes world_after_b !! "saix"
  /\ indexes (snd (delete_index example_env "a" world_after_b)) !! "saix-a"
     = None.
Proof.
  assert (Hrun :
    delete_index example_env "a" world_after_b
    = (Ok tt, snd (delete_index example_env "a" world_after_b))).
  { apply injective_projections; [vm_compute; reflexivity | reflexivity]. }
  destruct (delete_index_removes_tenant_index_only _ _ _ _ Hrun)
    as (Hindexes & Hbase & _).
  split; [exact Hbase |].
  rewrite Hindexes. apply lookup_delete_eq.
Defined.

(** Tenant [b] has no index of its own after the two builds: its passage
    is in the shared index.  [delete_index] returns for it all the same, and
    the indexes are as they were. *)
Lemma delete_index_returns_without_tenant_index :
  indexes world_after_b !! "saix-b" = None
  /\ fst (delete_index example_env "b" world_after_b) = Ok tt
  /\ indexes (snd (delete_index example_env "b" world_after_b))
     = indexes world_after_b.
Proof.
  split; [vm_compute; reflexivity |].
  split; vm_compute; reflexivity.
Qed.

Lemma has_brace_app (s t : string) :
  has_brace (s +:+ t) = has_brace s || has_brace t.
Proof.
  induction s as [| c s IH]; simpl; [reflexivity |].
  rewrite IH, !orb_assoc. reflexivity.
Qed.

(** X13: the [/delete-index] route when the search service refuses to
    delete the tenant-scoped index (a missing index is no refusal: the
    client accepts that answer).  For an index name without braces,
    [delete_index] raises an [AppException] with code
    [INTERNAL_SERVER_ERROR], for which [handle_app_exception] builds a
    response with status 500; the route calls the handler without returning
    its response, so it returns [None] and raises nothing, and the state is
    as before. *)
Theorem delete_route_returns_null_when_deletion_is_refused :
  forall (env : Env) (format_exc : PyExc -> string) (company_id : string)
         (w : World) (e : PyExc),
    delete_index_refused env
      (AZURE_SEARCH_INDEX_NAME (settings env) +:+ "-"
         +:+ py_lower env company_id) = Some e ->
    has_brace (AZURE_SEARCH_INDEX_NAME (settings env) +:+ "-"
                 +:+ py_lower env company_id) = false ->
    delete_rag_index env format_exc company_id w = (Returns None, w)
    /\ delete_index env company_id w
       = (Raise (AppException INTERNAL_SERVER_ERROR
                   ("Failed to delete index '"
                      +:+ (AZURE_SEARCH_INDEX_NAME (settings env) +:+ "-"
                             +:+ py_lower env company_id)
                      +:+ "' from Azure AI Search")
                   [("error", str_exc e)]), w)
    /\ response_status_code
         (handle_app_exception INTERNAL_SERVER_ERROR
            ("Failed to delete index '"
               +:+ (AZURE_SEARCH_INDEX_NAME (settings env) +:+ "-"
                      +:+ py_lower env company_id)
               +:+ "' from Azure AI Search")
            [("error", str_exc e)])
       = 500.
Proof.
  intros env format_exc company_id w e Hrefused Hbrace.
  assert (Hrun :
    delete_index env company_id w
    = (Raise (AppException INTERNAL_SERVER_ERROR
                ("Failed to delete index '"
                   +:+ (AZURE_SEARCH_INDEX_NAME (settings env) +:+ "-"
                          +:+ py_lower env company_id)
                   +:+ "' from Azure AI Search")
                [("error", str_exc e)]), w)).
  { unfold delete_index. cbv zeta.
    rewrite run_bind, run_try_except, run_delete_index_by_name, Hrefused.
    rewrite run_bind, run_log_formatted_no_brace; [reflexivity |].
    rewrite has_brace_app, (has_brace_app _ "' from Azure AI Search"), Hbrace.
    reflexivity. }
  split; [| split; [exact Hrun | reflexivity]].
  unfold delete_rag_index. rewrite Hrun. reflexivity.
Qed.

(** The theorem for tenant [a] after the two builds of the example, with a
    search service that refuses deletions. *)
Lemma delete_route_returns_null_when_deletion_is_refused_witness :
  delete_rag_index env_delete_refused (fun _ => "Traceback") "a" world_after_b
  = (Returns None, world_after_b).
Proof.
  apply (delete_route_returns_null_when_deletion_is_refused
           env_delete_refused (fun _ => "Traceback") "a" world_after_b
           (LibraryError "HttpResponseError")); reflexivity.
Defined.

(** ** Queries write nothing *)

Lemma reads_only_ret {A : Type} (a : A) : reads_only (mret a : M A).
Proof. intros w. split; reflexivity. Qed.

Lemma reads_only_raise {A : Type} (e : PyExc) : reads_only (@raise A e).
Proof. intros w. split; reflexivity. Qed.

Lemma reads_only_lift {A : Type} (r : result A) : reads_only (lift r).
Proof. intros w. split; reflexivity. Qed.

Lemma reads_only_get_world : reads_only get_world.
Proof. intros w. split; reflexivity. Qed.

Lemma reads_only_log_call (c : Call) : reads_only (log_call c).
Proof. intros w. split; reflexivity. Qed.

Lemma reads_only_bind {A B : Type} (m : M A) (k : A -> M B) :
  reads_only m -> (forall a, reads_only (k a)) -> reads_only (m ≫= k).
Proof.
  intros Hm Hk w. rewrite run_bind. specialize (Hm w).
  destruct (m w) as [[a | e] w1]; simpl in Hm.
  - destruct (Hk a w1) as [Hi Ht]. destruct Hm as [Hi1 Ht1].
    split; congruence.
  - exact Hm.
Qed.

Lemma reads_only_try_except {A : Type} (body : M A) (handler : PyExc -> M A) :
  reads_only body -> (forall e, reads_only (handler e)) ->
  reads_only (try_except body handler).
Proof.
  intros Hb Hh w. rewrite run_try_except. specialize (Hb w).
  destruct (body w) as [[a | e] w1]; simpl in Hb.
  - exact Hb.
  - destruct (Hh e w1) as [Hi Ht]. destruct Hb as [Hi1 Ht1].
    split; congruence.
Qed.

Create HintDb reads_only discriminated.

#[local] Hint Resolve reads_only_ret reads_only_raise reads_only_lift
  reads_only_get_world reads_only_log_call : reads_only.

Ltac reads_only_step :=
  match goal with
  | |- reads_only (_ ≫= _) => apply reads_only_bind; [| intros ?]
  | |- reads_only (try_except _ _) => apply reads_only_try_except; [| intros ?]
  | |- reads_only (match ?x with _ => _ end) => destruct x
  | |- reads_only _ => solve [auto with reads_only]
  end.

Ltac solve_reads_only := repeat reads_only_step.

Lemma reads_only_stored_documents (name : string) :
  reads_only (stored_documents name).
Proof. unfold stored_documents. solve_reads_only. Qed.

#[local] Hint Resolve reads_only_stored_documents : reads_only.

Lemma reads_only_tenant_database (company_id : string) :
  reads_only (tenant_database company_id).
Proof. unfold tenant_database. solve_reads_only. Qed.

#[local] Hint Resolve reads_only_tenant_database : reads_only.

Lemma reads_only_log_formatted (env : Env) (message : string)
      (kwargs : list LogKwarg) :
  reads_only (log_formatted env message kwargs).
Proof.
  unfold log_formatted.
  destruct (has_brace message); [| apply reads_only_ret].
  destruct (format_error env message kwargs);
    [apply reads_only_raise | apply reads_only_ret].
Qed.

#[local] Hint Resolve reads_only_log_formatted : reads_only.

Lemma reads_only_create_embeddings_loop (env : Env) (model : string)
      (text_chunks : list string) :
  forall embeddings,
    reads_only (create_embeddings_loop env text_chunks model embeddings).
Proof.
  induction text_chunks as [| chunk rest IH]; intros embeddings; simpl.
  - apply reads_only_ret.
  - apply reads_only_bind; [| intros ?; apply IH].
    unfold call_embeddings_create. solve_reads_only.
Qed.

Lemma reads_only_rerank_loop (env : Env) (query : string)
      (documents : list SourceDocument) :
  forall reranked_results,
    reads_only (rerank_loop env query documents reranked_results).
Proof.
  induction documents as [| doc rest IH]; intros reranked_results; simpl.
  - apply reads_only_ret.
  - apply reads_only_bind; [| intros ?; apply IH].
    unfold relevance_score_of, call_chat_completions_create.
    solve_reads_only.
Qed.

#[local] Hint Resolve reads_only_create_embeddings_loop
  reads_only_rerank_loop : reads_only.

Lemma reads_only_query_index (env : Env) (query company_id : string)
      (top_k : Z) :
  reads_only (query_index env query company_id top_k).
Proof.
  unfold query_index, create_embeddings, get_index, search, rerank_documents,
    get_prompt_template, call_chat_completions_create.
  cbv zeta. solve_reads_only.
Qed.

(** X14: a query writes nothing.  Whatever it is asked and whether it
    returns or raises, [query_index] leaves every index of the search
    service and every tenant database as it found them, and so does the
    [/query] route; only the log of remote calls grows. *)
Theorem query_changes_no_index_and_no_tenant :
  forall (env : Env) (payload : QueryRequest) (query company_id : string)
         (top_k : Z) (w : World),
    (indexes (snd (query_index env query company_id top_k w)) = indexes w
     /\ tenants (snd (query_index env query company_id top_k w)) = tenants w)
    /\ (indexes (snd (query_rag_index env payload w)) = indexes w
        /\ tenants (snd (query_rag_index env payload w)) = tenants w).
Proof.
  intros env payload query company_id top_k w. split.
  - apply reads_only_query_index.
  - assert (H : reads_only (query_rag_index env payload)); [| apply H].
    unfold query_rag_index, expand_query, call_chat_completions_create.
    repeat first
      [ apply reads_only_query_index
      | reads_only_step ].
Qed.

(** X15: while no index has the base name, every query fails, whatever
    tenant-scoped indexes exist: [query_index] pays the embedding of the
    query, then raises [AppException] with code [INTERNAL_SERVER_ERROR] and
    the message "Failed to resolve index alias"; it makes no search and no
    completion call. *)
Theorem query_index_without_base_index :
  forall (env : Env) (query company_id : string) (top_k : Z) (w : World)
         (v : Embedding),
    embeddings_create env query (AZURE_SEARCH_DEPLOYMENT_NAME (settings env))
    = Ok v ->
    indexes w !! AZURE_SEARCH_INDEX_NAME (settings env) = None ->
    exists detail : string,
      query_index env query company_id top_k w
      = (Raise (AppException INTERNAL_SERVER_ERROR
                  "Failed to resolve index alias" [("error", detail)]),
         with_calls w
           [EmbeddingsCreate query
              (AZURE_SEARCH_DEPLOYMENT_NAME (settings env))]).
Proof.
  intros env query company_id top_k w v Hv Hbase.
  eexists. unfold query_index. cbv zeta.
  rewrite run_bind, run_create_embeddings_one, Hv.
  rewrite run_bind. unfold lift at 1. cbv beta iota.
  rewrite run_bind, run_try_except, run_get_index.
  unfold with_calls at 1. cbn [indexes]. rewrite Hbase.
  reflexivity.
Qed.

(** The theorem on a search service without indexes. *)
Lemma query_index_without_base_index_witness :
  exists detail : string,
    query_index example_env "who said hello?" "a" 10 fresh_world
    = (Raise (AppException INTERNAL_SERVER_ERROR
                "Failed to resolve index alias" [("error", detail)]),
       with_calls fresh_world
         [EmbeddingsCreate "who said hello?" "text-embedding"]).
Proof.
  apply (query_index_without_base_index example_env "who said hello?" "a" 10
           fresh_world [1%Q; 0%Q]).
  - reflexivity.
  - vm_compute. reflexivity.
Defined.

(** ** build_index_from_blob: its failures *)

Lemma build_index_from_blob_raises_failures (env : Env)
      (blob_url index_name : string) (connection_string : option string) :
  raises_only (blob_failure env)
    (build_index_from_blob env blob_url index_name connection_string).
Proof.
  unfold build_index_from_blob. cbv zeta.
  set (P := fun e => blob_stage_failure e \/ raised_by_logging env e).
  assert (Hlog : forall e, raised_by_logging env e -> P e)
    by (intros ? ?; right; assumption).
  intros w e w' H. rewrite run_try_except in H.
  match type of H with
  | match ?body w with _ => _ end = _ =>
      assert (Hbody : raises_only P body)
  end.
  { repeat (apply raises_only_bind; [| intros ?]);
      try apply raises_only_ret;
      apply raises_only_try_except; intros ?;
      (apply raises_only_bind;
       [apply raises_only_log_formatted; exact Hlog | intros ?]);
      apply raises_only_raise; left; eexists _, _;
      (split; [| reflexivity]); unfold blob_stage_messages; simpl; tauto. }
  match type of H with
  | match ?body w with _ => _ end = _ =>
      destruct (body w) as [[n | e1] w1] eqn:Hrun; [discriminate H |]
  end.
  destruct (Hbody _ _ _ Hrun)
    as [(stage & detail & Hstage & ->)
       | (message & kwargs & what & Hbrace & Hformat & ->)];
    simpl in H; inversion H; subst.
  - exists stage, detail. split; [left; exact Hstage | reflexivity].
  - exists "Failed to build index from blob", what.
    split; [| reflexivity].
    right. split; [reflexivity |].
    exists message, kwargs, what. repeat split; assumption.
Qed.

(** X21: every failure of the [/build-index-from-blob] route is an
    [HTTPException] with status 500 whose detail is the code
    [INTERNAL_SERVER_ERROR] in brackets and a message of
    [build_index_from_blob]: that of the stage that failed (download,
    chunking, embedding, upload), or "Failed to build index from blob".
    The latter is the message of the outermost handler, which fires only
    when the logging call of a stage handler raised on the braces in the
    text of the cause; the context of the exception is then the text of that
    logging error. *)
Theorem build_index_from_blob_route_names_the_failed_stage :
  forall (env : Env) (blob_url : string) (w w' : World) (e : PyExc),
    route_build_index_from_blob env blob_url w = (Raise e, w') ->
    exists message detail : string,
      (In message blob_stage_messages
       \/ (message = "Failed to build index from blob"
           /\ raised_by_logging env (LibraryError detail)))
      /\ build_index_from_blob env blob_url "saixgen_index" None w
         = (Raise (AppException INTERNAL_SERVER_ERROR message
                     [("error", detail)]), w')
      /\ e = HTTPException 500
               ("[ErrorCode.INTERNAL_SERVER_ERROR] " +:+ message).
Proof.
  intros env blob_url w w' e H.
  unfold route_build_index_from_blob in H. rewrite run_try_except in H.
  destruct (build_index_from_blob env blob_url "saixgen_index" None w)
    as [[n | e0] w0] eqn:Hrun; [discriminate H |].
  destruct (build_index_from_blob_raises_failures _ _ _ _ _ _ _ Hrun)
    as (message & detail & Hmessage & ->).
  assert (Hbrace :
    has_brace ("Error building index from blob: "
                 +:+ str_exc (AppException INTERNAL_SERVER_ERROR message
                                [("error", detail)])) = false).
  { destruct Hmessage as [Hstage | [-> _]]; [| reflexivity].
    unfold blob_stage_messages in Hstage. simpl in Hstage.
    repeat (destruct Hstage as [<- | Hstage]; [reflexivity |]).
    destruct Hstage. }
  rewrite run_bind, (run_log_formatted_no_brace _ _ _ _ Hbrace) in H.
  inversion H; subst. exists message, detail.
  split; [exact Hmessage |]. split; reflexivity.
Qed.

(** The theorem on a storage whose files have no record: the chunking stage
    fails and is named; and on a storage whose error text holds a brace:
    the message is the one of the outermost handler, brought about by a
    logging error. *)
Lemma build_index_from_blob_route_names_the_failed_stage_witness :
  (exists message : string,
      In message blob_stage_messages
      /\ HTTPException 500
           "[ErrorCode.INTERNAL_SERVER_ERROR] Failed to preprocess and chunk data"
         = HTTPException 500 ("[ErrorCode.INTERNAL_SERVER_ERROR] " +:+ message))
  /\ (exists detail : string,
        raised_by_logging env_brace_in_error (LibraryError detail)).
Proof.
  split.
  - assert (Hrun :
      route_build_index_from_blob env_empty_export "https://store/files/a.csv"
        fresh_world
      = (Raise (HTTPException 500
                  "[ErrorCode.INTERNAL_SERVER_ERROR] Failed to preprocess and chunk data"),
         snd (route_build_index_from_blob env_empty_export
                "https://store/files/a.csv" fresh_world))).
    { apply injective_projections; [vm_compute; reflexivity | reflexivity]. }
    destruct (build_index_from_blob_route_names_the_failed_stage _ _ _ _ _
                Hrun)
      as (message & detail & Hmessage & _ & He).
    exists message. split; [| exact He].
    destruct Hmessage as [Hstage | [-> _]]; [exact Hstage |].
    simpl in He. discriminate He.
  - assert (Hrun :
      route_build_index_from_blob env_brace_in_error
        "https://store/files/a.csv" fresh_world
      = (Raise (HTTPException 500
                  "[ErrorCode.INTERNAL_SERVER_ERROR] Failed to build index from blob"),
         snd (route_build_index_from_blob env_brace_in_error
                "https://store/files/a.csv" fresh_world))).
    { apply injective_projections; [vm_compute; reflexivity | reflexivity]. }
    destruct (build_index_from_blob_route_names_the_failed_stage _ _ _ _ _
                Hrun)
      as (message & detail & Hmessage & _ & He).
    exists detail.
    destruct Hmessage as [Hstage | [_ Hlogging]]; [| exact Hlogging].
    unfold blob_stage_messages in Hstage. simpl in Hstage.
    repeat (destruct Hstage as [<- | Hstage]; [discriminate He |]).
    destruct Hstage.
Defined.

(** The outermost handler at work: the storage fails with a text that holds
    a closing brace, the logging call of the download handler raises on it,
    and the route reports no stage. *)
Lemma build_index_from_blob_route_hides_the_stage :
  route_build_index_from_blob env_brace_in_error "https://store/files/a.csv"
    fresh_world
  = (Raise (HTTPException 500
              "[ErrorCode.INTERNAL_SERVER_ERROR] Failed to build index from blob"),
     fresh_world).
Proof. vm_compute. reflexivity. Qed.

End RagFacts.

(* ================================================================== *)
(** * Properties of temporary_env *)
(* ================================================================== *)

Module EnvManagerFacts.
Import EnvManager.

(** X16: [temporary_env] gives the variable back.  Whatever the block does
    (return, raise, overwrite the variable or unset it), after the [with]
    statement the variable has the value it had before, or is unset if it
    was; the other variables are as the block left them; and a block that
    leaves the environment alone leaves the whole environment as it was
    before the statement. *)
Theorem temporary_env_restores_variable :
  forall (A E : Type) (var value : string)
         (block : Environ -> (A + E) * Environ) (environ : Environ),
    snd (temporary_env var value block environ) !! var = environ !! var
    /\ (forall other : string,
          other <> var ->
          snd (temporary_env var value block environ) !! other
          = snd (block (<[var := value]> environ)) !! other)
    /\ (snd (block (<[var := value]> environ)) = <[var := value]> environ ->
        snd (temporary_env var value block environ) = environ).
Proof.
  intros A E var value block environ.
  unfold temporary_env, temporary_env_enter, temporary_env_finally.
  unfold Environ in *.
  destruct (block (<[var := value]> environ)) as [r environ1] eqn:Hblock.
  cbv beta iota zeta. cbn [snd].
  destruct (environ !! var) as [o |] eqn:Horiginal.
  - cbn [snd]. split; [apply lookup_insert_eq |].
    split.
    + intros other Hother. apply lookup_insert_ne. congruence.
    + intros Hsame. rewrite Hsame, insert_insert_eq. apply insert_id.
      exact Horiginal.
  - destruct (environ1 !! var) as [v |] eqn:Hvar; cbn [snd].
    + split; [apply lookup_delete_eq |].
      split.
      * intros other Hother. apply lookup_delete_ne. congruence.
      * intros Hsame. rewrite Hsame. apply delete_insert_id.
        exact Horiginal.
    + split; [exact Hvar |].
      split; [reflexivity |].
      intros Hsame. rewrite Hsame, lookup_insert_eq in Hvar.
      discriminate Hvar.
Qed.

(** X17: two uses on the same variable that overlap and end in the order
    they began do not give the variable back.  Neither [finally] clause
    raises, and at the end the variable holds the value of the first use:
    the second use kept it as its [original].  The other variables are
    untouched. *)
Theorem overlapping_temporary_env_leaves_first_value :
  forall (var value_a value_b : string) (environ : Environ),
    exists environ' : Environ,
      overlapping_uses var value_a value_b environ = (None, None, environ')
      /\ environ' !! var = Some value_a
      /\ (forall other : string,
            other <> var -> environ' !! other = environ !! other).
Proof.
  intros var value_a value_b environ.
  unfold overlapping_uses, temporary_env_enter, temporary_env_finally.
  unfold Environ in *. cbv beta iota zeta.
  rewrite lookup_insert_eq.
  destruct (environ !! var) as [o |]; cbv beta iota zeta;
    rewrite ?lookup_insert_eq; cbv beta iota zeta;
    (eexists; split; [reflexivity |]; split; [apply lookup_insert_eq |];
     intros other Hother;
     rewrite ?lookup_insert_ne, ?lookup_delete_ne, ?lookup_insert_ne
       by congruence;
     reflexivity).
Qed.

End EnvManagerFacts.

(* ================================================================== *)
(** * Properties of the chat service *)
(* ================================================================== *)

Module ChatFacts.
Import Rag Chat Examples RagFacts.

(** X18: a message sent to a session the company has no room for does not
    raise the [AppException] the code writes.  The exception is constructed
    with the string "CHAT_ROOM_NOT_FOUND" in place of an [ErrorCode] member,
    and its constructor raises [AttributeError]; nothing has been written
    and no remote call made. *)
Theorem send_message_unknown_session_raises_AttributeError :
  forall (env : Env) (request : ChatMessageSendRequest)
         (current_user : ChatUser) (cw : ChatWorld) (t : Tenant),
    tenants (world cw) !! user_company_id current_user = Some t ->
    chatroom_find_unique (tables_of cw (user_company_id current_user))
      (session_id request) (user_company_id current_user) = None ->
    send_message env request current_user cw
    = (inl (AttributeError "'str' object has no attribute 'status_code'"), cw).
Proof.
  intros env request current_user [w c] t Ht Hroom. cbn [world] in Ht.
  unfold send_message. cbv zeta. cbn [world chat].
  rewrite (run_tenant_client_context _ _ _ Ht), Hroom. reflexivity.
Qed.

(** The theorem on a session id tenant [a] has no room for. *)
Lemma send_message_unknown_session_raises_AttributeError_witness :
  send_message example_env
    {| session_id := "room-2"; user_message := "who said hello?";
       senpai_id := "s1" |} user_of_a chat_world
  = (inl (AttributeError "'str' object has no attribute 'status_code'"),
     chat_world).
Proof.
  apply (send_message_unknown_session_raises_AttributeError example_env _
           user_of_a chat_world (tenant_of fresh_world "a")).
  - vm_compute. reflexivity.
  - vm_compute. reflexivity.
Defined.

(** X19: [send_message] stores both messages or none.  When it raises, the
    chat tables of every tenant are as before: the user's message, written
    before the answer was asked for, is undone with the transaction.  When
    it returns, the tables of the user's company have gained exactly the
    user's message followed by the assistant's, whose content is the answer
    returned, and no other company's tables have changed.  In both cases the
    indexes and the tenant databases of the RAG service are untouched. *)
Theorem send_message_stores_both_messages_or_none :
  forall (env : Env) (request : ChatMessageSendRequest)
         (current_user : ChatUser) (cw : ChatWorld),
    match send_message env request current_user cw with
    | (inl _, cw') => chat cw' = chat cw
    | (inr response, cw') =>
        exists rag_response : QueryResponse,
          system_reply response = answer rag_response
          /\ system_score response = scores rag_response
          /\ chatmessage (tables_of cw' (user_company_id current_user))
             = chatmessage (tables_of cw (user_company_id current_user))
               ++ [{| roomId := session_id request;
                      isAssistant := false;
                      senpaiId := None;
                      message_content := user_message request;
                      metadata := "{}" |};
                   {| roomId := session_id request;
                      isAssistant := true;
                      senpaiId := Some (senpai_id request);
                      message_content := answer rag_response;
                      metadata := "{}" |}]
          /\ (forall other : string,
                other <> user_company_id current_user ->
                chat cw' !! other = chat cw !! other)
    end
    /\ indexes (world (snd (send_message env request current_user cw)))
       = indexes (world cw)
    /\ tenants (world (snd (send_message env request current_user cw)))
       = tenants (world cw).
Proof.
  intros env request current_user cw.
  unfold send_message. cbv zeta.
  destruct (tenant_client_context_by_company_id
              (user_company_id current_user) (world cw))
    as [[[] | e] w] eqn:Hctx.
  - assert (Hw : w = world cw).
    { unfold tenant_client_context_by_company_id in Hctx.
      apply bind_Ok_inv in Hctx. destruct Hctx as (t & w1 & Ht & Hret).
      apply tenant_database_Ok_inv in Ht. destruct Ht as [_ ->].
      inversion Hret. reflexivity. }
    subst w.
    destruct (chatroom_find_unique
                (tables_of cw (user_company_id current_user))
                (session_id request) (user_company_id current_user))
      as [chat_room |].
    + match goal with
      | |- context [query_index env ?q ?c ?k (world cw)] =>
          pose proof (reads_only_query_index env q c k (world cw)) as Hread;
          destruct (query_index env q c k (world cw))
            as [[rag_response | e] w1]
      end; cbn [snd] in Hread; cbn [snd world chat].
      * split; [| exact Hread].
        exists rag_response. split; [reflexivity |]. split; [reflexivity |].
        split.
        -- unfold tables_of at 1. cbn [chat].
           rewrite lookup_insert_eq. unfold default, Datatypes.id.
           unfold chatmessage_create. cbn [chatmessage].
           rewrite <- List.app_assoc. reflexivity.
        -- intros other Hother. apply lookup_insert_ne. congruence.
      * split; [reflexivity | exact Hread].
    + cbn [snd world chat]. repeat split; reflexivity.
  - cbn [snd world chat].
    pose proof (reads_only_tenant_database (user_company_id current_user)
                  (world cw)) as Hread.
    unfold tenant_client_context_by_company_id in Hctx.
    rewrite run_bind in Hctx.
    destruct (tenant_database (user_company_id current_user) (world cw))
      as [[t | e1] w1]; [discriminate Hctx |].
    inversion Hctx; subst. cbn [snd] in Hread.
    split; [reflexivity | exact Hread].
Qed.

(** X20: the chat path does not expand the query.  For a session that
    exists, the first remote call of [send_message] is the embedding of
    [rag_query], the user's message as typed (with the senior's name put
    before it when one is chosen); no completion call rewrites it first. *)
Theorem send_message_embeds_the_message_unexpanded :
  forall (env : Env) (request : ChatMessageSendRequest)
         (current_user : ChatUser) (cw : ChatWorld) (t : Tenant)
         (chat_room : ChatRoom),
    tenants (world cw) !! user_company_id current_user = Some t ->
    chatroom_find_unique (tables_of cw (user_company_id current_user))
      (session_id request) (user_company_id current_user) = Some chat_room ->
    exists more : list Call,
      calls (world (snd (send_message env request current_user cw)))
      = calls (world cw)
        ++ EmbeddingsCreate
             (rag_query_of
                (chatmessage_create
                   (tables_of cw (user_company_id current_user))
                   {| roomId := session_id request;
                      isAssistant := false;
                      senpaiId := None;
                      message_content := user_message request;
                      metadata := "{}" |})
                request)
             (AZURE_SEARCH_DEPLOYMENT_NAME (settings env))
        :: more.
Proof.
  intros env request current_user cw t chat_room Ht Hroom.
  unfold send_message. cbv zeta.
  rewrite (run_tenant_client_context _ _ _ Ht), Hroom.
  match goal with
  | |- context [query_index env ?q ?c ?k (world cw)] =>
      destruct (query_index_embeds_first env q c k (world cw))
        as (more & Hcalls);
      destruct (query_index env q c k (world cw)) as [[rag_response | e] w1]
  end; cbn [snd] in Hcalls; cbn [snd world]; exists more; exact Hcalls.
Qed.

(** The theorem on a message for senior bob in the room of tenant [a]. *)
Lemma send_message_embeds_the_message_unexpanded_witness :
  exists more : list Call,
    calls (world (snd (send_message example_env
                         {| session_id := "room-1";
                            user_message := "who said hello?";
                            senpai_id := "s1" |} user_of_a chat_world)))
    = EmbeddingsCreate "bobについて教えて: who said hello?" "text-embedding"
      :: more.
Proof.
  destruct (send_message_embeds_the_message_unexpanded example_env
              {| session_id := "room-1"; user_message := "who said hello?";
                 senpai_id := "s1" |} user_of_a chat_world
              (tenant_of fresh_world "a") {| room_companyId := "a" |})
    as (more & Hcalls).
  - vm_compute. reflexivity.
  - vm_compute. reflexivity.
  - exists more. rewrite Hcalls. reflexivity.
Defined.

End ChatFacts.
